(** * Multi-agent session / provider runtime: a shallow embedding

    The development follows the TypeScript sources of the runtime:

    - [providers/types.ts]                    (module [Types])
    - [providers/base/BaseProviderSession.ts] (module [BaseProviderSession])
    - [core/chatSession.ts]                   (module [BaseChatSession])
    - [providers/base/BaseProviderClient.ts]  (module [BaseProviderClient])
    - [providers/claude/ClaudeProviderClient.ts], the Claude chat session
      and [providers/ollama/OllamaProviderClient.ts] with the Ollama chat
      session (modules [ClaudeProviderClient], [ClaudeChatSession],
      [OllamaProviderClient], [OllamaChatSession]); the validation and
      conversion of requests in the adapters (module [ProviderRequests])
    - the tool registry and the tool manager  (modules
      [ProviderToolRegistry], [ToolManager])
    - [config/providerConfig.ts], [providers/manager/ProviderFactory.ts]
      and [providers/manager/AgentManager.ts] (modules
      [ProviderConfigValidation], [ProviderFactory], [MultiAgentManager])

    Asynchronous methods are modelled by their sequential effect on the
    object state (the runtime is single threaded and every method is
    awaited by its caller); the answers of the outside world (clock, random
    source, environment variables, network probes, provider streams, the
    JSON reader) are explicit arguments.  JavaScript numbers that count or
    compare counts are integers, delays are exact rationals.

    The modules of the embedding come first, then the invariants
    ([Specs]) and the sample inputs ([Samples]), then the theorems. *)

From Stdlib Require Import String Ascii List ZArith QArith Lia Lqa Bool Arith.
From Stdlib Require Import DecimalString.
Import ListNotations.

Open Scope list_scope.

(** ** JavaScript helpers *)

Module Js.

(** Truthiness of a JavaScript string: the empty string is falsy. *)
Definition truthyString (s : string) : bool :=
  match s with
  | EmptyString => false
  | String _ _ => true
  end.

(** Truthiness of an optional string property ([undefined] is falsy). *)
Definition truthy (o : option string) : bool :=
  match o with
  | Some s => truthyString s
  | None => false
  end.

(** [a || b] on optional strings. *)
Definition orElse (a : option string) (b : option string) : option string :=
  if truthy a then a else b.

(** [a || d] where [d] is a string literal. *)
Definition orDefault (a : option string) (d : string) : string :=
  match a with
  | Some s => if truthyString s then s else d
  | None => d
  end.

Definition isSome {A : Type} (o : option A) : bool :=
  match o with
  | Some _ => true
  | None => false
  end.

(** [s.startsWith(p)]. *)
Definition startsWith (s p : string) : bool := String.prefix p s.

(** [s.includes(p)]: [p] occurs in [s]. *)
Fixpoint includes (s p : string) : bool :=
  if String.prefix p s then true
  else match s with
       | EmptyString => false
       | String _ s' => includes s' p
       end.

(** [s.endsWith(p)]. *)
Definition endsWith (s p : string) : bool :=
  let n := String.length s in
  let k := String.length p in
  if Nat.leb k n then String.eqb (String.substring (n - k) k s) p else false.

(** [s.slice(n)] for [0 <= n]. *)
Fixpoint slice (n : nat) (s : string) : string :=
  match n, s with
  | O, _ => s
  | S n', String _ s' => slice n' s'
  | S _, EmptyString => EmptyString
  end.

Definition newline : ascii := Ascii.ascii_of_nat 10.

(** [s.split('\n')]: never empty, [''.split('\n')] is [['']]. *)
Fixpoint splitLines (s : string) : list string :=
  match s with
  | EmptyString => [EmptyString]
  | String c s' =>
      if Ascii.eqb c newline then EmptyString :: splitLines s'
      else match splitLines s' with
           | [] => [String c EmptyString]
           | l :: ls => String c l :: ls
           end
  end.

(** The text a sequence of reads adds up to. *)
Definition joined (reads : list string) : string :=
  fold_right String.append EmptyString reads.

(** [Array.prototype.includes] on strings. *)
Definition arrayIncludes (xs : list string) (x : string) : bool :=
  existsb (String.eqb x) xs.

(** [c.toLowerCase()] on one character: the letters A to Z are mapped to
    a to z, every other character is kept. *)
Definition lowerAscii (c : ascii) : ascii :=
  let n := Ascii.nat_of_ascii c in
  if Nat.leb 65 n && Nat.leb n 90 then Ascii.ascii_of_nat (n + 32) else c.

(** [s.toLowerCase()] as far as the letters A to Z go; no other
    character is turned into one of a to z by the full operation, except
    the Kelvin sign, so that a search for a text without k gives the same
    answer. *)
Fixpoint toLowerCase (s : string) : string :=
  match s with
  | EmptyString => EmptyString
  | String c s' => String (lowerAscii c) (toLowerCase s')
  end.

(** [arr.join(sep)] on strings. *)
Definition join (sep : string) (xs : list string) : string :=
  String.concat sep xs.

(** The decimal rendering of an integer in a template literal. *)
Definition numberToString (n : Z) : string :=
  NilZero.string_of_int (Z.to_int n).

End Js.

(** ** An insertion-ordered [Map<string, V>] *)

Module JsMap.

Section WithValue.
Context {V : Type}.

Definition t : Type := list (string * V).

Definition empty : t := [].

Fixpoint get (k : string) (m : t) : option V :=
  match m with
  | [] => None
  | (k', v) :: m' => if String.eqb k' k then Some v else get k m'
  end.

Definition has (k : string) (m : t) : bool := Js.isSome (get k m).

(** [set] keeps the position of a key that is already present and appends
    a new key at the end, as the iteration order of a JavaScript Map. *)
Fixpoint set (k : string) (v : V) (m : t) : t :=
  match m with
  | [] => [(k, v)]
  | (k', v') :: m' =>
      if String.eqb k' k then (k', v) :: m' else (k', v') :: set k v m'
  end.

(** [delete] removes the entry of the key (a map holds at most one). *)
Definition delete (k : string) (m : t) : t :=
  filter (fun kv => negb (String.eqb (fst kv) k)) m.

Definition size (m : t) : nat := List.length m.

Definition keys (m : t) : list string := List.map fst m.

Definition values (m : t) : list V := List.map snd m.

End WithValue.

Arguments t V : clear implicits.

End JsMap.

(** ** The unified contract ([providers/types.ts]) *)

Module Types.

Inductive AIProvider : Type := GEMINI | CLAUDE | OLLAMA.

Definition providerName (p : AIProvider) : string :=
  match p with
  | GEMINI => "gemini"
  | CLAUDE => "claude"
  | OLLAMA => "ollama"
  end.

Definition provider_eqb (a b : AIProvider) : bool :=
  match a, b with
  | GEMINI, GEMINI | CLAUDE, CLAUDE | OLLAMA, OLLAMA => true
  | _, _ => false
  end.

Inductive ProviderAuthType : Type :=
| OAUTH_PERSONAL | GEMINI_API_KEY | VERTEX_AI | CLOUD_SHELL
| CLAUDE_API_KEY | OLLAMA_LOCAL | OLLAMA_REMOTE.

Definition authTypeName (a : ProviderAuthType) : string :=
  match a with
  | OAUTH_PERSONAL => "oauth-personal"
  | GEMINI_API_KEY => "gemini-api-key"
  | VERTEX_AI => "vertex-ai"
  | CLOUD_SHELL => "cloud-shell"
  | CLAUDE_API_KEY => "claude-api-key"
  | OLLAMA_LOCAL => "ollama-local"
  | OLLAMA_REMOTE => "ollama-remote"
  end.

Record ProviderConfig : Type := mkProviderConfig {
  provider : AIProvider;
  model : string;
  authType : ProviderAuthType;
  apiKey : option string;
  endpoint : option string;
  proxy : option string;
  enabled : bool;
  maxTokens : option Z;
  temperature : option Q;
  topP : option Q
}.

(** A part of a turn: each field is an own property of the object that
    is present ([Some]) or absent ([None]). *)
Record Part : Type := mkPart {
  text : option string;
  inlineData : option (string * string);
  fileData : option string;
  functionCall : option string
}.

Definition textPart (s : string) : Part :=
  {| text := Some s; inlineData := None; fileData := None; functionCall := None |}.

(** A turn: [role] and [parts] are both optional in the content type. *)
Record Content : Type := mkContent {
  role : option string;
  parts : option (list Part)
}.

Definition userTurn (ps : list Part) : Content :=
  {| role := Some "user"%string; parts := Some ps |}.

Definition modelTurn (ps : list Part) : Content :=
  {| role := Some "model"%string; parts := Some ps |}.

Record UsageMetadata : Type := mkUsage {
  promptTokenCount : option Z;
  candidatesTokenCount : option Z;
  totalTokenCount : option Z
}.

(** A unified response.  The [id] of a response is a fresh tag built from
    the clock and the random source ([generateResponseId]); it carries no
    content and is left out, [provider] and [model] are constants of the
    client. *)
Record UnifiedResponse : Type := mkResponse {
  content : list Content;
  usageMetadata : option UsageMetadata;
  finishReason : option string
}.

(** Thrown values: a [ProviderError] (with its subclasses, which only fix
    the code and status) or any other [Error], which has a message only. *)
Inductive JsError : Type :=
| ProviderError (message : string) (p : AIProvider)
                (code : option string) (statusCode : option Z)
| PlainError (message : string).

Definition AuthenticationError (message : string) (p : AIProvider) : JsError :=
  ProviderError message p (Some "AUTHENTICATION_ERROR"%string) (Some 401%Z).

Definition RateLimitError (message : string) (p : AIProvider) : JsError :=
  ProviderError message p (Some "RATE_LIMIT_ERROR"%string) (Some 429%Z).

Definition ModelNotFoundError (message : string) (p : AIProvider) : JsError :=
  ProviderError message p (Some "MODEL_NOT_FOUND"%string) (Some 404%Z).

Definition errorMessage (e : JsError) : string :=
  match e with
  | ProviderError m _ _ _ => m
  | PlainError m => m
  end.

(** How a provider stream ends once its responses have been delivered. *)
Inductive StreamEnd : Type :=
| Completes
| Throws (e : JsError).

(** A provider stream as its consumer observes it when it drains it. *)
Record ProviderStream : Type := mkStream {
  responses : list UnifiedResponse;
  ending : StreamEnd
}.

End Types.

(** ** [BaseProviderSession] ([providers/base/BaseProviderSession.ts]) *)

Module BaseProviderSession.
Import Types.

(** [createUserContent(message)]: a string becomes one text part of a
    user turn, a part list becomes the parts of a user turn. *)
Definition createUserContent (message : string + list Part) : Content :=
  match message with
  | inl s => userTurn [textPart s]
  | inr ps => userTurn ps
  end.

(** *** [sendMessage] *)

(** [sendMessage]: the client call either throws (history untouched) or
    returns a response; then the user turn and the response content are
    pushed. *)
Definition sendMessage (message : string + list Part)
  (clientResult : JsError + UnifiedResponse) (history : list Content)
  : (JsError + UnifiedResponse) * list Content :=
  let userContent := createUserContent message in
  match clientResult with
  | inl e => (inl e, history)
  | inr response => (inr response, (history ++ [userContent]) ++ content response)
  end.

(** *** [wrapStreamWithHistoryUpdate] *)

(** The local state of the generator: the session history it mutates and
    its two local variables. *)
Record WrapState : Type := mkWrap {
  history : list Content;
  modelContents : list Content;
  hasAddedUserContent : bool
}.

Definition wrapStart (h : list Content) : WrapState :=
  {| history := h; modelContents := []; hasAddedUserContent := false |}.

(** One iteration of the [for await] loop, up to its [yield]. *)
Definition wrapOnResponse (userContent : Content) (st : WrapState)
  (response : UnifiedResponse) : WrapState :=
  let h := if hasAddedUserContent st then history st
           else history st ++ [userContent] in
  let mc := match content response with
            | [] => modelContents st
            | _ :: _ => modelContents st ++ content response
            end in
  {| history := h; modelContents := mc; hasAddedUserContent := true |}.

(** After the loop: the accumulated contents are pushed. *)
Definition wrapOnDone (st : WrapState) : list Content :=
  match modelContents st with
  | [] => history st
  | _ :: _ => history st ++ modelContents st
  end.

(** The [catch] block. *)
Definition wrapOnThrow (userContent : Content) (st : WrapState) : list Content :=
  if hasAddedUserContent st then history st
  else history st ++ [userContent].

(** The generator states at the successive [yield]s: the n-th element is
    the state in which the n-th response is handed to the consumer. *)
Fixpoint wrapYields (userContent : Content) (st : WrapState)
  (rs : list UnifiedResponse) : list (UnifiedResponse * WrapState) :=
  match rs with
  | [] => []
  | r :: rs' =>
      let st' := wrapOnResponse userContent st r in
      (r, st') :: wrapYields userContent st' rs'
  end.

(** The generator state when the provider stream has delivered [rs]. *)
Definition wrapAfter (userContent : Content) (st : WrapState)
  (rs : list UnifiedResponse) : WrapState :=
  fold_left (wrapOnResponse userContent) rs st.

(** What a consumer that drains the wrapped stream observes. *)
Record StreamRun : Type := mkRun {
  yielded : list (UnifiedResponse * list Content);
  finalHistory : list Content;
  thrown : option JsError
}.

Definition wrapStreamWithHistoryUpdate (userContent : Content)
  (responseStream : ProviderStream) (h : list Content) : StreamRun :=
  let st := wrapAfter userContent (wrapStart h) (responses responseStream) in
  {| yielded :=
       map (fun p => (fst p, history (snd p)))
           (wrapYields userContent (wrapStart h) (responses responseStream));
     finalHistory :=
       match ending responseStream with
       | Completes => wrapOnDone st
       | Throws _ => wrapOnThrow userContent st
       end;
     thrown :=
       match ending responseStream with
       | Completes => None
       | Throws e => Some e
       end |}.

(** [sendMessageStream]: [generateContentStream] either throws before any
    stream exists (nothing is wrapped, the history is untouched) or returns
    the provider stream, which is wrapped and, here, drained. *)
Definition sendMessageStream (message : string + list Part)
  (clientResult : JsError + ProviderStream) (h : list Content) : StreamRun :=
  match clientResult with
  | inl e => {| yielded := []; finalHistory := h; thrown := Some e |}
  | inr s => wrapStreamWithHistoryUpdate (createUserContent message) s h
  end.

(** *** Curated history *)

(** [Object.keys(part).length]. *)
Definition partKeyCount (p : Part) : nat :=
  (if Js.isSome (text p) then 1 else 0)
  + (if Js.isSome (inlineData p) then 1 else 0)
  + (if Js.isSome (fileData p) then 1 else 0)
  + (if Js.isSome (functionCall p) then 1 else 0).

(** The body of the loop of [isValidContent] for one part. *)
Definition isValidPart (p : Part) : bool :=
  if Nat.eqb (partKeyCount p) 0 then false
  else match text p with
       | Some EmptyString => false
       | _ => true
       end.

Definition isValidContent (c : Content) : bool :=
  match parts c with
  | None => false
  | Some [] => false
  | Some ps => forallb isValidPart ps
  end.

Definition getCuratedHistory (h : list Content) : list Content :=
  filter isValidContent h.

Definition getHistory (h : list Content) : list Content := h.

Definition setHistory (newHistory : list Content) (h : list Content)
  : list Content := newHistory.

Definition clearHistory (h : list Content) : list Content := [].

(** *** Token budget *)

Definition roleIs (r : string) (c : option Content) : bool :=
  match c with
  | Some c' => match role c' with
               | Some r' => String.eqb r' r
               | None => false
               end
  | None => false
  end.

(** One iteration of the [while] body: [splice(0, 2)] or [splice(0, 1)]. *)
Definition trimStep (h : list Content) : list Content :=
  if roleIs "user" (nth_error h 0) && roleIs "model" (nth_error h 1)
  then skipn 2 h
  else skipn 1 h.

(** The [while] loop; every iteration removes a turn, so [length h]
    iterations are always enough (lemma [trimLoop_fuel] below). *)
Fixpoint trimLoop (countTokens : list Content -> Z) (maxTokens : Z)
  (fuel : nat) (h : list Content) : list Content :=
  match fuel with
  | O => h
  | S fuel' =>
      if Nat.ltb 2 (List.length h) && Z.ltb maxTokens (countTokens h)
      then trimLoop countTokens maxTokens fuel' (trimStep h)
      else h
  end.

Definition trimHistoryToTokenLimit (countTokens : list Content -> Z)
  (maxTokens : Z) (h : list Content) : list Content :=
  if Z.leb (countTokens h) maxTokens then h
  else trimLoop countTokens maxTokens (List.length h) h.

End BaseProviderSession.

(** ** [BaseChatSession] ([core/chatSession.ts]) *)

Module BaseChatSession.
Import Types.

(** The mutators the class implements for every chat session. *)
Inductive Mutator : Type :=
| SetHistory (h : list Content)
| ClearHistory
| AddHistory (c : Content).

Definition setHistory (newHistory : list Content) (h : list Content)
  : list Content := newHistory.

Definition clearHistory (h : list Content) : list Content := [].

Definition addHistory (c : Content) (h : list Content) : list Content :=
  h ++ [c].

Definition applyMutator (h : list Content) (m : Mutator) : list Content :=
  match m with
  | SetHistory h' => setHistory h' h
  | ClearHistory => clearHistory h
  | AddHistory c => addHistory c h
  end.

(** The history of a new session after a sequence of mutator calls. *)
Definition historyAfter (ms : list Mutator) : list Content :=
  fold_left applyMutator ms [].

(** [getHistory(curated = false)]: the body clones the history and does
    not read [curated]. *)
Definition getHistory (curated : bool) (h : list Content) : list Content := h.

(** The two shapes of turn a curated view may not contain. *)
Definition hasZeroParts (c : Content) : bool :=
  match parts c with
  | None => true
  | Some [] => true
  | Some (_ :: _) => false
  end.

Definition isEmptyTextPart (p : Part) : bool :=
  match text p with
  | Some EmptyString => true
  | _ => false
  end.

Definition soleEmptyTextPart (c : Content) : bool :=
  match parts c with
  | Some [p] => isEmptyTextPart p
  | _ => false
  end.

(** *** Usage metadata and statistics *)

(** A response chunk in the Gemini format, as far as the session reads
    it: the parts of its one candidate and its usage metadata. *)
Record GenerateContentResponse : Type := mkGenerated {
  candidateParts : list Part;
  responseFinishReason : string;
  responseUsage : option UsageMetadata
}.

(** [getFinalUsageMetadata(chunks)]:
    [chunks.slice().reverse().find(chunk => chunk.usageMetadata)?.usageMetadata]. *)
Definition getFinalUsageMetadata (chunks : list GenerateContentResponse)
  : option UsageMetadata :=
  match find (fun chunk => Js.isSome (responseUsage chunk)) (rev chunks) with
  | Some lastChunk => responseUsage lastChunk
  | None => None
  end.

(** The counters of [ChatSessionStats]; the provider, the model and the
    session duration are left out. *)
Record ChatSessionStats : Type := mkChatStats {
  messageCount : Z;
  tokenInput : Z;
  tokenOutput : Z;
  tokenTotal : Z;
  toolCallCount : Z;
  errorCount : Z;
  averageResponseTime : Q
}.

(** The statistics of a new session. *)
Definition initialStats : ChatSessionStats :=
  {| messageCount := 0; tokenInput := 0; tokenOutput := 0; tokenTotal := 0;
     toolCallCount := 0; errorCount := 0; averageResponseTime := 0 |}.

(** [updateStats(inputTokens, outputTokens, responseTime)]. *)
Definition updateStats (inputTokens outputTokens : Z) (responseTime : Q)
  (s : ChatSessionStats) : ChatSessionStats :=
  let n := (messageCount s + 1)%Z in
  let totalResponseTime :=
    (averageResponseTime s * inject_Z (n - 1) + responseTime)%Q in
  {| messageCount := n;
     tokenInput := (tokenInput s + inputTokens)%Z;
     tokenOutput := (tokenOutput s + outputTokens)%Z;
     tokenTotal := (tokenTotal s + (inputTokens + outputTokens))%Z;
     toolCallCount := toolCallCount s;
     errorCount := errorCount s;
     averageResponseTime := (totalResponseTime / inject_Z n)%Q |}.

Definition incrementToolCallCount (s : ChatSessionStats) : ChatSessionStats :=
  {| messageCount := messageCount s;
     tokenInput := tokenInput s;
     tokenOutput := tokenOutput s;
     tokenTotal := tokenTotal s;
     toolCallCount := (toolCallCount s + 1)%Z;
     errorCount := errorCount s;
     averageResponseTime := averageResponseTime s |}.

Definition incrementErrorCount (s : ChatSessionStats) : ChatSessionStats :=
  {| messageCount := messageCount s;
     tokenInput := tokenInput s;
     tokenOutput := tokenOutput s;
     tokenTotal := tokenTotal s;
     toolCallCount := toolCallCount s;
     errorCount := (errorCount s + 1)%Z;
     averageResponseTime := averageResponseTime s |}.

(** The message a chat session is sent: a string, a turn or parts. *)
Inductive ChatMessage : Type :=
| MessageString (s : string)
| MessageContent (c : Content)
| MessageParts (ps : list Part).

(** [convertMessageToParts(message)], the same in the Claude and the
    Ollama session. *)
Definition convertMessageToParts (message : ChatMessage) : list Part :=
  match message with
  | MessageString s => [textPart s]
  | MessageParts ps => ps
  | MessageContent c => match parts c with
                        | Some ps => ps
                        | None => []
                        end
  end.

(** A [ChatSessionError]: its class name, message and code; the session
    id and the provider it carries are those of the session. *)
Record ChatSessionError : Type := mkChatError {
  errorName : string;
  chatErrorMessage : string;
  chatErrorCode : option string
}.

Definition ChatSessionTimeoutError : ChatSessionError :=
  {| errorName := "ChatSessionTimeoutError";
     chatErrorMessage := "Chat session request timed out";
     chatErrorCode := Some "TIMEOUT"%string |}.

Definition ChatSessionRateLimitError : ChatSessionError :=
  {| errorName := "ChatSessionRateLimitError";
     chatErrorMessage := "Rate limit exceeded for chat session";
     chatErrorCode := Some "RATE_LIMIT"%string |}.

(** A value a chat stream throws: a [ChatSessionError] or another error. *)
Inductive Thrown : Type :=
| ThrownChatError (e : ChatSessionError)
| ThrownError (e : JsError).

(** How the stream a chat session wraps ends. *)
Inductive ChatStreamEnd : Type :=
| StreamCompletes
| StreamThrows (e : Thrown).

(** What a consumer that drains a wrapped chat stream observes: every
    yielded chunk with the session history at that moment, then the
    history and the statistics the generator leaves, and the error it
    threw, if it did. *)
Record ChatStreamRun : Type := mkChatRun {
  chatYielded : list (GenerateContentResponse * list Content);
  chatHistory : list Content;
  chatStats : ChatSessionStats;
  chatThrown : option ChatSessionError
}.

End BaseChatSession.

(** ** [BaseProviderClient] ([providers/base/BaseProviderClient.ts]) *)

Module BaseProviderClient.
Import Types.

(** The environment variables the runtime reads. *)
Record Env : Type := mkEnv {
  ENV_GEMINI_API_KEY : option string;
  ENV_GOOGLE_API_KEY : option string;
  ENV_ANTHROPIC_API_KEY : option string;
  ENV_OLLAMA_HOST : option string
}.

(** A constructed adapter: its provider, the config it was built from and
    the credential and endpoint its constructor resolved. *)
Record ProviderClient : Type := mkClient {
  clientProvider : AIProvider;
  config : ProviderConfig;
  clientApiKey : string;
  clientEndpoint : string
}.

(** The constructor of the base class: a disabled config throws. *)
Definition construct (c : ProviderConfig) : JsError + unit :=
  if negb (enabled c)
  then inl (ProviderError
              (String.append "Provider "
                 (String.append (providerName (provider c)) " is disabled"))
              (provider c) None None)
  else inr tt.

(** [Math.ceil(n / 4)] for a length [n]. *)
Definition ceilDiv4 (n : nat) : Z := ((Z.of_nat n + 3) / 4)%Z.

Definition partTokens (p : Part) : Z :=
  match text p with
  | Some s => if Js.truthyString s then ceilDiv4 (String.length s) else 0%Z
  | None => 0%Z
  end.

Definition contentTokens (c : Content) : Z :=
  match parts c with
  | Some ps => fold_left (fun acc p => (acc + partTokens p)%Z) ps 0%Z
  | None => 0%Z
  end.

(** [estimateTokens]: about four characters per token. *)
Definition estimateTokens (contents : list Content) : Z :=
  fold_left (fun acc c => (acc + contentTokens c)%Z) contents 0%Z.

(** [handleError]: a [ProviderError] is returned as it is, any other
    error is classified by the substrings of its message. *)
Definition handleError (self : AIProvider) (error : JsError) : JsError :=
  match error with
  | ProviderError _ _ _ _ => error
  | PlainError m =>
      let message := if Js.truthyString m then m else "Unknown error"%string in
      if Js.includes message "401" || Js.includes message "unauthorized"
      then ProviderError message self (Some "AUTHENTICATION_ERROR"%string) (Some 401%Z)
      else if Js.includes message "429" || Js.includes message "rate limit"
      then ProviderError message self (Some "RATE_LIMIT_ERROR"%string) (Some 429%Z)
      else if Js.includes message "404" || Js.includes message "not found"
      then ProviderError message self (Some "NOT_FOUND_ERROR"%string) (Some 404%Z)
      else if Js.includes message "403" || Js.includes message "forbidden"
      then ProviderError message self (Some "FORBIDDEN_ERROR"%string) (Some 403%Z)
      else ProviderError message self (Some "UNKNOWN_ERROR"%string) (Some 500%Z)
  end.

(** The guard of [retryWithBackoff] that stops the retries:
    [error instanceof ProviderError] with status 401, 403 or 404. *)
Definition isNotRetried (error : JsError) : bool :=
  match error with
  | ProviderError _ _ _ (Some st) =>
      Z.eqb st 401 || Z.eqb st 403 || Z.eqb st 404
  | _ => false
  end.

(** The outcome of one call of the retried operation. *)
Inductive Outcome (T : Type) : Type :=
| Resolves (v : T)
| Rejects (e : JsError).

Arguments Resolves {T} v.
Arguments Rejects {T} e.

(** What a run of [retryWithBackoff] does: its result, the number of calls
    of the operation, and the delays it slept between them, in order. *)
Record RetryRun (T : Type) : Type := mkRetryRun {
  result : JsError + T;
  calls : nat;
  sleeps : list Q
}.

Arguments result {T} r.
Arguments calls {T} r.
Arguments sleeps {T} r.

(** [baseDelayMs * Math.pow(2, attempt)]. *)
Definition backoffDelay (baseDelayMs : Q) (attempt : nat) : Q :=
  (baseDelayMs * inject_Z (2 ^ Z.of_nat attempt))%Q.

(** [Math.random() * 0.1 * delay]. *)
Definition backoffJitter (rnd : Q) (delay : Q) : Q :=
  (rnd * (1 # 10) * delay)%Q.

(** The [for] loop of [retryWithBackoff] from iteration [attempt] on;
    [remaining] is [maxRetries - attempt], so that [attempt === maxRetries]
    reads [remaining = 0].  [operation k] is the outcome of the call made
    in iteration [k], [random k] the value [Math.random()] returns there. *)
Fixpoint retryFrom {T : Type} (self : AIProvider)
  (operation : nat -> Outcome T) (random : nat -> Q) (baseDelayMs : Q)
  (remaining attempt : nat) : RetryRun T :=
  match operation attempt with
  | Resolves v => {| result := inr v; calls := 1; sleeps := [] |}
  | Rejects e =>
      match remaining with
      | O => {| result := inl (handleError self e); calls := 1; sleeps := [] |}
      | S remaining' =>
          if isNotRetried e
          then {| result := inl (handleError self e); calls := 1; sleeps := [] |}
          else
            let delay := backoffDelay baseDelayMs attempt in
            let jitter := backoffJitter (random attempt) delay in
            let r := retryFrom self operation random baseDelayMs
                       remaining' (S attempt) in
            {| result := result r;
               calls := S (calls r);
               sleeps := (delay + jitter)%Q :: sleeps r |}
      end
  end.

Definition retryWithBackoff {T : Type} (self : AIProvider)
  (operation : nat -> Outcome T) (random : nat -> Q)
  (maxRetries : nat) (baseDelayMs : Q) : RetryRun T :=
  retryFrom self operation random baseDelayMs maxRetries 0.

(** The default arguments: [maxRetries = 3], [baseDelayMs = 1000]. *)
Definition defaultMaxRetries : nat := 3.
Definition defaultBaseDelayMs : Q := 1000 # 1.

End BaseProviderClient.

(** ** [ClaudeProviderClient] ([providers/claude/ClaudeProviderClient.ts]) *)

Module ClaudeProviderClient.
Import Types.

(** The constructor: the base constructor runs first, then the API key is
    resolved from the config or the environment and must not be empty. *)
Definition construct (env : BaseProviderClient.Env) (c : ProviderConfig)
  : JsError + BaseProviderClient.ProviderClient :=
  match BaseProviderClient.construct c with
  | inl e => inl e
  | inr _ =>
      let key := Js.orDefault
                   (Js.orElse (apiKey c) (BaseProviderClient.ENV_ANTHROPIC_API_KEY env))
                   EmptyString in
      let ep := Js.orDefault (endpoint c) "https://api.anthropic.com/v1/messages" in
      if negb (Js.truthyString key)
      then inl (AuthenticationError "Claude API key is required" CLAUDE)
      else inr {| BaseProviderClient.clientProvider := CLAUDE;
                  BaseProviderClient.config := c;
                  BaseProviderClient.clientApiKey := key;
                  BaseProviderClient.clientEndpoint := ep |}
  end.

(** [validateConfig]: [!!(this.apiKey && this.endpoint)]. *)
Definition validateConfig (cl : BaseProviderClient.ProviderClient) : bool :=
  Js.truthyString (BaseProviderClient.clientApiKey cl)
  && Js.truthyString (BaseProviderClient.clientEndpoint cl).

(** The [type] tag of a stream chunk; [other_type] stands for any value
    that is none of the six known tags. *)
Inductive ChunkType : Type :=
| message_start | content_block_start | content_block_delta
| content_block_stop | message_delta | message_stop | other_type.

(** What the converter reads of a parsed chunk: [data.type],
    [data.delta?.text], [data.message] (by its id) and [data.usage]
    (input and output tokens). *)
Record ClaudeStreamChunk : Type := mkChunk {
  type : ChunkType;
  deltaText : option string;
  message : option string;
  usage : option (Z * Z)
}.

(** The two local variables of the converter. [currentMessage] is an
    object in every state ([{}] at first), hence truthy. *)
Record ConvState : Type := mkConv {
  currentMessage : option string;
  currentText : string
}.

Definition convStart : ConvState :=
  {| currentMessage := None; currentText := EmptyString |}.

Definition incremental (txt : string) : UnifiedResponse :=
  {| content := [modelTurn [textPart txt]];
     usageMetadata := None;
     finishReason := None |}.

Definition final (txt : string) (u : Z * Z) : UnifiedResponse :=
  {| content := [modelTurn [textPart txt]];
     usageMetadata :=
       Some {| promptTokenCount := Some (fst u);
               candidatesTokenCount := Some (snd u);
               totalTokenCount := Some (fst u + snd u)%Z |};
     finishReason := None |}.

(** The [switch] on a parsed chunk: the new state and what is yielded. *)
Definition onChunk (st : ConvState) (data : ClaudeStreamChunk)
  : ConvState * list UnifiedResponse :=
  match type data with
  | message_start =>
      ({| currentMessage := message data; currentText := currentText st |}, [])
  | content_block_delta =>
      match deltaText data with
      | Some t =>
          if Js.truthyString t
          then let txt := String.append (currentText st) t in
               ({| currentMessage := currentMessage st; currentText := txt |},
                [incremental txt])
          else (st, [])
      | None => (st, [])
      end
  | message_stop =>
      match usage data with
      | Some u => (st, [final (currentText st) u])
      | None => (st, [])
      end
  | _ => (st, [])
  end.

(** The body of the loop over the lines of one read.  [parse] is
    [JSON.parse] followed by the reading of the fields above; [None] is a
    payload on which the [try] block throws, which is skipped. *)
Definition onLine (parse : string -> option ClaudeStreamChunk)
  (st : ConvState) (line : string) : ConvState * list UnifiedResponse :=
  if Js.startsWith line "data: "
  then match parse (Js.slice 6 line) with
       | Some data => onChunk st data
       | None => (st, [])
       end
  else (st, []).

Fixpoint onLines (parse : string -> option ClaudeStreamChunk)
  (st : ConvState) (lines : list string) : ConvState * list UnifiedResponse :=
  match lines with
  | [] => (st, [])
  | l :: ls =>
      let (st1, ys1) := onLine parse st l in
      let (st2, ys2) := onLines parse st1 ls in
      (st2, ys1 ++ ys2)
  end.

(** The [while] loop over the reads: each decoded read is split into lines
    on its own ([chunk.split('\n')]); nothing is carried from one read to
    the next but [currentMessage] and [currentText]. *)
Fixpoint convertFrom (parse : string -> option ClaudeStreamChunk)
  (st : ConvState) (reads : list string) : list UnifiedResponse :=
  match reads with
  | [] => []
  | chunk :: rest =>
      let (st', ys) := onLines parse st (Js.splitLines chunk) in
      ys ++ convertFrom parse st' rest
  end.

(** [convertStreamToUnified]: [reads] are the decoded texts of the
    successive [reader.read()] results of a stream that ends. *)
Definition convertStreamToUnified (parse : string -> option ClaudeStreamChunk)
  (reads : list string) : list UnifiedResponse :=
  convertFrom parse convStart reads.

(** The local variables of the converter when the reads are exhausted. *)
Fixpoint stateAfter (parse : string -> option ClaudeStreamChunk)
  (st : ConvState) (reads : list string) : ConvState :=
  match reads with
  | [] => st
  | chunk :: rest =>
      stateAfter parse (fst (onLines parse st (Js.splitLines chunk))) rest
  end.

(** The complete message: every text delta the converter has accepted,
    concatenated. *)
Definition accumulatedText (parse : string -> option ClaudeStreamChunk)
  (reads : list string) : string :=
  currentText (stateAfter parse convStart reads).

End ClaudeProviderClient.

(** ** The Claude chat session: its buffered stream reader *)

Module ClaudeChatSession.
Import Types.

(** What [makeClaudeStreamRequest] reads of a parsed payload. *)
Record ParsedChunk : Type := mkParsed {
  chunkType : ClaudeProviderClient.ChunkType;
  chunkId : option string;
  chunkDeltaText : option string
}.

(** What it yields: [id: parsed.id || 'stream'] and the text
    [parsed.delta?.text || '']; the other fields are constants. *)
Record StreamedResponse : Type := mkStreamed {
  respId : string;
  respText : string
}.

(** The loop over the complete lines of the buffer; the boolean tells
    that the generator returned on the payload [[DONE]]. *)
Fixpoint onLines (parse : string -> option ParsedChunk) (lines : list string)
  : list StreamedResponse * bool :=
  match lines with
  | [] => ([], false)
  | line :: ls =>
      if Js.startsWith line "data: "
      then
        let data := Js.slice 6 line in
        if String.eqb data "[DONE]" then ([], true)
        else
          let ys := match parse data with
                    | Some parsed =>
                        match chunkType parsed with
                        | ClaudeProviderClient.content_block_delta =>
                            [{| respId := Js.orDefault (chunkId parsed) "stream";
                                respText := Js.orDefault (chunkDeltaText parsed)
                                              EmptyString |}]
                        | _ => []
                        end
                    | None => []
                    end in
          let (ys', ret) := onLines parse ls in
          (ys ++ ys', ret)
      else onLines parse ls
  end.

(** The [while] loop: the read is appended to [buffer], the buffer is
    split, the last piece is kept as the new buffer
    ([buffer = lines.pop() || '']) and the complete lines are processed. *)
Fixpoint readFrom (parse : string -> option ParsedChunk) (buffer : string)
  (reads : list string) : list StreamedResponse :=
  match reads with
  | [] => []
  | chunk :: rest =>
      let lines := Js.splitLines (String.append buffer chunk) in
      let buffer' := List.last lines EmptyString in
      let (ys, ret) := onLines parse (List.removelast lines) in
      if ret then ys else ys ++ readFrom parse buffer' rest
  end.

Definition makeClaudeStreamRequest (parse : string -> option ParsedChunk)
  (reads : list string) : list StreamedResponse :=
  readFrom parse EmptyString reads.

(** *** The wrapped stream and the history *)

(** [convertToGeminiResponse] on a streamed response: its one text block
    becomes one text part, its stop reason ['end_turn'] becomes ['STOP'],
    and its usage is zero. *)
Definition convertToGeminiResponse (r : StreamedResponse)
  : BaseChatSession.GenerateContentResponse :=
  {| BaseChatSession.candidateParts := [textPart (respText r)];
     BaseChatSession.responseFinishReason := "STOP";
     BaseChatSession.responseUsage :=
       Some {| promptTokenCount := Some 0%Z;
               candidatesTokenCount := Some 0%Z;
               totalTokenCount := Some 0%Z |} |}.

(** [updateHistoryFromResponse(params, response)] on a streamed
    response: two [addHistory] calls. *)
Definition updateHistoryFromResponse (message : BaseChatSession.ChatMessage)
  (response : StreamedResponse) (h : list Content) : list Content :=
  BaseChatSession.addHistory (modelTurn [textPart (respText response)])
    (BaseChatSession.addHistory
       (userTurn (BaseChatSession.convertMessageToParts message)) h).

(** [wrapClaudeError(error)]. *)
Definition wrapClaudeError (error : BaseChatSession.Thrown)
  : BaseChatSession.ChatSessionError :=
  match error with
  | BaseChatSession.ThrownChatError e => e
  | BaseChatSession.ThrownError e =>
      let message := if Js.truthyString (errorMessage e) then errorMessage e
                     else "Unknown Claude error"%string in
      if Js.includes message "401" || Js.includes message "invalid_api_key"
      then {| BaseChatSession.errorName := "ChatSessionError";
              BaseChatSession.chatErrorMessage := message;
              BaseChatSession.chatErrorCode := Some "AUTHENTICATION_ERROR"%string |}
      else if Js.includes message "429" || Js.includes message "rate_limit"
      then BaseChatSession.ChatSessionRateLimitError
      else if Js.includes message "timeout"
      then BaseChatSession.ChatSessionTimeoutError
      else {| BaseChatSession.errorName := "ChatSessionError";
              BaseChatSession.chatErrorMessage := message;
              BaseChatSession.chatErrorCode := Some "CLAUDE_ERROR"%string |}
  end.

(** The local variables of [wrapStreamResponse]. *)
Record WrapLocals : Type := mkLocals {
  chunks : list BaseChatSession.GenerateContentResponse;
  fullResponse : option StreamedResponse
}.

(** One iteration of the [for await] loop, up to its [yield]. *)
Definition wrapOnResponse (st : WrapLocals) (claudeResponse : StreamedResponse)
  : WrapLocals :=
  {| chunks := chunks st ++ [convertToGeminiResponse claudeResponse];
     fullResponse := Some claudeResponse |}.

(** [wrapStreamResponse(stream, params, startTime)], drained.  The
    history and the statistics are not touched inside the loop;
    [responseTime] is [Date.now() - startTime] when the stream is done. *)
Definition wrapStreamResponse (message : BaseChatSession.ChatMessage)
  (responseTime : Q) (stream : list StreamedResponse)
  (ending : BaseChatSession.ChatStreamEnd) (h : list Content)
  (stats : BaseChatSession.ChatSessionStats) : BaseChatSession.ChatStreamRun :=
  let st := fold_left wrapOnResponse stream {| chunks := []; fullResponse := None |} in
  let yields := map (fun r => (convertToGeminiResponse r, h)) stream in
  match ending with
  | BaseChatSession.StreamCompletes =>
      match fullResponse st with
      | Some full =>
          {| BaseChatSession.chatYielded := yields;
             BaseChatSession.chatHistory := updateHistoryFromResponse message full h;
             BaseChatSession.chatStats :=
               BaseChatSession.updateStats 0 0 responseTime stats;
             BaseChatSession.chatThrown := None |}
      | None =>
          {| BaseChatSession.chatYielded := yields;
             BaseChatSession.chatHistory := h;
             BaseChatSession.chatStats := stats;
             BaseChatSession.chatThrown := None |}
      end
  | BaseChatSession.StreamThrows e =>
      {| BaseChatSession.chatYielded := yields;
         BaseChatSession.chatHistory := h;
         BaseChatSession.chatStats := BaseChatSession.incrementErrorCount stats;
         BaseChatSession.chatThrown := Some (wrapClaudeError e) |}
  end.

(** [sendMessageStream(params)] on a stream whose reads end normally:
    the generator of [makeClaudeStreamRequest] is wrapped. *)
Definition sendMessageStream (parse : string -> option ParsedChunk)
  (message : BaseChatSession.ChatMessage) (responseTime : Q)
  (reads : list string) (h : list Content)
  (stats : BaseChatSession.ChatSessionStats) : BaseChatSession.ChatStreamRun :=
  wrapStreamResponse message responseTime (makeClaudeStreamRequest parse reads)
    BaseChatSession.StreamCompletes h stats.

End ClaudeChatSession.

(** ** [OllamaProviderClient] ([providers/ollama/OllamaProviderClient.ts]) *)

Module OllamaProviderClient.
Import Types.

(** [endpoint.replace(/\/$/, '')]: a trailing slash is removed. *)
Fixpoint dropTrailingSlash (s : string) : string :=
  match s with
  | EmptyString => EmptyString
  | String c EmptyString =>
      if Ascii.eqb c "/"%char then EmptyString else s
  | String c s' => String c (dropTrailingSlash s')
  end.

Definition construct (env : BaseProviderClient.Env) (c : ProviderConfig)
  : JsError + BaseProviderClient.ProviderClient :=
  match BaseProviderClient.construct c with
  | inl e => inl e
  | inr _ =>
      let ep := Js.orDefault
                  (Js.orElse (endpoint c) (BaseProviderClient.ENV_OLLAMA_HOST env))
                  "http://localhost:11434" in
      let ep' := if Js.endsWith ep "/api" then ep
                 else String.append (dropTrailingSlash ep) "/api" in
      inr {| BaseProviderClient.clientProvider := OLLAMA;
             BaseProviderClient.config := c;
             BaseProviderClient.clientApiKey := EmptyString;
             BaseProviderClient.clientEndpoint := ep' |}
  end.

(** What the converter reads of a parsed line: [data.message?.content],
    [data.done], [data.prompt_eval_count] and [data.eval_count]. *)
Record OllamaResponse : Type := mkOllama {
  messageContent : option string;
  done : bool;
  prompt_eval_count : option Z;
  eval_count : option Z
}.

Definition isWhitespace (c : ascii) : bool :=
  let n := Ascii.nat_of_ascii c in
  Nat.eqb n 32 || (Nat.leb 9 n && Nat.leb n 13).

(** [line.trim()] is truthy: some character is not white space. *)
Fixpoint trimTruthy (s : string) : bool :=
  match s with
  | EmptyString => false
  | String c s' => if isWhitespace c then trimTruthy s' else true
  end.

Definition orZero (o : option Z) : Z :=
  match o with
  | Some z => z
  | None => 0%Z
  end.

Definition onData (acc : string) (data : OllamaResponse)
  : string * list UnifiedResponse :=
  let (acc1, ys1) :=
    match messageContent data with
    | Some t =>
        if Js.truthyString t
        then (String.append acc t,
              [{| content := [modelTurn [textPart t]];
                  usageMetadata := None;
                  finishReason := if done data then Some "STOP"%string else None |}])
        else (acc, [])
    | None => (acc, [])
    end in
  let ys2 :=
    if done data
    then [{| content := [modelTurn [textPart acc1]];
             usageMetadata :=
               Some {| promptTokenCount := prompt_eval_count data;
                       candidatesTokenCount := eval_count data;
                       totalTokenCount :=
                         Some (orZero (prompt_eval_count data)
                               + orZero (eval_count data))%Z |};
             finishReason := Some "STOP"%string |}]
    else [] in
  (acc1, ys1 ++ ys2).

Fixpoint onLines (parse : string -> option OllamaResponse) (acc : string)
  (lines : list string) : string * list UnifiedResponse :=
  match lines with
  | [] => (acc, [])
  | l :: ls =>
      let (acc1, ys1) := match parse l with
                         | Some data => onData acc data
                         | None => (acc, [])
                         end in
      let (acc2, ys2) := onLines parse acc1 ls in
      (acc2, ys1 ++ ys2)
  end.

Fixpoint convertFrom (parse : string -> option OllamaResponse) (acc : string)
  (reads : list string) : list UnifiedResponse :=
  match reads with
  | [] => []
  | chunk :: rest =>
      let lines := filter trimTruthy (Js.splitLines chunk) in
      let (acc', ys) := onLines parse acc lines in
      ys ++ convertFrom parse acc' rest
  end.

Definition convertStreamToUnified (parse : string -> option OllamaResponse)
  (reads : list string) : list UnifiedResponse :=
  convertFrom parse EmptyString reads.

End OllamaProviderClient.

(** ** The Ollama chat session ([OllamaChatSession], in the same file) *)

Module OllamaChatSession.
Import Types.

(** A chat response as the interface [OllamaResponse] of the session
    declares it: [message.content] is a string. *)
Record OllamaResponse : Type := mkChatResponse {
  messageContent : string;
  done : bool;
  prompt_eval_count : option Z;
  eval_count : option Z
}.

(** The loop over the non-blank lines of one read: every line that
    parses is yielded, and the generator returns after a line whose
    [done] is set (the boolean). *)
Fixpoint onLines (parse : string -> option OllamaResponse) (lines : list string)
  : list OllamaResponse * bool :=
  match lines with
  | [] => ([], false)
  | line :: ls =>
      match parse line with
      | Some parsed =>
          if done parsed then ([parsed], true)
          else let (ys, ret) := onLines parse ls in (parsed :: ys, ret)
      | None => onLines parse ls
      end
  end.

(** The [while] loop of [makeOllamaStreamRequest] over the reads. *)
Fixpoint makeOllamaStreamRequest (parse : string -> option OllamaResponse)
  (reads : list string) : list OllamaResponse :=
  match reads with
  | [] => []
  | chunk :: rest =>
      let lines := filter OllamaProviderClient.trimTruthy (Js.splitLines chunk) in
      let (ys, ret) := onLines parse lines in
      if ret then ys else ys ++ makeOllamaStreamRequest parse rest
  end.

(** [estimateTokens(text)] of the session. *)
Definition estimateTokens (text : string) : Z :=
  if Js.truthyString text then BaseProviderClient.ceilDiv4 (String.length text)
  else 0%Z.

(** [n || d] on an optional number: [undefined] and [0] are falsy. *)
Definition orNumber (n : option Z) (d : Z) : Z :=
  match n with
  | Some v => if Z.eqb v 0 then d else v
  | None => d
  end.

(** [convertToGeminiResponse(response)]. *)
Definition convertToGeminiResponse (response : OllamaResponse)
  : BaseChatSession.GenerateContentResponse :=
  {| BaseChatSession.candidateParts := [textPart (messageContent response)];
     BaseChatSession.responseFinishReason :=
       if done response then "STOP"%string else "OTHER"%string;
     BaseChatSession.responseUsage :=
       Some {| promptTokenCount :=
                 Some (orNumber (prompt_eval_count response)
                         (estimateTokens EmptyString));
               candidatesTokenCount :=
                 Some (orNumber (eval_count response)
                         (estimateTokens (messageContent response)));
               totalTokenCount :=
                 Some (orNumber (prompt_eval_count response) 0
                       + orNumber (eval_count response) 0)%Z |} |}.

(** [updateHistoryFromResponse(params, response)]: two [addHistory]
    calls. *)
Definition updateHistoryFromResponse (message : BaseChatSession.ChatMessage)
  (response : OllamaResponse) (h : list Content) : list Content :=
  BaseChatSession.addHistory (modelTurn [textPart (messageContent response)])
    (BaseChatSession.addHistory
       (userTurn (BaseChatSession.convertMessageToParts message)) h).

(** [wrapOllamaError(error)]. *)
Definition wrapOllamaError (error : BaseChatSession.Thrown)
  : BaseChatSession.ChatSessionError :=
  match error with
  | BaseChatSession.ThrownChatError e => e
  | BaseChatSession.ThrownError e =>
      let message := if Js.truthyString (errorMessage e) then errorMessage e
                     else "Unknown Ollama error"%string in
      if Js.includes message "timeout" || Js.includes message "TimeoutError"
      then BaseChatSession.ChatSessionTimeoutError
      else
        let code :=
          if Js.includes message "ECONNREFUSED" || Js.includes message "ENOTFOUND"
          then "CONNECTION_ERROR"%string
          else if Js.includes message "404" then "MODEL_NOT_FOUND"%string
          else "OLLAMA_ERROR"%string in
        {| BaseChatSession.errorName := "ChatSessionError";
           BaseChatSession.chatErrorMessage := message;
           BaseChatSession.chatErrorCode := Some code |}
  end.

(** The local variables of [wrapStreamResponse]. *)
Record WrapLocals : Type := mkLocals {
  chunks : list BaseChatSession.GenerateContentResponse;
  fullContent : string;
  lastResponse : option OllamaResponse
}.

(** One iteration of the [for await] loop, up to its [yield]. *)
Definition wrapOnResponse (st : WrapLocals) (ollamaResponse : OllamaResponse)
  : WrapLocals :=
  {| chunks := chunks st ++ [convertToGeminiResponse ollamaResponse];
     fullContent := String.append (fullContent st) (messageContent ollamaResponse);
     lastResponse := Some ollamaResponse |}.

(** [wrapStreamResponse(stream, params, startTime)], drained.  The
    history and the statistics are not touched inside the loop;
    [responseTime] is [Date.now() - startTime] when the stream is done. *)
Definition wrapStreamResponse (message : BaseChatSession.ChatMessage)
  (responseTime : Q) (stream : list OllamaResponse)
  (ending : BaseChatSession.ChatStreamEnd) (h : list Content)
  (stats : BaseChatSession.ChatSessionStats) : BaseChatSession.ChatStreamRun :=
  let st := fold_left wrapOnResponse stream
              {| chunks := []; fullContent := EmptyString; lastResponse := None |} in
  let yields := map (fun r => (convertToGeminiResponse r, h)) stream in
  match ending with
  | BaseChatSession.StreamCompletes =>
      match lastResponse st with
      | Some lastR =>
          let inputTokens :=
            orNumber (prompt_eval_count lastR) (estimateTokens EmptyString) in
          let outputTokens :=
            orNumber (eval_count lastR) (estimateTokens (fullContent st)) in
          let completeResponse :=
            {| messageContent := fullContent st;
               done := done lastR;
               prompt_eval_count := prompt_eval_count lastR;
               eval_count := eval_count lastR |} in
          {| BaseChatSession.chatYielded := yields;
             BaseChatSession.chatHistory :=
               updateHistoryFromResponse message completeResponse h;
             BaseChatSession.chatStats :=
               BaseChatSession.updateStats inputTokens outputTokens responseTime
                 stats;
             BaseChatSession.chatThrown := None |}
      | None =>
          {| BaseChatSession.chatYielded := yields;
             BaseChatSession.chatHistory := h;
             BaseChatSession.chatStats := stats;
             BaseChatSession.chatThrown := None |}
      end
  | BaseChatSession.StreamThrows e =>
      {| BaseChatSession.chatYielded := yields;
         BaseChatSession.chatHistory := h;
         BaseChatSession.chatStats := BaseChatSession.incrementErrorCount stats;
         BaseChatSession.chatThrown := Some (wrapOllamaError e) |}
  end.

(** [sendMessageStream(params)] on a stream whose reads end normally:
    the generator of [makeOllamaStreamRequest] is wrapped. *)
Definition sendMessageStream (parse : string -> option OllamaResponse)
  (message : BaseChatSession.ChatMessage) (responseTime : Q)
  (reads : list string) (h : list Content)
  (stats : BaseChatSession.ChatSessionStats) : BaseChatSession.ChatStreamRun :=
  wrapStreamResponse message responseTime (makeOllamaStreamRequest parse reads)
    BaseChatSession.StreamCompletes h stats.

End OllamaChatSession.

(** ** The tool registry ([ProviderToolRegistry]) *)

Module ProviderToolRegistry.
Import Types.

Record FunctionDeclaration : Type := mkDecl {
  name : option string;
  description : option string;
  parameters : JsMap.t string
}.

Record Tool : Type := mkTool {
  function_declarations : option (list FunctionDeclaration)
}.

Record ProviderCapabilities : Type := mkCaps {
  supportsStreaming : bool;
  supportsTools : bool;
  supportsImages : bool;
  supportsSystemPrompts : bool;
  maxContextLength : Z;
  supportedModels : list string
}.

(** [keyof ProviderCapabilities]. *)
Inductive CapabilityKey : Type :=
| KSupportsStreaming | KSupportsTools | KSupportsImages
| KSupportsSystemPrompts | KMaxContextLength | KSupportedModels.

(** Truthiness of [capabilities[key]]: the flag itself for the four
    boolean keys, non-zero for the context length, and always true for the
    model list (an array is truthy). *)
Definition capabilityTruthy (caps : ProviderCapabilities) (k : CapabilityKey)
  : bool :=
  match k with
  | KSupportsStreaming => supportsStreaming caps
  | KSupportsTools => supportsTools caps
  | KSupportsImages => supportsImages caps
  | KSupportsSystemPrompts => supportsSystemPrompts caps
  | KMaxContextLength => negb (Z.eqb (maxContextLength caps) 0)
  | KSupportedModels => true
  end.

(** A provider-specific override; the registry reads its [parameters]
    and [description]. *)
Record ProviderSpecific : Type := mkSpecific {
  specParameters : option (JsMap.t string);
  specDescription : option string
}.

Record ProviderToolConfig : Type := mkToolConfig {
  toolName : string;
  supportedProviders : list AIProvider;
  requiresCapability : option CapabilityKey;
  providerSpecificConfig : option (AIProvider -> option ProviderSpecific)
}.

(** The argument of [registerTool]: a config without its [toolName]. *)
Record ToolSettings : Type := mkSettings {
  setSupportedProviders : list AIProvider;
  setRequiresCapability : option CapabilityKey;
  setProviderSpecificConfig : option (AIProvider -> option ProviderSpecific)
}.

Record Registry : Type := mkRegistry {
  toolConfigs : JsMap.t ProviderToolConfig;
  globalTools : JsMap.t Tool
}.

Definition emptyRegistry : Registry :=
  {| toolConfigs := JsMap.empty; globalTools := JsMap.empty |}.

(** [tool.function_declarations?.[0]?.name || 'unknown_tool']. *)
Definition getToolName (tool : Tool) : string :=
  match function_declarations tool with
  | Some (d :: _) => Js.orDefault (name d) "unknown_tool"
  | _ => "unknown_tool"%string
  end.

Definition registerTool (tool : Tool) (cfg : ToolSettings) (r : Registry)
  : Registry :=
  let n := getToolName tool in
  {| globalTools := JsMap.set n tool (globalTools r);
     toolConfigs :=
       JsMap.set n
         {| toolName := n;
            supportedProviders := setSupportedProviders cfg;
            requiresCapability := setRequiresCapability cfg;
            providerSpecificConfig := setProviderSpecificConfig cfg |}
         (toolConfigs r) |}.

Definition clear (r : Registry) : Registry := emptyRegistry.

Definition providerIncluded (ps : list AIProvider) (p : AIProvider) : bool :=
  existsb (provider_eqb p) ps.

(** [config.requiresCapability && !capabilities[config.requiresCapability]]. *)
Definition lacksRequired (cfg : ProviderToolConfig)
  (caps : ProviderCapabilities) : bool :=
  match requiresCapability cfg with
  | Some k => negb (capabilityTruthy caps k)
  | None => false
  end.

Definition isToolSupported (r : Registry) (tn : string) (p : AIProvider)
  (caps : ProviderCapabilities) : bool :=
  match JsMap.get tn (toolConfigs r) with
  | None => false
  | Some cfg =>
      if negb (providerIncluded (supportedProviders cfg) p) then false
      else if lacksRequired cfg caps then false
      else true
  end.

Definition getUnsupportedTools (r : Registry) (p : AIProvider)
  (caps : ProviderCapabilities) (requestedTools : list string) : list string :=
  filter (fun tn => negb (isToolSupported r tn p caps)) requestedTools.

(** [{...a, ...b}] on objects held as maps. *)
Definition spread (a b : JsMap.t string) : JsMap.t string :=
  fold_left (fun m kv => JsMap.set (fst kv) (snd kv) m) b a.

(** [applyProviderConfig]: the clone is changed through
    [function_declarations[0]], which throws a [TypeError] ([None]) when
    the tool has no first declaration and a change is to be made. *)
Definition applyProviderConfig (tool : Tool) (cfg : ProviderSpecific)
  : option Tool :=
  let wantsParameters := Js.isSome (specParameters cfg) in
  let wantsDescription := Js.truthy (specDescription cfg) in
  if negb (wantsParameters || wantsDescription) then Some tool
  else
    match function_declarations tool with
    | Some (d :: ds) =>
        let d1 := match specParameters cfg with
                  | Some ps => {| name := name d;
                                  description := description d;
                                  parameters := spread (parameters d) ps |}
                  | None => d
                  end in
        let d2 := if wantsDescription
                  then {| name := name d1;
                          description := specDescription cfg;
                          parameters := parameters d1 |}
                  else d1 in
        Some {| function_declarations := Some (d2 :: ds) |}
    | _ => None
    end.

(** The loop of [getToolsForProvider] over the entries of [toolConfigs],
    in insertion order; [None] is a thrown [TypeError]. *)
Fixpoint toolsFrom (globals : JsMap.t Tool) (p : AIProvider)
  (caps : ProviderCapabilities) (requestedTools : option (list string))
  (entries : list (string * ProviderToolConfig)) : option (list Tool) :=
  match entries with
  | [] => Some []
  | (tn, cfg) :: rest =>
      let skip :=
        negb (providerIncluded (supportedProviders cfg) p)
        || lacksRequired cfg caps
        || match requestedTools with
           | Some req => negb (Js.arrayIncludes req tn)
           | None => false
           end in
      if skip then toolsFrom globals p caps requestedTools rest
      else
        match JsMap.get tn globals with
        | None => toolsFrom globals p caps requestedTools rest
        | Some tool =>
            let specific := match providerSpecificConfig cfg with
                            | Some f => f p
                            | None => None
                            end in
            let pushed := match specific with
                          | Some sc => applyProviderConfig tool sc
                          | None => Some tool
                          end in
            match pushed with
            | None => None
            | Some t =>
                match toolsFrom globals p caps requestedTools rest with
                | Some ts => Some (t :: ts)
                | None => None
                end
            end
        end
  end.

Definition getToolsForProvider (r : Registry) (p : AIProvider)
  (caps : ProviderCapabilities) (requestedTools : option (list string))
  : option (list Tool) :=
  toolsFrom (globalTools r) p caps requestedTools (toolConfigs r).

(** The calls that change a registry. *)
Inductive RegistryOp : Type :=
| RegisterTool (tool : Tool) (cfg : ToolSettings)
| Clear.

Definition applyOp (r : Registry) (op : RegistryOp) : Registry :=
  match op with
  | RegisterTool tool cfg => registerTool tool cfg r
  | Clear => clear r
  end.

(** The registry a new instance holds after a sequence of calls. *)
Definition registryAfter (ops : list RegistryOp) : Registry :=
  fold_left applyOp ops emptyRegistry.

(** [getAllTools()] and [getToolConfig(toolName)]. *)
Definition getAllTools (r : Registry) : list Tool := JsMap.values (globalTools r).

Definition getToolConfig (r : Registry) (tn : string) : option ProviderToolConfig :=
  JsMap.get tn (toolConfigs r).

(** [filterToolsForProvider(tools, provider, capabilities)]: the tools
    that are supported, and the names of those that are not. *)
Fixpoint filterToolsForProvider (r : Registry) (tools : list Tool)
  (p : AIProvider) (caps : ProviderCapabilities) : list Tool * list string :=
  match tools with
  | [] => ([], [])
  | tool :: rest =>
      let tn := getToolName tool in
      let (supported, unsupported) := filterToolsForProvider r rest p caps in
      if isToolSupported r tn p caps
      then (tool :: supported, unsupported)
      else (supported, tn :: unsupported)
  end.

(** The mock tool [registerDefaultTool] builds for a name. *)
Definition defaultTool (tn : string) : Tool :=
  {| function_declarations :=
       Some [{| name := Some tn;
                description := Some (String.append tn " tool");
                parameters := [("type", "object"); ("properties", "{}")]%string |}] |}.

Definition registerDefaultTool (tn : string) (ps : list AIProvider)
  (k : option CapabilityKey) (r : Registry) : Registry :=
  registerTool (defaultTool tn)
    {| setSupportedProviders := ps;
       setRequiresCapability := k;
       setProviderSpecificConfig := None |} r.

(** [registerDefaultTools()]: twelve tools for every provider and the
    MCP tool for Gemini, which requires tool support. *)
Definition registerDefaultTools (r : Registry) : Registry :=
  let everyProvider := [GEMINI; CLAUDE; OLLAMA] in
  let r1 :=
    fold_left (fun acc tn => registerDefaultTool tn everyProvider None acc)
      ["read_file"; "write_file"; "list_files"; "glob_files"; "grep_files";
       "run_shell_command"; "web_search"; "web_fetch"; "save_memory";
       "search_memory"; "edit_file"; "diff_files"]%string r in
  registerDefaultTool "mcp_tool" [GEMINI] (Some KSupportsTools) r1.

End ProviderToolRegistry.

(** ** Config validation ([config/providerConfig.ts]) *)

Module ProviderConfigValidation.
Import Types.

Record AgentConfig : Type := mkAgentConfig {
  agentId : string;
  name : string;
  agentProvider : AIProvider;
  providerConfig : ProviderConfig;
  tools : option (list ProviderToolRegistry.Tool);
  systemPrompt : option string;
  autoStart : option bool;
  maxSessions : option Z
}.

Definition PROVIDER_MODELS (p : AIProvider) : list string :=
  match p with
  | GEMINI =>
      ["gemini-2.0-flash-exp"; "gemini-1.5-pro"; "gemini-1.5-flash";
       "gemini-1.0-pro"]%string
  | CLAUDE =>
      ["claude-3-5-sonnet-20241022"; "claude-3-5-haiku-20241022";
       "claude-3-opus-20240229"; "claude-3-sonnet-20240229";
       "claude-3-haiku-20240307"]%string
  | OLLAMA =>
      ["llama2"; "llama2:13b"; "llama2:70b"; "codellama"; "codellama:13b";
       "codellama:34b"; "mistral"; "mixtral"; "phi"; "neural-chat";
       "starling-lm"]%string
  end.

Definition errorIf (b : bool) (msg : string) : list string :=
  if b then [msg] else [].

Definition authType_eqb (a b : ProviderAuthType) : bool :=
  String.eqb (authTypeName a) (authTypeName b).

(** The provider-specific [switch] of [validateProviderConfig]. *)
Definition providerSpecificErrors (env : BaseProviderClient.Env)
  (c : ProviderConfig) : list string :=
  match provider c with
  | GEMINI =>
      if authType_eqb (authType c) GEMINI_API_KEY
         || authType_eqb (authType c) VERTEX_AI
      then errorIf
             (negb (Js.truthy (apiKey c))
              && negb (Js.truthy (BaseProviderClient.ENV_GEMINI_API_KEY env))
              && negb (Js.truthy (BaseProviderClient.ENV_GOOGLE_API_KEY env)))
             "API key is required for Gemini API key authentication"
      else []
  | CLAUDE =>
      (if authType_eqb (authType c) CLAUDE_API_KEY
       then errorIf
              (negb (Js.truthy (apiKey c))
               && negb (Js.truthy (BaseProviderClient.ENV_ANTHROPIC_API_KEY env)))
              "API key is required for Claude authentication"
       else [])
      ++ errorIf (negb (Js.truthy (endpoint c))) "Endpoint is required for Claude"
  | OLLAMA =>
      errorIf (negb (Js.truthy (endpoint c))) "Endpoint is required for Ollama"
  end.

Definition outside (lo hi : Q) (x : option Q) : bool :=
  match x with
  | Some v => negb (Qle_bool lo v) || negb (Qle_bool v hi)
  | None => false
  end.

(** [validateProviderConfig].  The checks [!config.provider] and
    [!config.authType] never fire on a value of the enumerations. *)
Definition validateProviderConfig (env : BaseProviderClient.Env)
  (c : ProviderConfig) : list string :=
  errorIf (negb (Js.truthyString (model c))) "Model is required"
  ++ providerSpecificErrors env c
  ++ errorIf (Js.truthyString (model c)
              && negb (Js.arrayIncludes (PROVIDER_MODELS (provider c)) (model c)))
       (String.append "Model "
          (String.append (model c)
             (String.append " is not supported by " (providerName (provider c)))))
  ++ errorIf (outside (0 # 1) (2 # 1) (temperature c))
       "Temperature must be between 0 and 2"
  ++ errorIf (outside (0 # 1) (1 # 1) (topP c)) "TopP must be between 0 and 1"
  ++ errorIf (match maxTokens c with
              | Some n => Z.ltb n 1
              | None => false
              end) "MaxTokens must be greater than 0".

(** [validateAgentConfig]. *)
Definition validateAgentConfig (env : BaseProviderClient.Env)
  (c : AgentConfig) : list string :=
  errorIf (negb (Js.truthyString (agentId c))) "Agent ID is required"
  ++ errorIf (negb (Js.truthyString (name c))) "Agent name is required"
  ++ map (fun err => String.append "Provider config: " err)
         (validateProviderConfig env (providerConfig c))
  ++ errorIf (match maxSessions c with
              | Some n => Z.ltb n 1
              | None => false
              end) "MaxSessions must be greater than 0".

(** *** Defaults, environment and merging *)

(** [DEFAULT_PROVIDER_CONFIGS]: every entry gives the provider, the
    model, the auth type and the flag; an entry has no API key. *)
Definition DEFAULT_PROVIDER_CONFIGS (p : AIProvider) : ProviderConfig :=
  match p with
  | GEMINI =>
      {| provider := GEMINI; model := "gemini-2.0-flash-exp";
         authType := GEMINI_API_KEY; apiKey := None; endpoint := None;
         proxy := None; enabled := true; maxTokens := Some 8192%Z;
         temperature := Some (7 # 10); topP := Some (95 # 100) |}
  | CLAUDE =>
      {| provider := CLAUDE; model := "claude-3-5-sonnet-20241022";
         authType := CLAUDE_API_KEY; apiKey := None;
         endpoint := Some "https://api.anthropic.com/v1/messages"%string;
         proxy := None; enabled := false; maxTokens := Some 8192%Z;
         temperature := Some (7 # 10); topP := Some (95 # 100) |}
  | OLLAMA =>
      {| provider := OLLAMA; model := "llama2";
         authType := OLLAMA_LOCAL; apiKey := None;
         endpoint := Some "http://localhost:11434"%string;
         proxy := None; enabled := false; maxTokens := Some 4096%Z;
         temperature := Some (7 # 10); topP := Some (95 # 100) |}
  end.

(** [process.env] as the functions below read it. *)
Record ProcessEnv : Type := mkProcessEnv {
  vars : BaseProviderClient.Env;
  ENV_OLLAMA_ENDPOINT : option string;
  ENV_GOOGLE_CLOUD_PROJECT : option string;
  ENV_GOOGLE_CLOUD_LOCATION : option string
}.

(** The object [getProviderEnvVars] returns: a key it does not set is
    [None]. *)
Record EnvVars : Type := mkEnvVars {
  envApiKey : option string;
  envProject : option string;
  envLocation : option string;
  envEndpoint : option string
}.

Definition getProviderEnvVars (env : ProcessEnv) (p : AIProvider) : EnvVars :=
  match p with
  | GEMINI =>
      {| envApiKey :=
           Js.orElse (BaseProviderClient.ENV_GEMINI_API_KEY (vars env))
             (BaseProviderClient.ENV_GOOGLE_API_KEY (vars env));
         envProject := ENV_GOOGLE_CLOUD_PROJECT env;
         envLocation := ENV_GOOGLE_CLOUD_LOCATION env;
         envEndpoint := None |}
  | CLAUDE =>
      {| envApiKey := BaseProviderClient.ENV_ANTHROPIC_API_KEY (vars env);
         envProject := None; envLocation := None; envEndpoint := None |}
  | OLLAMA =>
      {| envApiKey := None; envProject := None; envLocation := None;
         envEndpoint :=
           Js.orElse (BaseProviderClient.ENV_OLLAMA_HOST (vars env))
             (ENV_OLLAMA_ENDPOINT env) |}
  end.

(** [applyEnvironmentVariables(config)]. *)
Definition applyEnvironmentVariables (env : ProcessEnv) (c : ProviderConfig)
  : ProviderConfig :=
  let envVars := getProviderEnvVars env (provider c) in
  {| provider := provider c;
     model := model c;
     authType := authType c;
     apiKey := Js.orElse (apiKey c) (envApiKey envVars);
     endpoint := Js.orElse (endpoint c) (envEndpoint envVars);
     proxy := proxy c;
     enabled := enabled c;
     maxTokens := maxTokens c;
     temperature := temperature c;
     topP := topP c |}.

(** [Partial<ProviderConfig>]: the fields an override carries. *)
Record ProviderOverrides : Type := mkOverrides {
  ovProvider : option AIProvider;
  ovModel : option string;
  ovAuthType : option ProviderAuthType;
  ovApiKey : option string;
  ovEndpoint : option string;
  ovProxy : option string;
  ovEnabled : option bool;
  ovMaxTokens : option Z;
  ovTemperature : option Q;
  ovTopP : option Q
}.

(** [{}], the default of the [overrides] parameter. *)
Definition noOverrides : ProviderOverrides :=
  {| ovProvider := None; ovModel := None; ovAuthType := None; ovApiKey := None;
     ovEndpoint := None; ovProxy := None; ovEnabled := None; ovMaxTokens := None;
     ovTemperature := None; ovTopP := None |}.

Definition orField {A : Type} (o : option A) (d : A) : A :=
  match o with
  | Some v => v
  | None => d
  end.

Definition orOption {A : Type} (o d : option A) : option A :=
  match o with
  | Some v => Some v
  | None => d
  end.

(** [createAgentConfig(agentId, name, provider, overrides)]: the
    provider config is
    [{...defaultProviderConfig, ...overrides, provider, enabled: true}]
    with the environment applied. *)
Definition createAgentConfig (env : ProcessEnv) (agentId name : string)
  (p : AIProvider) (overrides : ProviderOverrides) : AgentConfig :=
  let d := DEFAULT_PROVIDER_CONFIGS p in
  let providerConfig :=
    {| provider := p;
       model := orField (ovModel overrides) (model d);
       authType := orField (ovAuthType overrides) (authType d);
       apiKey := orOption (ovApiKey overrides) (apiKey d);
       endpoint := orOption (ovEndpoint overrides) (endpoint d);
       proxy := orOption (ovProxy overrides) (proxy d);
       enabled := true;
       maxTokens := orOption (ovMaxTokens overrides) (maxTokens d);
       temperature := orOption (ovTemperature overrides) (temperature d);
       topP := orOption (ovTopP overrides) (topP d) |} in
  {| agentId := agentId;
     name := name;
     agentProvider := p;
     providerConfig := applyEnvironmentVariables env providerConfig;
     tools := None;
     systemPrompt := None;
     autoStart := Some false;
     maxSessions := Some 1%Z |}.

(** [Record<AIProvider, ProviderConfig>]. *)
Record ProviderTable : Type := mkTable {
  geminiConfig : ProviderConfig;
  claudeConfig : ProviderConfig;
  ollamaConfig : ProviderConfig
}.

Record GlobalSettings : Type := mkGlobal {
  enableAutoSwitching : bool;
  enableLoadBalancing : bool;
  enableFallback : bool;
  telemetryEnabled : bool
}.

Record MultiProviderConfig : Type := mkMulti {
  providers : ProviderTable;
  agents : list AgentConfig;
  defaultProvider : AIProvider;
  activeAgents : list string;
  maxConcurrentSessions : Z;
  globalSettings : GlobalSettings
}.

(** The entry [createDefaultMultiProviderConfig] builds for a provider:
    the default with [enabled: provider === AIProvider.GEMINI]. *)
Definition defaultEntry (p : AIProvider) : ProviderConfig :=
  let d := DEFAULT_PROVIDER_CONFIGS p in
  {| provider := p; model := model d; authType := authType d;
     apiKey := apiKey d; endpoint := endpoint d; proxy := proxy d;
     enabled := provider_eqb p GEMINI;
     maxTokens := maxTokens d; temperature := temperature d; topP := topP d |}.

Definition createDefaultMultiProviderConfig : MultiProviderConfig :=
  {| providers := {| geminiConfig := defaultEntry GEMINI;
                     claudeConfig := defaultEntry CLAUDE;
                     ollamaConfig := defaultEntry OLLAMA |};
     agents := [];
     defaultProvider := GEMINI;
     activeAgents := [];
     maxConcurrentSessions := 5%Z;
     globalSettings := {| enableAutoSwitching := false;
                          enableLoadBalancing := false;
                          enableFallback := true;
                          telemetryEnabled := true |} |}.

(** [Partial<MultiProviderConfig>]; the two nested objects are spread, so
    each of their keys is optional as well. *)
Record UserProviders : Type := mkUserProviders {
  userGemini : option ProviderConfig;
  userClaude : option ProviderConfig;
  userOllama : option ProviderConfig
}.

Record UserSettings : Type := mkUserSettings {
  userAutoSwitching : option bool;
  userLoadBalancing : option bool;
  userFallback : option bool;
  userTelemetry : option bool
}.

Record UserConfig : Type := mkUserConfig {
  userProviders : option UserProviders;
  userAgents : option (list AgentConfig);
  userDefaultProvider : option AIProvider;
  userActiveAgents : option (list string);
  userMaxConcurrentSessions : option Z;
  userGlobalSettings : option UserSettings
}.

(** [mergeWithDefaults(userConfig)]. *)
Definition mergeWithDefaults (u : UserConfig) : MultiProviderConfig :=
  let d := createDefaultMultiProviderConfig in
  {| providers :=
       match userProviders u with
       | Some up =>
           {| geminiConfig := orField (userGemini up) (geminiConfig (providers d));
              claudeConfig := orField (userClaude up) (claudeConfig (providers d));
              ollamaConfig := orField (userOllama up) (ollamaConfig (providers d)) |}
       | None => providers d
       end;
     agents := orField (userAgents u) (agents d);
     defaultProvider := orField (userDefaultProvider u) (defaultProvider d);
     activeAgents := orField (userActiveAgents u) (activeAgents d);
     maxConcurrentSessions :=
       match userMaxConcurrentSessions u with
       | Some n => if Z.eqb n 0 then maxConcurrentSessions d else n
       | None => maxConcurrentSessions d
       end;
     globalSettings :=
       match userGlobalSettings u with
       | Some us =>
           {| enableAutoSwitching :=
                orField (userAutoSwitching us)
                  (enableAutoSwitching (globalSettings d));
              enableLoadBalancing :=
                orField (userLoadBalancing us)
                  (enableLoadBalancing (globalSettings d));
              enableFallback :=
                orField (userFallback us) (enableFallback (globalSettings d));
              telemetryEnabled :=
                orField (userTelemetry us) (telemetryEnabled (globalSettings d)) |}
       | None => globalSettings d
       end |}.

(** A full configuration handed back as a user configuration. *)
Definition asUserConfig (c : MultiProviderConfig) : UserConfig :=
  {| userProviders :=
       Some {| userGemini := Some (geminiConfig (providers c));
               userClaude := Some (claudeConfig (providers c));
               userOllama := Some (ollamaConfig (providers c)) |};
     userAgents := Some (agents c);
     userDefaultProvider := Some (defaultProvider c);
     userActiveAgents := Some (activeAgents c);
     userMaxConcurrentSessions := Some (maxConcurrentSessions c);
     userGlobalSettings :=
       Some {| userAutoSwitching := Some (enableAutoSwitching (globalSettings c));
               userLoadBalancing := Some (enableLoadBalancing (globalSettings c));
               userFallback := Some (enableFallback (globalSettings c));
               userTelemetry := Some (telemetryEnabled (globalSettings c)) |} |}.

End ProviderConfigValidation.

(** ** Requests: validation and conversion in the adapters *)

Module ProviderRequests.
Import Types.
Import ProviderToolRegistry.

(** [UnifiedRequest]. *)
Record UnifiedRequest : Type := mkRequest {
  requestModel : string;
  contents : list Content;
  requestTools : option (list Tool);
  requestTemperature : option Q;
  requestMaxTokens : option Z;
  requestTopP : option Q;
  stream : option bool
}.

(** ['inlineData' in part || 'fileData' in part]. *)
Definition isImagePart (p : Part) : bool :=
  Js.isSome (inlineData p) || Js.isSome (fileData p).

(** [contents.some(content => content.parts?.some(...))]. *)
Definition hasImages (cs : list Content) : bool :=
  existsb (fun c => match parts c with
                    | Some ps => existsb isImagePart ps
                    | None => false
                    end) cs.

(** Truthiness of an optional flag. *)
Definition flagSet (o : option bool) : bool :=
  match o with
  | Some b => b
  | None => false
  end.

Definition notSupported (self : AIProvider) (what : string) : JsError :=
  ProviderError
    (String.append "Provider "
       (String.append (providerName self)
          (String.append " does not support " what)))
    self None None.

(** [validateRequest(request)] of the base client; [estimateTokens] is
    the estimator of the adapter, which a subclass may override. *)
Definition validateRequest (self : AIProvider) (caps : ProviderCapabilities)
  (estimateTokens : list Content -> Z) (request : UnifiedRequest)
  : JsError + unit :=
  if flagSet (stream request) && negb (supportsStreaming caps)
  then inl (notSupported self "streaming")
  else if Js.isSome (requestTools request) && negb (supportsTools caps)
  then inl (notSupported self "tools")
  else if negb (Js.arrayIncludes (supportedModels caps) (requestModel request))
  then inl (ProviderError
              (String.append "Model "
                 (String.append (requestModel request)
                    (String.append " is not supported by provider "
                       (providerName self))))
              self None None)
  else if negb (supportsImages caps) && hasImages (contents request)
  then inl (notSupported self "image inputs")
  else if Z.ltb (maxContextLength caps) (estimateTokens (contents request))
  then inl (ProviderError
              (String.append "Request exceeds maximum context length of "
                 (String.append (Js.numberToString (maxContextLength caps))
                    " tokens"))
              self None None)
  else inr tt.

(** *** The capabilities the adapters declare *)

Definition geminiCapabilities : ProviderCapabilities :=
  {| supportsStreaming := true; supportsTools := true; supportsImages := true;
     supportsSystemPrompts := true; maxContextLength := 2097152%Z;
     supportedModels := ProviderConfigValidation.PROVIDER_MODELS GEMINI |}.

Definition claudeCapabilities : ProviderCapabilities :=
  {| supportsStreaming := true; supportsTools := true; supportsImages := true;
     supportsSystemPrompts := true; maxContextLength := 200000%Z;
     supportedModels := ProviderConfigValidation.PROVIDER_MODELS CLAUDE |}.

(** The Ollama adapter starts with an empty model list, which
    [getAvailableModels] fills in when its request succeeds. *)
Definition ollamaCapabilities (models : list string) : ProviderCapabilities :=
  {| supportsStreaming := true; supportsTools := false; supportsImages := true;
     supportsSystemPrompts := true; maxContextLength := 8192%Z;
     supportedModels := models |}.

Definition ollamaInitialCapabilities : ProviderCapabilities :=
  ollamaCapabilities [].

(** *** The Claude adapter *)

(** [Math.ceil(n / 3.5)] for a length [n]. *)
Definition ceilDiv3_5 (n : nat) : Z := ((2 * Z.of_nat n + 6) / 7)%Z.

Definition claudePartTokens (p : Part) : Z :=
  match text p with
  | Some s => if Js.truthyString s then ceilDiv3_5 (String.length s) else 0%Z
  | None => 0%Z
  end.

(** The [estimateTokens] override of the Claude adapter. *)
Definition claudeEstimateTokens (cs : list Content) : Z :=
  fold_left
    (fun acc c =>
       match parts c with
       | Some ps => fold_left (fun a p => (a + claudePartTokens p)%Z) ps acc
       | None => acc
       end) cs 0%Z.

Inductive ClaudeRole : Type := RoleUser | RoleAssistant.

(** A content block of a Claude message. *)
Inductive ClaudeBlock : Type :=
| TextBlock (blockText : string)
| ImageBlock (media_type data : string).

(** The content of a Claude message: a string or a list of blocks. *)
Inductive ClaudeContent : Type :=
| ContentString (s : string)
| ContentBlocks (blocks : list ClaudeBlock).

Record ClaudeMessage : Type := mkClaudeMessage {
  claudeRole : ClaudeRole;
  claudeContent : ClaudeContent
}.

Record ClaudeRequest : Type := mkClaudeRequest {
  claudeModel : string;
  max_tokens : Z;
  messages : list ClaudeMessage;
  system : option string;
  claudeTemperature : option Q;
  top_p : option Q
}.

(** The loop of [convertPartsToClaudeContent]: a part with a text gives
    a text block, a part with inline data (mime type, data) an image
    block, any other part nothing. *)
Definition blockOfPart (p : Part) : list ClaudeBlock :=
  match text p with
  | Some t => [TextBlock t]
  | None => match inlineData p with
            | Some (mimeType, d) => [ImageBlock mimeType d]
            | None => []
            end
  end.

Definition convertPartsToClaudeContent (ps : list Part) : ClaudeContent :=
  match ps with
  | [p] =>
      match text p with
      | Some t => ContentString t
      | None =>
          match flat_map blockOfPart ps with
          | [TextBlock t] => ContentString t
          | blocks => ContentBlocks blocks
          end
      end
  | _ =>
      match flat_map blockOfPart ps with
      | [TextBlock t] => ContentString t
      | blocks => ContentBlocks blocks
      end
  end.

(** [parts.filter(part => 'text' in part).map(part => part.text).join('\n')]. *)
Definition joinedText (ps : list Part) : string :=
  Js.join (String Js.newline EmptyString)
    (flat_map (fun p => match text p with
                        | Some t => [t]
                        | None => []
                        end) ps).

(** The loop over the contents: a user turn gives a user message, a
    model turn with a non-empty joined text an assistant message, any
    other turn nothing. *)
Definition messageOfContent (c : Content) : list ClaudeMessage :=
  match role c with
  | Some r =>
      if String.eqb r "user"
      then [{| claudeRole := RoleUser;
               claudeContent :=
                 convertPartsToClaudeContent
                   (match parts c with Some ps => ps | None => [] end) |}]
      else if String.eqb r "model"
      then let t := match parts c with
                    | Some ps => joinedText ps
                    | None => EmptyString
                    end in
           if Js.truthyString t
           then [{| claudeRole := RoleAssistant; claudeContent := ContentString t |}]
           else []
      else []
  | None => []
  end.

(** The first message is taken for the system prompt when it is a user
    message whose content is a string that contains 'you are' in any
    case. *)
Definition looksLikeSystemPrompt (m : ClaudeMessage) : option string :=
  match claudeRole m, claudeContent m with
  | RoleUser, ContentString s =>
      if Js.includes (Js.toLowerCase s) "you are" then Some s else None
  | _, _ => None
  end.

(** [convertFromUnifiedRequest(request)] of the Claude adapter. *)
Definition claudeConvertFromUnifiedRequest (request : UnifiedRequest)
  : ClaudeRequest :=
  let converted := flat_map messageOfContent (contents request) in
  let extracted :=
    match converted with
    | first :: rest =>
        match looksLikeSystemPrompt first with
        | Some s => (Some s, rest)
        | None => (None, converted)
        end
    | [] => (None, converted)
    end in
  {| claudeModel := requestModel request;
     max_tokens := match requestMaxTokens request with
                   | Some n => if Z.eqb n 0 then 4096%Z else n
                   | None => 4096%Z
                   end;
     messages := snd extracted;
     system := match fst extracted with
               | Some s => if Js.truthyString s then Some s else None
               | None => None
               end;
     claudeTemperature := requestTemperature request;
     top_p := requestTopP request |}.

(** *** The Ollama adapter *)

Record OllamaMessage : Type := mkOllamaMessage {
  ollamaRole : ClaudeRole;
  ollamaContent : string;
  images : option (list string)
}.

Record OllamaOptions : Type := mkOptions {
  optTemperature : option Q;
  opt_top_p : option Q;
  num_predict : option Z
}.

Record OllamaRequest : Type := mkOllamaRequest {
  ollamaModel : string;
  ollamaMessages : list OllamaMessage;
  options : option OllamaOptions
}.

(** [extractImagesFromParts(parts)]: the data of every inline part
    whose mime type starts with [image/]. *)
Definition extractImagesFromParts (ps : list Part) : list string :=
  flat_map (fun p => match inlineData p with
                     | Some (mimeType, d) =>
                         if Js.startsWith mimeType "image/" then [d] else []
                     | None => []
                     end) ps.

Definition ollamaMessageOfContent (c : Content) : list OllamaMessage :=
  match role c with
  | Some r =>
      if String.eqb r "user" || String.eqb r "model"
      then
        let ps := match parts c with Some ps => ps | None => [] end in
        let t := joinedText ps in
        let imgs := extractImagesFromParts ps in
        if Js.truthyString t || Nat.ltb 0 (List.length imgs)
        then [{| ollamaRole := if String.eqb r "model" then RoleAssistant
                               else RoleUser;
                 ollamaContent := t;
                 images := if Nat.ltb 0 (List.length imgs) then Some imgs
                           else None |}]
        else []
      else []
  | None => []
  end.

(** [convertFromUnifiedRequest(request)] of the Ollama adapter. *)
Definition ollamaConvertFromUnifiedRequest (request : UnifiedRequest)
  : OllamaRequest :=
  {| ollamaModel := requestModel request;
     ollamaMessages := flat_map ollamaMessageOfContent (contents request);
     options :=
       if Js.isSome (requestTemperature request)
          || Js.isSome (requestTopP request)
          || Js.isSome (requestMaxTokens request)
       then Some {| optTemperature := requestTemperature request;
                    opt_top_p := requestTopP request;
                    num_predict := requestMaxTokens request |}
       else None |}.

(** What a [generateContent] call does: its result and the requests it
    has sent to the server. *)
Record Generated : Type := mkGenerated {
  generated : JsError + UnifiedResponse;
  sent : list OllamaRequest
}.

(** [generateContent(request)] of the Ollama adapter.  [respond] is the
    answer to the request sent to [/chat], converted to a unified
    response, or the error of the request; [caps] are the capabilities
    the adapter holds when it is called. *)
Definition ollamaGenerateContent (caps : ProviderCapabilities)
  (respond : OllamaRequest -> JsError + UnifiedResponse)
  (request : UnifiedRequest) : Generated :=
  match validateRequest OLLAMA caps BaseProviderClient.estimateTokens request with
  | inl e => {| generated := inl e; sent := [] |}
  | inr _ =>
      let ollamaRequest := ollamaConvertFromUnifiedRequest request in
      match respond ollamaRequest with
      | inl e => {| generated := inl (BaseProviderClient.handleError OLLAMA e);
                    sent := [ollamaRequest] |}
      | inr response => {| generated := inr response; sent := [ollamaRequest] |}
      end
  end.

End ProviderRequests.

(** ** The tool manager ([ToolManager]) *)

Module ToolManager.
Import Types.
Import ProviderToolRegistry.

(** The two fields of a tool manager. *)
Record Manager : Type := mkToolManager {
  toolRegistry : Registry;
  agentToolMappings : JsMap.t (list string)
}.

(** [new ToolManager()]: the registry holds the default tools. *)
Definition newToolManager : Manager :=
  {| toolRegistry := registerDefaultTools emptyRegistry;
     agentToolMappings := JsMap.empty |}.

Definition setAgentTools (agentId : string) (toolNames : list string)
  (tm : Manager) : Manager :=
  {| toolRegistry := toolRegistry tm;
     agentToolMappings := JsMap.set agentId toolNames (agentToolMappings tm) |}.

Definition removeAgentTools (agentId : string) (tm : Manager) : Manager :=
  {| toolRegistry := toolRegistry tm;
     agentToolMappings := JsMap.delete agentId (agentToolMappings tm) |}.

Definition registerCustomTool (tool : Tool) (ps : list AIProvider)
  (k : option CapabilityKey)
  (specific : option (AIProvider -> option ProviderSpecific)) (tm : Manager)
  : Manager :=
  {| toolRegistry :=
       registerTool tool
         {| setSupportedProviders := ps;
            setRequiresCapability := k;
            setProviderSpecificConfig := specific |} (toolRegistry tm);
     agentToolMappings := agentToolMappings tm |}.

(** [getAgentTools(agentId, provider, capabilities)]: the tools and the
    names that are not supported; [None] is the [TypeError] that
    [getToolsForProvider] can throw.  An agent without a mapping, or with
    an empty one, gets every compatible tool. *)
Definition getAgentTools (tm : Manager) (agentId : string) (p : AIProvider)
  (caps : ProviderCapabilities) : option (list Tool * list string) :=
  let requestedTools :=
    match JsMap.get agentId (agentToolMappings tm) with
    | Some names => names
    | None => []
    end in
  match requestedTools with
  | [] =>
      match getToolsForProvider (toolRegistry tm) p caps None with
      | Some tools => Some (tools, [])
      | None => None
      end
  | _ :: _ =>
      match getToolsForProvider (toolRegistry tm) p caps (Some requestedTools) with
      | Some tools =>
          Some (tools,
                getUnsupportedTools (toolRegistry tm) p caps requestedTools)
      | None => None
      end
  end.

(** [getToolsFromAgentConfig(agentConfig, capabilities)]. *)
Definition getToolsFromAgentConfig (tm : Manager)
  (agentConfig : ProviderConfigValidation.AgentConfig)
  (caps : ProviderCapabilities) : option (list Tool * list string) :=
  match ProviderConfigValidation.tools agentConfig with
  | Some ((_ :: _) as given) =>
      Some (filterToolsForProvider (toolRegistry tm) given
              (ProviderConfigValidation.agentProvider agentConfig) caps)
  | _ =>
      match getToolsForProvider (toolRegistry tm)
              (ProviderConfigValidation.agentProvider agentConfig) caps None with
      | Some tools => Some (tools, [])
      | None => None
      end
  end.

(** The capabilities the tool manager assumes for a provider. *)
Definition getProviderCapabilities (p : AIProvider) : ProviderCapabilities :=
  match p with
  | GEMINI =>
      {| supportsStreaming := true; supportsTools := true;
         supportsImages := true; supportsSystemPrompts := true;
         maxContextLength := 2097152%Z;
         supportedModels := ["gemini-2.0-flash-exp"; "gemini-1.5-pro"]%string |}
  | CLAUDE =>
      {| supportsStreaming := true; supportsTools := true;
         supportsImages := true; supportsSystemPrompts := true;
         maxContextLength := 200000%Z;
         supportedModels := ["claude-3-5-sonnet-20241022"]%string |}
  | OLLAMA =>
      {| supportsStreaming := true; supportsTools := false;
         supportsImages := false; supportsSystemPrompts := true;
         maxContextLength := 8192%Z;
         supportedModels := ["llama2"; "mistral"]%string |}
  end.

Definition capabilityName (k : CapabilityKey) : string :=
  match k with
  | KSupportsStreaming => "supportsStreaming"
  | KSupportsTools => "supportsTools"
  | KSupportsImages => "supportsImages"
  | KSupportsSystemPrompts => "supportsSystemPrompts"
  | KMaxContextLength => "maxContextLength"
  | KSupportedModels => "supportedModels"
  end.

Record Validation : Type := mkValidation {
  valid : bool;
  errors : list string;
  warnings : list string
}.

(** What the loop of [validateAgentTools] pushes for one tool: errors
    and warnings. *)
Definition checkTool (tm : Manager) (p : AIProvider) (tool : Tool)
  : list string * list string :=
  let caps := getProviderCapabilities p in
  let tn := getToolName tool in
  if negb (isToolSupported (toolRegistry tm) tn p caps)
  then
    match getToolConfig (toolRegistry tm) tn with
    | Some config =>
        if negb (providerIncluded (supportedProviders config) p)
        then ([],
              [String.concat EmptyString
                 ["Tool '"; tn; "' is not supported by provider '";
                  providerName p; "'. Supported providers: ";
                  Js.join ", " (map providerName (supportedProviders config))]]%string)
        else
          match requiresCapability config with
          | Some k =>
              if negb (capabilityTruthy caps k)
              then ([String.concat EmptyString
                       ["Tool '"; tn; "' requires capability '";
                        capabilityName k;
                        "' which is not available in provider '";
                        providerName p; "'"]]%string, [])
              else ([], [])
          | None => ([], [])
          end
    | None =>
        ([], [String.concat EmptyString ["Unknown tool '"; tn; "'"]]%string)
    end
  else ([], []).

(** [validateAgentTools(agentConfig)]. *)
Definition validateAgentTools (tm : Manager)
  (agentConfig : ProviderConfigValidation.AgentConfig) : Validation :=
  match ProviderConfigValidation.tools agentConfig with
  | Some ((_ :: _) as given) =>
      let results :=
        map (checkTool tm (ProviderConfigValidation.agentProvider agentConfig))
          given in
      let errs := flat_map fst results in
      {| valid := Nat.eqb (List.length errs) 0;
         errors := errs;
         warnings := flat_map snd results |}
  | _ => {| valid := true; errors := []; warnings := [] |}
  end.

Inductive UseCase : Type := Development | Research | General.

(** [filterToolsByUseCase(toolNames, useCase)] for the two use cases
    that have a list. *)
Definition filterToolsByUseCase (toolNames : list string) (useCase : UseCase)
  : list string :=
  let relevantTools :=
    match useCase with
    | Development =>
        ["read_file"; "write_file"; "edit_file"; "run_shell_command";
         "diff_files"; "grep_files"; "glob_files"]%string
    | Research =>
        ["web_search"; "web_fetch"; "read_file"; "save_memory";
         "search_memory"]%string
    | General => toolNames
    end in
  filter (fun n => Js.arrayIncludes relevantTools n) toolNames.

(** [getRecommendedTools(provider, capabilities, useCase?)]. *)
Definition getRecommendedTools (tm : Manager) (p : AIProvider)
  (caps : ProviderCapabilities) (useCase : option UseCase)
  : option (list Tool) :=
  match getToolsForProvider (toolRegistry tm) p caps None with
  | None => None
  | Some allTools =>
      match useCase with
      | None | Some General => Some allTools
      | Some uc =>
          let filteredNames :=
            filterToolsByUseCase (map getToolName allTools) uc in
          Some (filter (fun tool => Js.arrayIncludes filteredNames
                                      (getToolName tool)) allTools)
      end
  end.

(** The calls that change a tool manager. *)
Inductive Op : Type :=
| OpSetAgentTools (agentId : string) (toolNames : list string)
| OpRemoveAgentTools (agentId : string)
| OpRegisterCustomTool (tool : Tool) (ps : list AIProvider)
    (k : option CapabilityKey)
    (specific : option (AIProvider -> option ProviderSpecific)).

Definition step (tm : Manager) (op : Op) : Manager :=
  match op with
  | OpSetAgentTools a names => setAgentTools a names tm
  | OpRemoveAgentTools a => removeAgentTools a tm
  | OpRegisterCustomTool tool ps k specific =>
      registerCustomTool tool ps k specific tm
  end.

(** The tool manager after a sequence of calls on a new one. *)
Definition run (ops : list Op) : Manager := fold_left step ops newToolManager.

End ToolManager.

(** ** [ProviderFactory] ([providers/manager/ProviderFactory.ts]) *)

Module ProviderFactory.
Import Types.

(** The factory state: its client cache. *)
Definition Cache : Type := JsMap.t BaseProviderClient.ProviderClient.

(** [keyParts.join('|')]. *)
Definition createCacheKey (c : ProviderConfig) : string :=
  String.concat "|"
    [providerName (provider c);
     model c;
     authTypeName (authType c);
     Js.orDefault (apiKey c) "no-key";
     Js.orDefault (endpoint c) "default-endpoint"].

(** [new GeminiProviderClient(config)]: the base constructor only. *)
Definition constructGemini (c : ProviderConfig)
  : JsError + BaseProviderClient.ProviderClient :=
  match BaseProviderClient.construct c with
  | inl e => inl e
  | inr _ =>
      inr {| BaseProviderClient.clientProvider := GEMINI;
             BaseProviderClient.config := c;
             BaseProviderClient.clientApiKey := Js.orDefault (apiKey c) EmptyString;
             BaseProviderClient.clientEndpoint := EmptyString |}
  end.

(** The [switch] of [createClient]: the adapter constructor of the
    provider. *)
Definition construct (env : BaseProviderClient.Env) (c : ProviderConfig)
  : JsError + BaseProviderClient.ProviderClient :=
  match provider c with
  | GEMINI => constructGemini c
  | CLAUDE => ClaudeProviderClient.construct env c
  | OLLAMA => OllamaProviderClient.construct env c
  end.

(** [createClient]: a cached client is returned without construction;
    a newly constructed one is cached. *)
Definition createClient (env : BaseProviderClient.Env) (c : ProviderConfig)
  (cache : Cache) : (JsError + BaseProviderClient.ProviderClient) * Cache :=
  let cacheKey := createCacheKey c in
  match JsMap.get cacheKey cache with
  | Some client => (inr client, cache)
  | None =>
      match construct env c with
      | inl e => (inl e, cache)
      | inr client => (inr client, JsMap.set cacheKey client cache)
      end
  end.

(** The private [validateConfig] of the factory, which
    [testProviderConfig] runs before [createClient]. *)
Definition validateConfig (c : ProviderConfig) : JsError + unit :=
  if negb (Js.truthyString (model c))
  then inl (ProviderError "Model is required" (provider c) None None)
  else if negb (enabled c)
  then inl (ProviderError
              (String.append "Provider "
                 (String.append (providerName (provider c)) " is disabled"))
              (provider c) None None)
  else inr tt.

(** [clearCache()], [removeCachedClient(config)], [getCachedClientKeys()]. *)
Definition clearCache (cache : Cache) : Cache := JsMap.empty.

Definition removeCachedClient (c : ProviderConfig) (cache : Cache) : Cache :=
  JsMap.delete (createCacheKey c) cache.

Definition getCachedClientKeys (cache : Cache) : list string :=
  JsMap.keys cache.

(** The key [createClients] files a client under: [provider-model]. *)
Definition clientsKey (c : ProviderConfig) : string :=
  String.append (providerName (provider c)) (String.append "-" (model c)).

(** The loop of [createClients]: a disabled config is skipped, a failed
    construction is logged and skipped. *)
Fixpoint createClientsFrom (env : BaseProviderClient.Env)
  (configs : list ProviderConfig)
  (clients : JsMap.t BaseProviderClient.ProviderClient) (cache : Cache)
  : JsMap.t BaseProviderClient.ProviderClient * Cache :=
  match configs with
  | [] => (clients, cache)
  | c :: rest =>
      if enabled c
      then match createClient env c cache with
           | (inr client, cache') =>
               createClientsFrom env rest (JsMap.set (clientsKey c) client clients)
                 cache'
           | (inl _, cache') => createClientsFrom env rest clients cache'
           end
      else createClientsFrom env rest clients cache
  end.

Definition createClients (env : BaseProviderClient.Env)
  (configs : list ProviderConfig) (cache : Cache)
  : JsMap.t BaseProviderClient.ProviderClient * Cache :=
  createClientsFrom env configs JsMap.empty cache.

(** The object [testProviderConfig] resolves to; [passed] is set when
    the result carries the capabilities of the client. *)
Record TestResult : Type := mkTestResult {
  valid : bool;
  error : option string;
  passed : option BaseProviderClient.ProviderClient
}.

(** [testProviderConfig(config)].  [validate] and [connect] are the
    answers of [client.validateConfig()] and [client.testConnection()];
    both are awaited before either answer is looked at, and every error
    thrown on the way is turned into the result. *)
Definition testProviderConfig (env : BaseProviderClient.Env)
  (validate connect : BaseProviderClient.ProviderClient -> bool)
  (c : ProviderConfig) (cache : Cache) : TestResult * Cache :=
  match validateConfig c with
  | inl e => ({| valid := false; error := Some (errorMessage e); passed := None |},
              cache)
  | inr _ =>
      match createClient env c cache with
      | (inl e, cache') =>
          ({| valid := false; error := Some (errorMessage e); passed := None |},
           cache')
      | (inr client, cache') =>
          let isValid := validate client in
          let canConnect := connect client in
          if negb isValid
          then ({| valid := false; error := Some "Invalid configuration"%string;
                   passed := None |}, cache')
          else if negb canConnect
          then ({| valid := false;
                   error := Some "Cannot connect to provider"%string;
                   passed := None |}, cache')
          else ({| valid := true; error := None; passed := Some client |}, cache')
      end
  end.

End ProviderFactory.

(** ** [MultiAgentManager] ([providers/manager/AgentManager.ts]) *)

Module MultiAgentManager.
Import Types.
Import ProviderConfigValidation.

(** A session object as the manager builds it. *)
Record Session : Type := mkSession {
  sessionId : string;
  sessionProvider : AIProvider;
  client : BaseProviderClient.ProviderClient;
  history : list Content;
  sessionTools : list ProviderToolRegistry.Tool
}.

(** The adapter methods the manager awaits; every one of them may reach
    the network. *)
Inductive ClientCall : Type :=
| CallValidateConfig (p : AIProvider)
| CallTestConnection (p : AIProvider).

(** The manager: its four fields, the cap, the cache of its provider
    factory, and the log of the adapter calls it has awaited so far (a
    ghost field that the code does not hold). *)
Record Manager : Type := mkManager {
  agents : JsMap.t AgentConfig;
  sessions : JsMap.t Session;
  providers : JsMap.t BaseProviderClient.ProviderClient;
  activeSessionId : option string;
  maxConcurrentSessions : Z;
  factoryCache : ProviderFactory.Cache;
  clientCalls : list ClientCall
}.

(** [new MultiAgentManager(maxConcurrentSessions)]. *)
Definition newManager (cap : Z) : Manager :=
  {| agents := JsMap.empty;
     sessions := JsMap.empty;
     providers := JsMap.empty;
     activeSessionId := None;
     maxConcurrentSessions := cap;
     factoryCache := JsMap.empty;
     clientCalls := [] |}.

(** The default cap of the constructor. *)
Definition defaultMaxConcurrentSessions : Z := 5%Z.

(** The errors the manager throws, one constructor per message. *)
Inductive ManagerError : Type :=
| InvalidAgentConfiguration (errors : list string)
| AgentAlreadyExists (agentId : string)
| AgentNotFound (agentId : string)
| ProviderNotFound (agentId : string)
| MaxConcurrentSessionsReached (cap : Z)
| MaxAgentSessionsReached (agentId : string) (cap : Z)
| SessionNotFound (sessionId : string)
| InvalidProviderConfiguration (agentId : string)
| CannotConnect (agentId : string)
| ClientConstructionFailed (e : JsError).

(** The two errors that report a concurrency limit:
    "Maximum concurrent sessions (n) reached" and
    "Maximum sessions for agent a (n) reached". *)
Definition isConcurrencyLimitError (e : ManagerError) : bool :=
  match e with
  | MaxConcurrentSessionsReached _ => true
  | MaxAgentSessionsReached _ _ => true
  | _ => false
  end.

Inductive Result (A : Type) : Type :=
| Ok (a : A)
| Err (e : ManagerError).

Arguments Ok {A} a.
Arguments Err {A} e.

(** What the outside world answers to the probes of an adapter:
    whether the Gemini content generator can be built, and whether the
    connection test succeeds. *)
Record Probe : Type := mkProbe {
  generatorOk : bool;
  connectOk : bool
}.

(** [client.validateConfig()] per provider: the Gemini adapter tries to
    build its content generator, the Claude adapter checks its key and
    endpoint, the Ollama adapter awaits [testConnection], which never
    throws, and answers true. *)
Definition validateConfig (w : Probe) (cl : BaseProviderClient.ProviderClient)
  : bool :=
  match BaseProviderClient.clientProvider cl with
  | GEMINI => generatorOk w
  | CLAUDE => ClaudeProviderClient.validateConfig cl
  | OLLAMA => true
  end.

Definition testConnection (w : Probe) (cl : BaseProviderClient.ProviderClient)
  : bool := connectOk w.

(** The session id template [agentId-Date.now()-random]. *)
Definition makeSessionId (agentId now rnd : string) : string :=
  String.append agentId
    (String.append "-" (String.append now (String.append "-" rnd))).

(** The session ids that start with [agentId]. *)
Definition agentSessions (m : Manager) (agentId : string) : list string :=
  filter (fun sid => Js.startsWith sid agentId) (JsMap.keys (sessions m)).

(** Truthiness of [agent.maxSessions]. *)
Definition maxSessionsSet (o : option Z) : option Z :=
  match o with
  | Some n => if Z.eqb n 0 then None else Some n
  | None => None
  end.

Definition nonEmptyTools (o : option (list ProviderToolRegistry.Tool))
  : list ProviderToolRegistry.Tool :=
  match o with
  | Some ts => ts
  | None => []
  end.

(** The session object [startSession] builds and registers, and the
    update of the active session. *)
Definition registerSession (agent : AgentConfig)
  (provider : BaseProviderClient.ProviderClient) (sid : string) (m : Manager)
  : Manager :=
  let session :=
    {| sessionId := sid;
       sessionProvider := agentProvider agent;
       client := provider;
       history :=
         if Js.truthy (systemPrompt agent)
         then [userTurn [textPart (Js.orDefault (systemPrompt agent) EmptyString)]]
         else [];
       sessionTools := nonEmptyTools (tools agent) |} in
  {| agents := agents m;
     sessions := JsMap.set sid session (sessions m);
     providers := providers m;
     activeSessionId :=
       if Js.truthy (activeSessionId m) then activeSessionId m else Some sid;
     maxConcurrentSessions := maxConcurrentSessions m;
     factoryCache := factoryCache m;
     clientCalls := clientCalls m |}.

(** [agent.maxSessions && agentSessions.length >= agent.maxSessions]:
    the cap that is reached, if one is. *)
Definition agentCapReached (m : Manager) (agentId : string)
  (agent : AgentConfig) : option Z :=
  match maxSessionsSet (maxSessions agent) with
  | Some cap =>
      if Z.geb (Z.of_nat (List.length (agentSessions m agentId))) cap
      then Some cap else None
  | None => None
  end.

(** [startSession(agentId)]; [now] and [rnd] are the renderings of
    [Date.now()] and of the random suffix of the session id. *)
Definition startSession (agentId now rnd : string) (m : Manager)
  : Result string * Manager :=
  match JsMap.get agentId (agents m) with
  | None => (Err (AgentNotFound agentId), m)
  | Some agent =>
      match JsMap.get agentId (providers m) with
      | None => (Err (ProviderNotFound agentId), m)
      | Some provider =>
          if Z.geb (Z.of_nat (JsMap.size (sessions m))) (maxConcurrentSessions m)
          then (Err (MaxConcurrentSessionsReached (maxConcurrentSessions m)), m)
          else
            match agentCapReached m agentId agent with
            | Some cap => (Err (MaxAgentSessionsReached agentId cap), m)
            | None =>
                let sid := makeSessionId agentId now rnd in
                (Ok sid, registerSession agent provider sid m)
            end
      end
  end.

Definition withFactory (cache : ProviderFactory.Cache) (m : Manager) : Manager :=
  {| agents := agents m;
     sessions := sessions m;
     providers := providers m;
     activeSessionId := activeSessionId m;
     maxConcurrentSessions := maxConcurrentSessions m;
     factoryCache := cache;
     clientCalls := clientCalls m |}.

Definition logCall (c : ClientCall) (m : Manager) : Manager :=
  {| agents := agents m;
     sessions := sessions m;
     providers := providers m;
     activeSessionId := activeSessionId m;
     maxConcurrentSessions := maxConcurrentSessions m;
     factoryCache := factoryCache m;
     clientCalls := clientCalls m ++ [c] |}.

(** [this.agents.set(id, config); this.providers.set(id, client)]. *)
Definition storeAgent (cfg : AgentConfig)
  (cl : BaseProviderClient.ProviderClient) (m : Manager) : Manager :=
  {| agents := JsMap.set (agentId cfg) cfg (agents m);
     sessions := sessions m;
     providers := JsMap.set (agentId cfg) cl (providers m);
     activeSessionId := activeSessionId m;
     maxConcurrentSessions := maxConcurrentSessions m;
     factoryCache := factoryCache m;
     clientCalls := clientCalls m |}.

Definition isTrue (o : option bool) : bool :=
  match o with
  | Some b => b
  | None => false
  end.

(** [createAgent(config)]; [env] and [w] are the environment and the
    answers to the probes while the call runs, [now] and [rnd] feed the
    session id of an auto-started session. *)
Definition createAgent (env : BaseProviderClient.Env) (w : Probe)
  (now rnd : string) (cfg : AgentConfig) (m : Manager)
  : Result string * Manager :=
  match validateAgentConfig env cfg with
  | (_ :: _) as errors => (Err (InvalidAgentConfiguration errors), m)
  | [] =>
      if JsMap.has (agentId cfg) (agents m)
      then (Err (AgentAlreadyExists (agentId cfg)), m)
      else
        match ProviderFactory.createClient env (providerConfig cfg) (factoryCache m) with
        | (inl e, cache) => (Err (ClientConstructionFailed e), withFactory cache m)
        | (inr cl, cache) =>
            let m1 := logCall (CallValidateConfig (BaseProviderClient.clientProvider cl))
                        (withFactory cache m) in
            if negb (validateConfig w cl)
            then (Err (InvalidProviderConfiguration (agentId cfg)), m1)
            else
              let m2 := logCall (CallTestConnection (BaseProviderClient.clientProvider cl)) m1 in
              if negb (testConnection w cl)
              then (Err (CannotConnect (agentId cfg)), m2)
              else
                let m3 := storeAgent cfg cl m2 in
                if isTrue (autoStart cfg)
                then match startSession (agentId cfg) now rnd m3 with
                     | (Err e, m4) => (Err e, m4)
                     | (Ok _, m4) => (Ok (agentId cfg), m4)
                     end
                else (Ok (agentId cfg), m3)
        end
  end.

(** [endSession(sessionId)]: the session is removed; if it was the active
    one, the first remaining session becomes active. *)
Definition endSession (sid : string) (m : Manager) : Result unit * Manager :=
  match JsMap.get sid (sessions m) with
  | None => (Err (SessionNotFound sid), m)
  | Some _ =>
      let remaining := JsMap.delete sid (sessions m) in
      (Ok tt,
       {| agents := agents m;
          sessions := remaining;
          providers := providers m;
          activeSessionId :=
            match activeSessionId m with
            | Some a =>
                if String.eqb a sid
                then match JsMap.keys remaining with
                     | k :: _ => Some k
                     | [] => None
                     end
                else Some a
            | None => None
            end;
          maxConcurrentSessions := maxConcurrentSessions m;
          factoryCache := factoryCache m;
          clientCalls := clientCalls m |})
  end.

(** [for (const id of ids) await this.endSession(id)]: the first
    rejection leaves the loop. *)
Fixpoint endSessions (ids : list string) (m : Manager) : Result unit * Manager :=
  match ids with
  | [] => (Ok tt, m)
  | sid :: rest =>
      match endSession sid m with
      | (Err e, m') => (Err e, m')
      | (Ok _, m') => endSessions rest m'
      end
  end.

(** The same loop inside [try]/[catch]: a rejection is logged and the
    loop goes on. *)
Fixpoint endSessionsQuietly (ids : list string) (m : Manager) : Manager :=
  match ids with
  | [] => m
  | sid :: rest => endSessionsQuietly rest (snd (endSession sid m))
  end.

(** [removeAgent(agentId)]. *)
Definition removeAgent (agentId : string) (m : Manager) : Result unit * Manager :=
  match endSessions (agentSessions m agentId) m with
  | (Err e, m') => (Err e, m')
  | (Ok _, m') =>
      (Ok tt,
       {| agents := JsMap.delete agentId (agents m');
          sessions := sessions m';
          providers := JsMap.delete agentId (providers m');
          activeSessionId :=
            match activeSessionId m' with
            | Some a =>
                if Js.truthyString a && Js.startsWith a agentId then None
                else Some a
            | None => None
            end;
          maxConcurrentSessions := maxConcurrentSessions m';
          factoryCache := factoryCache m';
          clientCalls := clientCalls m' |})
  end.

(** [switchToSession(sessionId)]. *)
Definition switchToSession (sid : string) (m : Manager) : Result unit * Manager :=
  if negb (JsMap.has sid (sessions m))
  then (Err (SessionNotFound sid), m)
  else (Ok tt,
        {| agents := agents m;
           sessions := sessions m;
           providers := providers m;
           activeSessionId := Some sid;
           maxConcurrentSessions := maxConcurrentSessions m;
           factoryCache := factoryCache m;
           clientCalls := clientCalls m |}).

(** [Partial<AgentConfig>]: the fields an update carries. *)
Record AgentUpdates : Type := mkUpdates {
  updAgentId : option string;
  updName : option string;
  updProvider : option AIProvider;
  updProviderConfig : option ProviderConfig;
  updTools : option (list ProviderToolRegistry.Tool);
  updSystemPrompt : option string;
  updAutoStart : option bool;
  updMaxSessions : option Z
}.

Definition override {A : Type} (old : A) (new : option A) : A :=
  match new with
  | Some v => v
  | None => old
  end.

Definition overrideOpt {A : Type} (old new : option A) : option A :=
  match new with
  | Some v => Some v
  | None => old
  end.

(** [{ ...existingAgent, ...updates }]. *)
Definition mergeAgent (a : AgentConfig) (u : AgentUpdates) : AgentConfig :=
  {| agentId := override (agentId a) (updAgentId u);
     name := override (name a) (updName u);
     agentProvider := override (agentProvider a) (updProvider u);
     providerConfig := override (providerConfig a) (updProviderConfig u);
     tools := overrideOpt (tools a) (updTools u);
     systemPrompt := overrideOpt (systemPrompt a) (updSystemPrompt u);
     autoStart := overrideOpt (autoStart a) (updAutoStart u);
     maxSessions := overrideOpt (maxSessions a) (updMaxSessions u) |}.

Definition setAgent (agentId : string) (cfg : AgentConfig) (m : Manager)
  : Manager :=
  {| agents := JsMap.set agentId cfg (agents m);
     sessions := sessions m;
     providers := providers m;
     activeSessionId := activeSessionId m;
     maxConcurrentSessions := maxConcurrentSessions m;
     factoryCache := factoryCache m;
     clientCalls := clientCalls m |}.

Definition setProvider (agentId : string)
  (cl : BaseProviderClient.ProviderClient) (m : Manager) : Manager :=
  {| agents := agents m;
     sessions := sessions m;
     providers := JsMap.set agentId cl (providers m);
     activeSessionId := activeSessionId m;
     maxConcurrentSessions := maxConcurrentSessions m;
     factoryCache := factoryCache m;
     clientCalls := clientCalls m |}.

(** [updateAgent(agentId, updates)]. *)
Definition updateAgent (env : BaseProviderClient.Env) (w : Probe)
  (agentId : string) (u : AgentUpdates) (m : Manager) : Result unit * Manager :=
  match JsMap.get agentId (agents m) with
  | None => (Err (AgentNotFound agentId), m)
  | Some existingAgent =>
      let updatedAgent := mergeAgent existingAgent u in
      match validateAgentConfig env updatedAgent with
      | (_ :: _) as errors => (Err (InvalidAgentConfiguration errors), m)
      | [] =>
          match updProviderConfig u with
          | Some _ =>
              match ProviderFactory.createClient env (providerConfig updatedAgent)
                      (factoryCache m) with
              | (inl e, cache) => (Err (ClientConstructionFailed e), withFactory cache m)
              | (inr cl, cache) =>
                  let m1 := logCall (CallValidateConfig (BaseProviderClient.clientProvider cl))
                              (withFactory cache m) in
                  if negb (validateConfig w cl)
                  then (Err (InvalidProviderConfiguration agentId), m1)
                  else (Ok tt, setAgent agentId updatedAgent (setProvider agentId cl m1))
              end
          | None => (Ok tt, setAgent agentId updatedAgent m)
          end
      end
  end.

(** [shutdown()]. *)
Definition shutdown (m : Manager) : Manager :=
  let m' := endSessionsQuietly (JsMap.keys (sessions m)) m in
  {| agents := JsMap.empty;
     sessions := sessions m';
     providers := JsMap.empty;
     activeSessionId := None;
     maxConcurrentSessions := maxConcurrentSessions m';
     factoryCache := factoryCache m';
     clientCalls := clientCalls m' |}.

Definition getDefaultModel (p : AIProvider) : string :=
  match p with
  | GEMINI => "gemini-2.0-flash-exp"
  | CLAUDE => "claude-3-5-sonnet-20241022"
  | OLLAMA => "llama2"
  end.

Definition getDefaultAuthType (p : AIProvider) : ProviderAuthType :=
  match p with
  | GEMINI => GEMINI_API_KEY
  | CLAUDE => CLAUDE_API_KEY
  | OLLAMA => OLLAMA_LOCAL
  end.

(** The agent config [createQuickSession] synthesizes; [now] renders the
    [Date.now()] of the agent id. *)
Definition quickAgentConfig (p : AIProvider) (model name : option string)
  (now : string) : AgentConfig :=
  {| agentId :=
       String.append "quick-"
         (String.append (providerName p) (String.append "-" now));
     name :=
       Js.orDefault name
         (String.append "Quick " (String.append (providerName p) " Agent"));
     agentProvider := p;
     providerConfig :=
       {| provider := p;
          Types.model := Js.orDefault model (getDefaultModel p);
          authType := getDefaultAuthType p;
          apiKey := None;
          endpoint := None;
          proxy := None;
          enabled := true;
          maxTokens := None;
          temperature := None;
          topP := None |};
     tools := None;
     systemPrompt := None;
     autoStart := Some true;
     maxSessions := None |}.

(** The clock and random values one [createQuickSession] call draws. *)
Record QuickClock : Type := mkQuickClock {
  agentNow : string;
  firstNow : string;
  firstRnd : string;
  secondNow : string;
  secondRnd : string
}.

(** [createQuickSession(provider, model?, name?)]: [createAgent] is
    awaited, then [startSession] is returned. *)
Definition createQuickSession (env : BaseProviderClient.Env) (w : Probe)
  (k : QuickClock) (p : AIProvider) (model name : option string) (m : Manager)
  : Result string * Manager :=
  let cfg := quickAgentConfig p model name (agentNow k) in
  match createAgent env w (firstNow k) (firstRnd k) cfg m with
  | (Err e, m') => (Err e, m')
  | (Ok _, m') => startSession (agentId cfg) (secondNow k) (secondRnd k) m'
  end.

(** The calls of the manager that change its state, with what the
    outside world answers during each. *)
Inductive Op : Type :=
| OpCreateAgent (env : BaseProviderClient.Env) (w : Probe) (now rnd : string)
                (cfg : AgentConfig)
| OpRemoveAgent (agentId : string)
| OpStartSession (agentId now rnd : string)
| OpEndSession (sid : string)
| OpSwitchToSession (sid : string)
| OpUpdateAgent (env : BaseProviderClient.Env) (w : Probe) (agentId : string)
                (u : AgentUpdates)
| OpShutdown
| OpCreateQuickSession (env : BaseProviderClient.Env) (w : Probe) (k : QuickClock)
                       (p : AIProvider) (model name : option string).

(** The state after a call, whether it resolved or rejected. *)
Definition step (m : Manager) (op : Op) : Manager :=
  match op with
  | OpCreateAgent env w now rnd cfg => snd (createAgent env w now rnd cfg m)
  | OpRemoveAgent a => snd (removeAgent a m)
  | OpStartSession a now rnd => snd (startSession a now rnd m)
  | OpEndSession sid => snd (endSession sid m)
  | OpSwitchToSession sid => snd (switchToSession sid m)
  | OpUpdateAgent env w a u => snd (updateAgent env w a u m)
  | OpShutdown => shutdown m
  | OpCreateQuickSession env w k p model name =>
      snd (createQuickSession env w k p model name m)
  end.

(** The state of a manager built with cap [cap] after the calls [ops]. *)
Definition run (cap : Z) (ops : list Op) : Manager :=
  fold_left step ops (newManager cap).

(** *** The queries of the manager *)

(** [getAgent(agentId)]: the first session, in the order of the session
    map, whose id starts with [agentId]. *)
Definition getAgent (agentId : string) (m : Manager) : option Session :=
  match find (fun kv => Js.startsWith (fst kv) agentId) (sessions m) with
  | Some kv => Some (snd kv)
  | None => None
  end.

Definition listAgents (m : Manager) : list AgentConfig :=
  JsMap.values (agents m).

Definition getActiveSessions (m : Manager) : list Session :=
  JsMap.values (sessions m).

(** [getActiveSession()]: [null] when [activeSessionId] is falsy,
    otherwise [sessions.get(activeSessionId) || null]. *)
Definition getActiveSession (m : Manager) : option Session :=
  match activeSessionId m with
  | Some a => if Js.truthyString a then JsMap.get a (sessions m) else None
  | None => None
  end.

Definition getSession (sid : string) (m : Manager) : option Session :=
  JsMap.get sid (sessions m).

Definition getActiveSessionIds (m : Manager) : list string :=
  JsMap.keys (sessions m).

Definition getAgentConfig (agentId : string) (m : Manager) : option AgentConfig :=
  JsMap.get agentId (agents m).

(** [Record<AIProvider, number>]. *)
Record ProviderCounts : Type := mkCounts {
  geminiCount : nat;
  claudeCount : nat;
  ollamaCount : nat
}.

(** [sessionsByProvider[p]++]. *)
Definition increment (p : AIProvider) (c : ProviderCounts) : ProviderCounts :=
  match p with
  | GEMINI => {| geminiCount := S (geminiCount c);
                 claudeCount := claudeCount c;
                 ollamaCount := ollamaCount c |}
  | CLAUDE => {| geminiCount := geminiCount c;
                 claudeCount := S (claudeCount c);
                 ollamaCount := ollamaCount c |}
  | OLLAMA => {| geminiCount := geminiCount c;
                 claudeCount := claudeCount c;
                 ollamaCount := S (ollamaCount c) |}
  end.

(** [sessionId.split('-')[0]]: the text before the first hyphen. *)
Fixpoint firstSegment (s : string) : string :=
  match s with
  | EmptyString => EmptyString
  | String c s' =>
      if Ascii.eqb c "-"%char then EmptyString else String c (firstSegment s')
  end.

(** [set.add(x)] on a [Set] of strings held in insertion order. *)
Definition setAdd (x : string) (s : list string) : list string :=
  if Js.arrayIncludes s x then s else s ++ [x].

Record Stats : Type := mkStats {
  totalAgents : nat;
  activeAgents : nat;
  totalSessions : nat;
  sessionsByProvider : ProviderCounts
}.

(** [getStats()]. *)
Definition getStats (m : Manager) : Stats :=
  let byProvider :=
    fold_left (fun c s => increment (sessionProvider s) c)
      (JsMap.values (sessions m))
      {| geminiCount := 0; claudeCount := 0; ollamaCount := 0 |} in
  let active :=
    fold_left (fun s sid => setAdd (firstSegment sid) s)
      (JsMap.keys (sessions m)) [] in
  {| totalAgents := JsMap.size (agents m);
     activeAgents := List.length active;
     totalSessions := JsMap.size (sessions m);
     sessionsByProvider := byProvider |}.

End MultiAgentManager.

(** ** Invariants and derived quantities used by the theorems *)

Module Specs.

(** The turn that carries the text the Claude converter holds. *)
Definition textTurn (st : ClaudeProviderClient.ConvState) : list Types.Content :=
  [Types.modelTurn [Types.textPart (ClaudeProviderClient.currentText st)]].

(** The text delta a line of the Claude stream carries, if the converter
    accepts it: a [data: ] line whose payload parses to a
    [content_block_delta] with a non-empty text. *)
Definition deltaOfLine (parse : string -> option ClaudeProviderClient.ClaudeStreamChunk)
  (line : string) : option string :=
  if Js.startsWith line "data: "
  then match parse (Js.slice 6 line) with
       | Some data =>
           match ClaudeProviderClient.type data with
           | ClaudeProviderClient.content_block_delta =>
               match ClaudeProviderClient.deltaText data with
               | Some t => if Js.truthyString t then Some t else None
               | None => None
               end
           | _ => None
           end
       | None => None
       end
  else None.

(** The text deltas the converter accepts from a sequence of reads, in
    order, when every read is split into lines on its own, as the
    converter does: a line that a read boundary cuts is two lines here,
    and its delta is not among them. *)
Definition acceptedDeltas (parse : string -> option ClaudeProviderClient.ClaudeStreamChunk)
  (reads : list string) : list string :=
  flat_map (fun chunk =>
              flat_map (fun line => match deltaOfLine parse line with
                                    | Some t => [t]
                                    | None => []
                                    end)
                       (Js.splitLines chunk))
           reads.

(** Every text delta of a stream, whatever the reads are: the deltas of
    the lines of the whole text. *)
Definition streamDeltas (parse : string -> option ClaudeProviderClient.ClaudeStreamChunk)
  (text : string) : list string :=
  flat_map (fun line => match deltaOfLine parse line with
                        | Some t => [t]
                        | None => []
                        end)
           (Js.splitLines text).

(** A thrown value that is retried: anything but a provider error that
    carries the status 401, 403 or 404. *)
Definition transient (e : Types.JsError) : Prop :=
  match e with
  | Types.ProviderError _ _ _ (Some st) =>
      st <> 401%Z /\ st <> 403%Z /\ st <> 404%Z
  | _ => True
  end.

(** The delay [retryWithBackoff] sleeps after the failed attempt [k]. *)
Definition sleepAt (random : nat -> Q) (baseDelayMs : Q) (k : nat) : Q :=
  (BaseProviderClient.backoffDelay baseDelayMs k
   + BaseProviderClient.backoffJitter (random k)
       (BaseProviderClient.backoffDelay baseDelayMs k))%Q.

(** What every registry built by [registerTool] and [clear] satisfies:
    the configs have distinct keys and every tool is stored under its own
    name. *)
Definition registryOk (r : ProviderToolRegistry.Registry) : Prop :=
  NoDup (JsMap.keys (ProviderToolRegistry.toolConfigs r))
  /\ forall k t,
       JsMap.get k (ProviderToolRegistry.globalTools r) = Some t ->
       ProviderToolRegistry.getToolName t = k.

(** What holds of a manager built with cap [cap] after every call: the
    cap is the one it was built with, the sessions are within it, and
    every registered agent has a cached adapter and, if it has a session
    cap of its own, one that is at least 1. *)
Definition managerOk (cap : Z) (m : MultiAgentManager.Manager) : Prop :=
  MultiAgentManager.maxConcurrentSessions m = cap
  /\ (Z.of_nat (JsMap.size (MultiAgentManager.sessions m)) <= cap)%Z
  /\ forall a cfg,
       JsMap.get a (MultiAgentManager.agents m) = Some cfg ->
       JsMap.has a (MultiAgentManager.providers m) = true
       /\ forall n, ProviderConfigValidation.maxSessions cfg = Some n -> (1 <= n)%Z.

(** What holds of the session map of a manager after every call: the
    two maps have distinct keys, every session is stored under its own
    id, which was made for an agent that is still registered, and the
    active session id names a registered session whenever there is
    one. *)
Definition sessionsOk (m : MultiAgentManager.Manager) : Prop :=
  NoDup (JsMap.keys (MultiAgentManager.agents m))
  /\ NoDup (JsMap.keys (MultiAgentManager.sessions m))
  /\ (forall sid s,
         JsMap.get sid (MultiAgentManager.sessions m) = Some s ->
         MultiAgentManager.sessionId s = sid
         /\ exists a now rnd,
              sid = MultiAgentManager.makeSessionId a now rnd
              /\ JsMap.has a (MultiAgentManager.agents m) = true)
  /\ match MultiAgentManager.activeSessionId m with
     | Some a => JsMap.has a (MultiAgentManager.sessions m) = true
     | None => MultiAgentManager.sessions m = []
     end.

(** What every registry built by [registerTool] satisfies besides
    [registryOk]: a tool is stored for every config. *)
Definition registryComplete (r : ProviderToolRegistry.Registry) : Prop :=
  forall tn cfg,
    JsMap.get tn (ProviderToolRegistry.toolConfigs r) = Some cfg ->
    exists tool, JsMap.get tn (ProviderToolRegistry.globalTools r) = Some tool.

(** A config whose required capability, if it has one, is among the
    capabilities the tool manager assumes for each provider it lists. *)
Definition capabilityAssumed (cfg : ProviderToolRegistry.ProviderToolConfig)
  : bool :=
  forallb
    (fun p =>
       negb (ProviderToolRegistry.providerIncluded
               (ProviderToolRegistry.supportedProviders cfg) p)
       || negb (ProviderToolRegistry.lacksRequired cfg
                  (ToolManager.getProviderCapabilities p)))
    [Types.GEMINI; Types.CLAUDE; Types.OLLAMA].

(** The responses of a list up to and including the first one whose
    [done] is set. *)
Fixpoint untilDone (rs : list OllamaChatSession.OllamaResponse)
  : list OllamaChatSession.OllamaResponse :=
  match rs with
  | [] => []
  | r :: rs' =>
      if OllamaChatSession.done r then [r] else r :: untilDone rs'
  end.

(** The responses that the non-blank lines of the reads parse to, every
    read split into lines on its own. *)
Definition parsedLines (parse : string -> option OllamaChatSession.OllamaResponse)
  (reads : list string) : list OllamaChatSession.OllamaResponse :=
  flat_map
    (fun chunk =>
       flat_map (fun line => match parse line with
                             | Some r => [r]
                             | None => []
                             end)
         (filter OllamaProviderClient.trimTruthy (Js.splitLines chunk)))
    reads.

(** A turn whose role is ['user']. *)
Definition isUserTurn (c : Types.Content) : bool :=
  BaseProviderSession.roleIs "user" (Some c).

(** A turn whose role is ['model'] and whose texts, joined by line feeds,
    are not empty. *)
Definition isModelTurnWithText (c : Types.Content) : bool :=
  BaseProviderSession.roleIs "model" (Some c)
  && Js.truthyString
       (ProviderRequests.joinedText
          (match Types.parts c with
           | Some ps => ps
           | None => []
           end)).

(** The lengths of the non-empty texts of a list of turns, in order. *)
Definition textLengths (cs : list Types.Content) : list nat :=
  flat_map
    (fun c =>
       match Types.parts c with
       | Some ps =>
           flat_map (fun p => match Types.text p with
                              | Some s => if Js.truthyString s
                                          then [String.length s] else []
                              | None => []
                              end) ps
       | None => []
       end) cs.

(** The sum of a list of delays. *)
Definition totalSleep (ds : list Q) : Q := fold_right Qplus (0 # 1)%Q ds.

(** The number of strings of a list without its repetitions. *)
Definition distinct (xs : list string) : nat :=
  List.length (nodup string_dec xs).

(** The sum of the three counters of [getStats]. *)
Definition countsTotal (c : MultiAgentManager.ProviderCounts) : nat :=
  MultiAgentManager.geminiCount c + MultiAgentManager.claudeCount c
  + MultiAgentManager.ollamaCount c.

End Specs.

(** Unfolds the field projections of a manager record. *)
Ltac fields :=
  cbn [fst snd MultiAgentManager.agents MultiAgentManager.sessions
       MultiAgentManager.providers MultiAgentManager.activeSessionId
       MultiAgentManager.maxConcurrentSessions MultiAgentManager.factoryCache
       MultiAgentManager.clientCalls MultiAgentManager.storeAgent
       MultiAgentManager.logCall MultiAgentManager.withFactory
       MultiAgentManager.setAgent MultiAgentManager.setProvider] in *.

(** ** Sample inputs *)

Module Samples.

(** A turn with no parts, as [addHistory] accepts it. *)
Definition emptyModelTurn : Types.Content := Types.modelTurn [].

(** A turn whose only part is an empty text. *)
Definition emptyTextTurn : Types.Content :=
  Types.modelTurn [Types.textPart EmptyString].

(** A history of five turns, eleven tokens by [estimateTokens]. *)
Definition sampleHistory : list Types.Content :=
  [Types.userTurn [Types.textPart "question"];
   Types.modelTurn [Types.textPart "answer 1"];
   Types.userTurn [Types.textPart "follow-up"];
   Types.modelTurn [Types.textPart "answer 2"];
   Types.userTurn [Types.textPart "last one"]].

(** The double quote, and a JSON string literal. *)
Definition dq : string := String (Ascii.ascii_of_nat 34) EmptyString.

Definition quoted (s : string) : string :=
  String.append dq (String.append s dq).

(** The JSON text of a [content_block_delta] event whose text is [t]:
    an object with "type": "content_block_delta" and
    "delta": an object with "type": "text_delta" and "text": [t]. *)
Definition deltaPayload (t : string) : string :=
  String.concat EmptyString
    ["{"; quoted "type"; ":"; quoted "content_block_delta"; ",";
     quoted "delta"; ":{"; quoted "type"; ":"; quoted "text_delta"; ",";
     quoted "text"; ":"; quoted t; "}}"]%string.

(** One server-sent-event line: the [data: ] prefix, the payload and the
    line feed. *)
Definition sseLine (payload : string) : string :=
  String.append "data: "
    (String.append payload (String Js.newline EmptyString)).

Definition textDelta (t : string) : ClaudeProviderClient.ClaudeStreamChunk :=
  {| ClaudeProviderClient.type := ClaudeProviderClient.content_block_delta;
     ClaudeProviderClient.deltaText := Some t;
     ClaudeProviderClient.message := None;
     ClaudeProviderClient.usage := None |}.

(** A reader of the sample payloads.  On the three delta payloads below it
    answers what [JSON.parse] answers; on every other text that the
    samples hand to it (a cut-off piece of such a payload) it fails, as
    [JSON.parse] throws on an incomplete object. *)
Definition parseSample (s : string)
  : option ClaudeProviderClient.ClaudeStreamChunk :=
  if String.eqb s (deltaPayload "Hel") then Some (textDelta "Hel")
  else if String.eqb s (deltaPayload "lo") then Some (textDelta "lo")
  else if String.eqb s (deltaPayload "Hi") then Some (textDelta "Hi")
  else None.

(** A stream of two text deltas, one event a read. *)
Definition helloReads : list string :=
  [sseLine (deltaPayload "Hel"); sseLine (deltaPayload "lo")].

(** One event, delivered in one read. *)
Definition hiOneRead : list string := [sseLine (deltaPayload "Hi")].

(** The same bytes delivered in two reads, cut inside the payload. *)
Definition hiTwoReads : list string :=
  let line := sseLine (deltaPayload "Hi") in
  [String.substring 0 30 line;
   String.substring 30 (String.length line - 30) line].

(** The JSON text of an Ollama chat line with message content [t] and
    the flag [done]. *)
Definition ollamaPayload (t : string) (isDone : bool) : string :=
  String.concat EmptyString
    ["{"; quoted "message"; ":{"; quoted "content"; ":"; quoted t; "},";
     quoted "done"; ":"; if isDone then "true" else "false"; "}"]%string.

Definition ollamaLine (t : string) (isDone : bool)
  : OllamaProviderClient.OllamaResponse :=
  {| OllamaProviderClient.messageContent := Some t;
     OllamaProviderClient.done := isDone;
     OllamaProviderClient.prompt_eval_count := if isDone then Some 3%Z else None;
     OllamaProviderClient.eval_count := if isDone then Some 2%Z else None |}.

(** A reader of the three sample lines of the Ollama stream. *)
Definition parseOllamaSample (s : string)
  : option OllamaProviderClient.OllamaResponse :=
  if String.eqb s (ollamaPayload "Hel" false) then Some (ollamaLine "Hel" false)
  else if String.eqb s (ollamaPayload "lo" false) then Some (ollamaLine "lo" false)
  else if String.eqb s (ollamaPayload EmptyString true)
       then Some (ollamaLine EmptyString true)
  else None.

(** Two content lines and the closing line, one line a read. *)
Definition ollamaReads : list string :=
  map (fun l => String.append l (String Js.newline EmptyString))
    [ollamaPayload "Hel" false; ollamaPayload "lo" false;
     ollamaPayload EmptyString true].

(** The sample reader as the chat session reads a payload. *)
Definition parseSampleChunk (s : string) : option ClaudeChatSession.ParsedChunk :=
  match parseSample s with
  | Some c =>
      Some {| ClaudeChatSession.chunkType := ClaudeProviderClient.type c;
              ClaudeChatSession.chunkId := None;
              ClaudeChatSession.chunkDeltaText := ClaudeProviderClient.deltaText c |}
  | None => None
  end.

(** An operation that fails once with a server error and then succeeds. *)
Definition flakyOperation (k : nat) : BaseProviderClient.Outcome string :=
  match k with
  | O => BaseProviderClient.Rejects
           (Types.ProviderError "server error" Types.CLAUDE
              (Some "UNKNOWN_ERROR"%string) (Some 500%Z))
  | S _ => BaseProviderClient.Resolves "ok"%string
  end.

(** An operation that fails with a server error first and is refused as
    unauthenticated from the second call on. *)
Definition lateUnauthorizedOperation (k : nat)
  : BaseProviderClient.Outcome string :=
  match k with
  | O => BaseProviderClient.Rejects
           (Types.ProviderError "server error" Types.CLAUDE
              (Some "UNKNOWN_ERROR"%string) (Some 500%Z))
  | S _ => BaseProviderClient.Rejects
             (Types.AuthenticationError "denied" Types.CLAUDE)
  end.

(** An operation that is always refused as unauthenticated. *)
Definition unauthorizedOperation (k : nat) : BaseProviderClient.Outcome string :=
  BaseProviderClient.Rejects (Types.AuthenticationError "denied" Types.CLAUDE).

(** A random source that always answers one half. *)
Definition halfRandom (k : nat) : Q := 1 # 2.

(** An environment without any of the variables. *)
Definition noEnv : BaseProviderClient.Env :=
  {| BaseProviderClient.ENV_GEMINI_API_KEY := None;
     BaseProviderClient.ENV_GOOGLE_API_KEY := None;
     BaseProviderClient.ENV_ANTHROPIC_API_KEY := None;
     BaseProviderClient.ENV_OLLAMA_HOST := None |}.

(** An environment that holds a Gemini API key. *)
Definition geminiEnv : BaseProviderClient.Env :=
  {| BaseProviderClient.ENV_GEMINI_API_KEY := Some "gemini-key"%string;
     BaseProviderClient.ENV_GOOGLE_API_KEY := None;
     BaseProviderClient.ENV_ANTHROPIC_API_KEY := None;
     BaseProviderClient.ENV_OLLAMA_HOST := None |}.

(** Every probe of an adapter succeeds. *)
Definition reachable : MultiAgentManager.Probe :=
  {| MultiAgentManager.generatorOk := true;
     MultiAgentManager.connectOk := true |}.

(** A Claude provider config with its key and endpoint. *)
Definition claudeConfig (isEnabled : bool) : Types.ProviderConfig :=
  {| Types.provider := Types.CLAUDE;
     Types.model := "claude-3-5-sonnet-20241022";
     Types.authType := Types.CLAUDE_API_KEY;
     Types.apiKey := Some "secret"%string;
     Types.endpoint := Some "https://api.anthropic.com/v1/messages"%string;
     Types.proxy := None;
     Types.enabled := isEnabled;
     Types.maxTokens := None;
     Types.temperature := None;
     Types.topP := None |}.

(** An agent on the Claude config, without auto start. *)
Definition claudeAgent (id : string) (isEnabled : bool)
  (cap : option Z) : ProviderConfigValidation.AgentConfig :=
  {| ProviderConfigValidation.agentId := id;
     ProviderConfigValidation.name := "Claude agent";
     ProviderConfigValidation.agentProvider := Types.CLAUDE;
     ProviderConfigValidation.providerConfig := claudeConfig isEnabled;
     ProviderConfigValidation.tools := None;
     ProviderConfigValidation.systemPrompt := None;
     ProviderConfigValidation.autoStart := None;
     ProviderConfigValidation.maxSessions := cap |}.

(** A manager with cap 1 in which agent "a" has one session. *)
Definition fullManagerOps : list MultiAgentManager.Op :=
  [MultiAgentManager.OpCreateAgent noEnv reachable "0" "x" (claudeAgent "a" true None);
   MultiAgentManager.OpStartSession "a" "1700000000000" "k3j9x0a1b";
   MultiAgentManager.OpStartSession "a" "1700000000001" "zzzzzzzzz"]%string.

(** A manager with the default cap in which the enabled agent "a" is
    registered: the factory has cached its adapter. *)
Definition cachedManager : MultiAgentManager.Manager :=
  MultiAgentManager.run MultiAgentManager.defaultMaxConcurrentSessions
    [MultiAgentManager.OpCreateAgent noEnv reachable "0" "x"
       (claudeAgent "a" true None)]%string.

(** The clock and random values of one quick session. *)
Definition quickClock : MultiAgentManager.QuickClock :=
  {| MultiAgentManager.agentNow := "1700000000000";
     MultiAgentManager.firstNow := "1700000000001";
     MultiAgentManager.firstRnd := "abcdefghi";
     MultiAgentManager.secondNow := "1700000000002";
     MultiAgentManager.secondRnd := "jklmnopqr" |}.

(** A tool with one declaration named [n]. *)
Definition namedTool (n : string) : ProviderToolRegistry.Tool :=
  {| ProviderToolRegistry.function_declarations :=
       Some [{| ProviderToolRegistry.name := Some n;
                ProviderToolRegistry.description := None;
                ProviderToolRegistry.parameters := JsMap.empty |}] |}.

(** What [registerDefaultTool] passes for its arguments. *)
Definition defaultSettings (ps : list Types.AIProvider)
  (k : option ProviderToolRegistry.CapabilityKey)
  : ProviderToolRegistry.ToolSettings :=
  {| ProviderToolRegistry.setSupportedProviders := ps;
     ProviderToolRegistry.setRequiresCapability := k;
     ProviderToolRegistry.setProviderSpecificConfig := None |}.

(** A registry with a file tool for every provider and a tool for
    Gemini and Ollama that requires tool support. *)
Definition registryOps : list ProviderToolRegistry.RegistryOp :=
  [ProviderToolRegistry.RegisterTool (namedTool "read_file")
     (defaultSettings [Types.GEMINI; Types.CLAUDE; Types.OLLAMA] None);
   ProviderToolRegistry.RegisterTool (namedTool "mcp_tool")
     (defaultSettings [Types.GEMINI; Types.OLLAMA]
        (Some ProviderToolRegistry.KSupportsTools))].

(** The capabilities the Ollama adapter declares. *)
Definition ollamaCapabilities : ProviderToolRegistry.ProviderCapabilities :=
  {| ProviderToolRegistry.supportsStreaming := true;
     ProviderToolRegistry.supportsTools := false;
     ProviderToolRegistry.supportsImages := true;
     ProviderToolRegistry.supportsSystemPrompts := true;
     ProviderToolRegistry.maxContextLength := 8192%Z;
     ProviderToolRegistry.supportedModels := [] |}.

End Samples.

(** * Theorems *)

Close Scope Q_scope.

(** ** Maps *)

Lemma JsMap_get_set_same {V : Type} (k : string) (v : V) (m : JsMap.t V) :
  JsMap.get k (JsMap.set k v m) = Some v.
Proof.
  induction m as [|[k' v'] m IH]; simpl.
  - now rewrite String.eqb_refl.
  - destruct (String.eqb k' k) eqn:E; simpl; rewrite E; auto.
Qed.

Lemma JsMap_get_set_other {V : Type} (k k' : string) (v : V) (m : JsMap.t V) :
  k <> k' -> JsMap.get k' (JsMap.set k v m) = JsMap.get k' m.
Proof.
  intros Hne. induction m as [|[k0 v0] m IH]; simpl.
  - destruct (String.eqb k k') eqn:E; auto.
    apply String.eqb_eq in E. contradiction.
  - destruct (String.eqb k0 k) eqn:E; simpl.
    + apply String.eqb_eq in E. subst k0.
      destruct (String.eqb k k') eqn:E'; auto.
      apply String.eqb_eq in E'. contradiction.
    + destruct (String.eqb k0 k'); auto.
Qed.

Lemma JsMap_has_set_same {V : Type} (k : string) (v : V) (m : JsMap.t V) :
  JsMap.has k (JsMap.set k v m) = true.
Proof. unfold JsMap.has. now rewrite JsMap_get_set_same. Qed.

Lemma JsMap_has_set_mono {V : Type} (k k' : string) (v : V) (m : JsMap.t V) :
  JsMap.has k' m = true -> JsMap.has k' (JsMap.set k v m) = true.
Proof.
  unfold JsMap.has. intros H.
  destruct (String.eqb k k') eqn:E.
  - apply String.eqb_eq in E. subst. now rewrite JsMap_get_set_same.
  - apply String.eqb_neq in E. now rewrite JsMap_get_set_other.
Qed.

Lemma JsMap_size_set {V : Type} (k : string) (v : V) (m : JsMap.t V) :
  JsMap.size (JsMap.set k v m)
  = if JsMap.has k m then JsMap.size m else S (JsMap.size m).
Proof.
  unfold JsMap.size, JsMap.has.
  induction m as [|[k' v'] m IH]; simpl; auto.
  destruct (String.eqb k' k) eqn:E; simpl; auto.
  rewrite IH. destruct (JsMap.get k m); auto.
Qed.

Lemma JsMap_size_set_le {V : Type} (k : string) (v : V) (m : JsMap.t V) :
  JsMap.size (JsMap.set k v m) <= S (JsMap.size m).
Proof. rewrite JsMap_size_set. destruct (JsMap.has k m); lia. Qed.

Lemma JsMap_size_delete_le {V : Type} (k : string) (m : JsMap.t V) :
  JsMap.size (JsMap.delete k m) <= JsMap.size m.
Proof. unfold JsMap.size, JsMap.delete. apply filter_length_le. Qed.

Lemma JsMap_get_delete_same {V : Type} (k : string) (m : JsMap.t V) :
  JsMap.get k (JsMap.delete k m) = None.
Proof.
  unfold JsMap.delete.
  induction m as [|[k' v'] m IH]; simpl; auto.
  destruct (String.eqb k' k) eqn:E; simpl; auto. now rewrite E.
Qed.

Lemma JsMap_get_delete_other {V : Type} (k k' : string) (m : JsMap.t V) :
  k <> k' -> JsMap.get k' (JsMap.delete k m) = JsMap.get k' m.
Proof.
  intros Hne. unfold JsMap.delete.
  induction m as [|[k0 v0] m IH]; simpl; auto.
  destruct (String.eqb k0 k) eqn:E; simpl.
  - apply String.eqb_eq in E. subst k0.
    destruct (String.eqb k k') eqn:E'; auto.
    apply String.eqb_eq in E'. contradiction.
  - rewrite IH. reflexivity.
Qed.

(** ** Streaming and the session history *)

Section Wrap.
Import Types.
Import BaseProviderSession.

Variable userContent : Content.

Lemma wrapOnResponse_spec (st : WrapState) (r : UnifiedResponse) :
  wrapOnResponse userContent st r
  = {| history := if hasAddedUserContent st then history st
                  else history st ++ [userContent];
       modelContents := modelContents st ++ content r;
       hasAddedUserContent := true |}.
Proof.
  unfold wrapOnResponse. destruct (content r); simpl; auto.
  now rewrite app_nil_r.
Qed.

(** Once the user turn is in, further responses only grow the local
    accumulator. *)
Lemma wrapAfter_added (rs : list UnifiedResponse) (st : WrapState) :
  hasAddedUserContent st = true ->
  wrapAfter userContent st rs
  = {| history := history st;
       modelContents := modelContents st ++ flat_map content rs;
       hasAddedUserContent := true |}.
Proof.
  revert st. induction rs as [|r rs IH]; intros st Hst.
  - simpl. rewrite app_nil_r. destruct st; simpl in *; now subst.
  - change (wrapAfter userContent st (r :: rs))
      with (wrapAfter userContent (wrapOnResponse userContent st r) rs).
    rewrite IH; rewrite wrapOnResponse_spec; simpl; auto.
    rewrite Hst. now rewrite app_assoc.
Qed.

Lemma wrapAfter_start (h : list Content) (r : UnifiedResponse)
  (rs : list UnifiedResponse) :
  wrapAfter userContent (wrapStart h) (r :: rs)
  = {| history := h ++ [userContent];
       modelContents := flat_map content (r :: rs);
       hasAddedUserContent := true |}.
Proof.
  unfold wrapAfter. simpl.
  change (fold_left (wrapOnResponse userContent) rs
            (wrapOnResponse userContent (wrapStart h) r))
    with (wrapAfter userContent (wrapOnResponse userContent (wrapStart h) r) rs).
  rewrite wrapAfter_added by now rewrite wrapOnResponse_spec.
  now rewrite wrapOnResponse_spec.
Qed.

(** At every [yield] the session history is the old history followed by
    the user turn: no model content has been pushed yet. *)
Lemma wrapYields_history (rs : list UnifiedResponse) (st : WrapState) :
  Forall (fun y => history (snd y)
                   = if hasAddedUserContent st then history st
                     else history st ++ [userContent])
         (wrapYields userContent st rs).
Proof.
  revert st. induction rs as [|r rs IH]; intros st; cbn [wrapYields];
    constructor.
  - cbn [snd]. now rewrite wrapOnResponse_spec.
  - specialize (IH (wrapOnResponse userContent st r)).
    rewrite wrapOnResponse_spec in IH. cbn [hasAddedUserContent history] in IH.
    rewrite wrapOnResponse_spec. exact IH.
Qed.

Lemma wrapYields_responses (rs : list UnifiedResponse) (st : WrapState) :
  map fst (wrapYields userContent st rs) = rs.
Proof.
  revert st. induction rs as [|r rs IH]; intros st; simpl; auto.
  now rewrite IH.
Qed.

End Wrap.

(** The history a drained, successful stream leaves behind. *)
Lemma wrapStream_completes_history (u : Types.Content)
  (rs : list Types.UnifiedResponse) (h : list Types.Content) :
  BaseProviderSession.finalHistory
    (BaseProviderSession.wrapStreamWithHistoryUpdate u
       (Types.mkStream rs Types.Completes) h)
  = match rs with
    | [] => h
    | _ :: _ => (h ++ [u]) ++ flat_map Types.content rs
    end.
Proof.
  unfold BaseProviderSession.wrapStreamWithHistoryUpdate. simpl.
  destruct rs as [|r rs].
  - reflexivity.
  - rewrite wrapAfter_start. unfold BaseProviderSession.wrapOnDone. simpl.
    destruct (Types.content r ++ flat_map Types.content rs); simpl; auto.
    now rewrite app_nil_r.
Qed.

(** C3. When the provider stream of a [sendMessageStream] call throws
    after it has delivered any number of responses, the error reaches the
    caller and the history the call leaves behind is the previous history
    followed by the user turn. *)
Theorem sendMessageStream_throw_keeps_user_turn :
  forall (message : string + list Types.Part)
         (rs : list Types.UnifiedResponse) (e : Types.JsError)
         (h : list Types.Content),
    let run := BaseProviderSession.sendMessageStream message
                 (inr (Types.mkStream rs (Types.Throws e))) h in
    BaseProviderSession.thrown run = Some e
    /\ BaseProviderSession.finalHistory run
       = h ++ [BaseProviderSession.createUserContent message]
    /\ In (BaseProviderSession.createUserContent message)
          (BaseProviderSession.finalHistory run).
Proof.
  intros message rs e h. simpl.
  assert (H : BaseProviderSession.wrapOnThrow
                (BaseProviderSession.createUserContent message)
                (BaseProviderSession.wrapAfter
                   (BaseProviderSession.createUserContent message)
                   (BaseProviderSession.wrapStart h) rs)
              = h ++ [BaseProviderSession.createUserContent message]).
  { destruct rs as [|r rs].
    - reflexivity.
    - now rewrite wrapAfter_start. }
  rewrite H. repeat split.
  apply in_or_app. right. now left.
Qed.

(** ** Curated history *)

(** X2. Every turn [getCuratedHistory] of the provider session returns
    has at least one part and is not a sole empty-text part. *)
Lemma getCuratedHistory_valid (h : list Types.Content) (c : Types.Content) :
  In c (BaseProviderSession.getCuratedHistory h) ->
  BaseChatSession.hasZeroParts c = false
  /\ BaseChatSession.soleEmptyTextPart c = false.
Proof.
  unfold BaseProviderSession.getCuratedHistory. intros Hin.
  apply filter_In in Hin. destruct Hin as [_ Hv].
  unfold BaseProviderSession.isValidContent in Hv.
  unfold BaseChatSession.hasZeroParts, BaseChatSession.soleEmptyTextPart.
  destruct (Types.parts c) as [[|p ps]|]; try discriminate.
  split; auto.
  destruct ps; auto.
  simpl in Hv. rewrite andb_true_r in Hv.
  unfold BaseProviderSession.isValidPart in Hv.
  unfold BaseChatSession.isEmptyTextPart.
  destruct (Nat.eqb (BaseProviderSession.partKeyCount p) 0); try discriminate.
  destruct (Types.text p) as [[|]|]; auto; discriminate.
Qed.

(** C4, evaluated on the code. After [addHistory] of a turn without parts
    and of a turn whose only part is an empty text, [getHistory(true)] of
    the chat session returns both turns: the body does not read
    [curated]. The curated view of the provider session drops both. *)
Theorem getHistory_curated_returns_empty_turns :
  let h := BaseChatSession.historyAfter
             [BaseChatSession.AddHistory Samples.emptyModelTurn;
              BaseChatSession.AddHistory Samples.emptyTextTurn] in
  BaseChatSession.getHistory true h = [Samples.emptyModelTurn; Samples.emptyTextTurn]
  /\ BaseChatSession.hasZeroParts Samples.emptyModelTurn = true
  /\ BaseChatSession.soleEmptyTextPart Samples.emptyTextTurn = true
  /\ BaseProviderSession.getCuratedHistory h = [].
Proof. repeat split. Qed.

(** ** Trimming the history *)

Section Trim.
Import Types.
Import BaseProviderSession.

Variable countTokens : list Content -> Z.
Variable maxTokens : Z.

Lemma trimStep_length (h : list Content) :
  2 < List.length h -> List.length (trimStep h) < List.length h.
Proof.
  intros H. unfold trimStep.
  destruct (roleIs "user" (nth_error h 0) && roleIs "model" (nth_error h 1));
    rewrite length_skipn; lia.
Qed.

(** With as much fuel as the history is long the loop stops by its own
    condition: the result is short or within the limit. *)
Lemma trimLoop_exit (fuel : nat) (h : list Content) :
  List.length h <= fuel + 2 ->
  let r := trimLoop countTokens maxTokens fuel h in
  List.length r <= 2 \/ (countTokens r <= maxTokens)%Z.
Proof.
  revert h. induction fuel as [|fuel IH]; intros h Hlen; simpl.
  - left. lia.
  - destruct (Nat.ltb 2 (List.length h)) eqn:E1; simpl.
    + destruct (Z.ltb maxTokens (countTokens h)) eqn:E2; simpl.
      * apply IH. apply Nat.ltb_lt in E1.
        pose proof (trimStep_length h E1). lia.
      * right. apply Z.ltb_ge in E2. exact E2.
    + left. apply Nat.ltb_ge in E1. exact E1.
Qed.

(** More fuel than the length changes nothing. *)
Lemma trimLoop_fuel (fuel : nat) (h : list Content) :
  List.length h <= fuel ->
  trimLoop countTokens maxTokens fuel h
  = trimLoop countTokens maxTokens (List.length h) h.
Proof.
  remember (List.length h) as n eqn:Hn.
  revert h Hn fuel. induction n as [n IH] using lt_wf_ind.
  intros h Hn fuel Hle.
  destruct fuel as [|fuel]; destruct n as [|n]; simpl; auto; try lia.
  - rewrite <- Hn. reflexivity.
  - rewrite <- Hn.
    destruct (Nat.ltb 2 (S n)) eqn:E1; simpl; auto.
    destruct (Z.ltb maxTokens (countTokens h)) eqn:E2; simpl; auto.
    apply Nat.ltb_lt in E1.
    assert (Hs : List.length (trimStep h) < S n).
    { rewrite Hn. apply trimStep_length. lia. }
    rewrite (IH (List.length (trimStep h)) Hs (trimStep h) eq_refl fuel)
      by lia.
    rewrite (IH (List.length (trimStep h)) Hs (trimStep h) eq_refl n)
      by lia.
    reflexivity.
Qed.

Lemma trimLoop_short (fuel : nat) (h : list Content) :
  List.length h <= 2 -> trimLoop countTokens maxTokens fuel h = h.
Proof.
  intros H. destruct fuel as [|fuel]; simpl; auto.
  assert (Hlt : Nat.ltb 2 (List.length h) = false) by (apply Nat.ltb_ge; lia).
  now rewrite Hlt.
Qed.

Lemma trim_under_budget (h : list Content) :
  (countTokens h <= maxTokens)%Z ->
  trimHistoryToTokenLimit countTokens maxTokens h = h.
Proof.
  intros H. unfold trimHistoryToTokenLimit.
  apply Z.leb_le in H. now rewrite H.
Qed.

(** X3. Trimming is idempotent for every history and limit: a second
    run changes nothing, whether or not the first run got the history
    within the limit. *)
Lemma trim_idempotent (h : list Content) :
  let r := trimHistoryToTokenLimit countTokens maxTokens h in
  trimHistoryToTokenLimit countTokens maxTokens r = r.
Proof.
  cbv zeta.
  destruct (Z.leb (countTokens h) maxTokens) eqn:E.
  - assert (Hh : trimHistoryToTokenLimit countTokens maxTokens h = h)
      by (unfold trimHistoryToTokenLimit; now rewrite E).
    now rewrite !Hh.
  - assert (Hr : trimHistoryToTokenLimit countTokens maxTokens h
                 = trimLoop countTokens maxTokens (List.length h) h)
      by (unfold trimHistoryToTokenLimit; now rewrite E).
    rewrite Hr.
    pose proof (trimLoop_exit (List.length h) h ltac:(lia)) as Hex.
    cbv zeta in Hex.
    destruct Hex as [Hshort|Hok].
    + unfold trimHistoryToTokenLimit.
      destruct (Z.leb (countTokens
                  (trimLoop countTokens maxTokens (List.length h) h)) maxTokens);
        auto.
      now apply trimLoop_short.
    + now apply trim_under_budget.
Qed.

End Trim.

(** C5. Trimming leaves a history that is within the limit unchanged;
    in particular, when a first run has brought the history within the
    limit, a second run changes nothing. *)
Theorem trimHistoryToTokenLimit_under_budget :
  forall (countTokens : list Types.Content -> Z) (maxTokens : Z)
         (h : list Types.Content),
    ((countTokens h <= maxTokens)%Z ->
     BaseProviderSession.trimHistoryToTokenLimit countTokens maxTokens h = h)
    /\ ((countTokens
           (BaseProviderSession.trimHistoryToTokenLimit countTokens maxTokens h)
         <= maxTokens)%Z ->
        BaseProviderSession.trimHistoryToTokenLimit countTokens maxTokens
          (BaseProviderSession.trimHistoryToTokenLimit countTokens maxTokens h)
        = BaseProviderSession.trimHistoryToTokenLimit countTokens maxTokens h).
Proof.
  intros countTokens maxTokens h. split; intros H.
  - now apply trim_under_budget.
  - now apply trim_under_budget.
Qed.

(** C5 at the sample history: limit 20 leaves it as it is, and a second
    run at limit 7 keeps the three turns the first run left. *)
Lemma trimHistoryToTokenLimit_under_budget_witness :
  BaseProviderSession.trimHistoryToTokenLimit
    BaseProviderClient.estimateTokens 20 Samples.sampleHistory = Samples.sampleHistory
  /\ BaseProviderSession.trimHistoryToTokenLimit
       BaseProviderClient.estimateTokens 7
       (BaseProviderSession.trimHistoryToTokenLimit
          BaseProviderClient.estimateTokens 7 Samples.sampleHistory)
     = [Types.userTurn [Types.textPart "follow-up"];
        Types.modelTurn [Types.textPart "answer 2"];
        Types.userTurn [Types.textPart "last one"]].
Proof.
  split.
  - apply (proj1 (trimHistoryToTokenLimit_under_budget
                    BaseProviderClient.estimateTokens 20 Samples.sampleHistory)).
    vm_compute. discriminate.
  - rewrite (proj2 (trimHistoryToTokenLimit_under_budget
                      BaseProviderClient.estimateTokens 7 Samples.sampleHistory)).
    + reflexivity.
    + vm_compute. discriminate.
Defined.

(** ** The Claude stream converter and the persisted turn *)

Lemma last_cons_default {A : Type} (l : list A) (a d d' : A) :
  last (a :: l) d = last (a :: l) d'.
Proof.
  revert a. induction l as [|b l IH]; intros a; auto.
  change (last (b :: l) d = last (b :: l) d'). apply IH.
Qed.

Lemma last_app_default {A : Type} (l1 l2 : list A) (d : A) :
  last (l1 ++ l2) d = last l2 (last l1 d).
Proof.
  revert d. induction l1 as [|a l1 IH]; intros d; auto.
  destruct l1 as [|b l1].
  - destruct l2 as [|c l2]; auto.
    change (last (c :: l2) d = last (c :: l2) a). apply last_cons_default.
  - change (last ((b :: l1) ++ l2) d = last l2 (last (b :: l1) d)).
    apply IH.
Qed.

Lemma append_empty_r (s : string) : String.append s EmptyString = s.
Proof. induction s as [|c s IH]; simpl; [reflexivity|now rewrite IH]. Qed.

Lemma append_assoc (a b c : string) :
  String.append (String.append a b) c = String.append a (String.append b c).
Proof. induction a as [|x a IH]; simpl; [reflexivity|now rewrite IH]. Qed.

Section ClaudeText.
Import Types.
Import ClaudeProviderClient.

Variable parse : string -> option ClaudeStreamChunk.

Local Abbreviation textTurn := Specs.textTurn.

Lemma onChunk_last (st : ConvState) (data : ClaudeStreamChunk) :
  last (map content (snd (onChunk st data))) (textTurn st)
  = textTurn (fst (onChunk st data)).
Proof.
  unfold onChunk.
  destruct (type data); simpl; auto.
  - destruct (deltaText data) as [t|]; simpl; auto.
    destruct (Js.truthyString t); simpl; auto.
  - destruct (usage data); simpl; auto.
Qed.

Lemma onLine_last (st : ConvState) (line : string) :
  last (map content (snd (onLine parse st line))) (textTurn st)
  = textTurn (fst (onLine parse st line)).
Proof.
  unfold onLine.
  destruct (Js.startsWith line "data: "); [|reflexivity].
  destruct (parse (Js.slice 6 line)); [apply onChunk_last|reflexivity].
Qed.

Lemma onLines_last (lines : list string) (st : ConvState) :
  last (map content (snd (onLines parse st lines))) (textTurn st)
  = textTurn (fst (onLines parse st lines)).
Proof.
  revert st. induction lines as [|l ls IH]; intros st; simpl; auto.
  pose proof (onLine_last st l) as H1.
  destruct (onLine parse st l) as [st1 ys1]. simpl in H1.
  specialize (IH st1).
  destruct (onLines parse st1 ls) as [st2 ys2]. simpl in *.
  rewrite map_app, last_app_default, H1. exact IH.
Qed.

Lemma convertFrom_last (reads : list string) (st : ConvState) :
  last (map content (convertFrom parse st reads)) (textTurn st)
  = textTurn (stateAfter parse st reads).
Proof.
  revert st. induction reads as [|chunk rest IH]; intros st; simpl; auto.
  pose proof (onLines_last (Js.splitLines chunk) st) as H1.
  destruct (onLines parse st (Js.splitLines chunk)) as [st1 ys1].
  simpl in *.
  rewrite map_app, last_app_default, H1. apply IH.
Qed.

(** When the converter has yielded at all, its last response carries the
    accumulated text. *)
Lemma convertStreamToUnified_last (reads : list string) :
  convertStreamToUnified parse reads <> [] ->
  exists front y,
    convertStreamToUnified parse reads = front ++ [y]
    /\ content y = [modelTurn [textPart (accumulatedText parse reads)]].
Proof.
  intros Hne.
  pose proof (convertFrom_last reads convStart) as Hlast.
  fold (convertStreamToUnified parse reads) in Hlast.
  fold (accumulatedText parse reads) in Hlast.
  destruct (exists_last Hne) as [front [y Heq]].
  exists front, y. split; auto.
  rewrite Heq, map_app, last_app_default in Hlast. simpl in Hlast.
  exact Hlast.
Qed.

Lemma onLine_text (st : ConvState) (line : string) :
  currentText (fst (onLine parse st line))
  = String.append (currentText st)
      (match Specs.deltaOfLine parse line with
       | Some t => t
       | None => EmptyString
       end).
Proof.
  unfold onLine, Specs.deltaOfLine.
  destruct (Js.startsWith line "data: ");
    [|now rewrite append_empty_r].
  destruct (parse (Js.slice 6 line)) as [data|];
    [|now rewrite append_empty_r].
  unfold onChunk.
  destruct (type data); cbn [fst currentText];
    try (now rewrite append_empty_r).
  - destruct (deltaText data) as [t|]; [|now rewrite append_empty_r].
    destruct (Js.truthyString t); cbn [fst currentText];
      [reflexivity|now rewrite append_empty_r].
  - destruct (usage data); cbn [fst]; now rewrite append_empty_r.
Qed.

Lemma onLines_text (lines : list string) (st : ConvState) :
  currentText (fst (onLines parse st lines))
  = String.append (currentText st)
      (Js.joined
         (flat_map (fun line => match Specs.deltaOfLine parse line with
                                | Some t => [t]
                                | None => []
                                end) lines)).
Proof.
  revert st. induction lines as [|l ls IH]; intros st; cbn [onLines flat_map].
  - cbn [fst Js.joined fold_right]. now rewrite append_empty_r.
  - pose proof (onLine_text st l) as H1.
    destruct (onLine parse st l) as [st1 ys1]. cbn [fst] in H1.
    specialize (IH st1).
    destruct (onLines parse st1 ls) as [st2 ys2]. cbn [fst] in *.
    rewrite IH, H1, append_assoc. f_equal.
    destruct (Specs.deltaOfLine parse l); reflexivity.
Qed.

Lemma joined_app (xs ys : list string) :
  Js.joined (xs ++ ys) = String.append (Js.joined xs) (Js.joined ys).
Proof.
  induction xs as [|x xs IH]; cbn [app Js.joined fold_right]; auto.
  fold (Js.joined (xs ++ ys)). fold (Js.joined xs).
  now rewrite IH, append_assoc.
Qed.

Lemma stateAfter_text (reads : list string) (st : ConvState) :
  currentText (stateAfter parse st reads)
  = String.append (currentText st) (Js.joined (Specs.acceptedDeltas parse reads)).
Proof.
  revert st. induction reads as [|chunk rest IH]; intros st.
  - cbn. now rewrite append_empty_r.
  - cbn [stateAfter]. rewrite IH, onLines_text.
    unfold Specs.acceptedDeltas. cbn [flat_map].
    now rewrite joined_app, append_assoc.
Qed.

(** The accumulated text is the concatenation of every accepted text
    delta. *)
Lemma accumulatedText_deltas (reads : list string) :
  accumulatedText parse reads = Js.joined (Specs.acceptedDeltas parse reads).
Proof. unfold accumulatedText. now rewrite stateAfter_text. Qed.

End ClaudeText.


(** ** Read boundaries in the Claude stream converter *)

(** A line that is cut before the end of its [data: ] prefix is lost by
    the converter whatever the payload is: neither piece starts with the
    prefix when it is looked at on its own. *)
Lemma convertStreamToUnified_cut_in_prefix
  (parse : string -> option ClaudeProviderClient.ClaudeStreamChunk)
  (payload t : string) :
  parse payload = Some (Samples.textDelta t) ->
  Js.truthyString t = true ->
  Js.splitLines payload = [payload] ->
  ClaudeProviderClient.convertStreamToUnified parse
    [String.append "data: " (String.append payload (String Js.newline EmptyString))]
  = [ClaudeProviderClient.incremental t]
  /\ ClaudeProviderClient.convertStreamToUnified parse
       ["da"%string;
        String.append "ta: " (String.append payload (String Js.newline EmptyString))]
     = [].
Proof.
  intros Hp Ht Hl.
  assert (Hpl : Js.splitLines (String.append payload (String Js.newline EmptyString))
                = [payload; EmptyString]).
  { clear Hp Ht. revert Hl. induction payload as [|c p IH]; intros Hl.
    - reflexivity.
    - simpl in Hl |- *. destruct (Ascii.eqb c Js.newline) eqn:Ec.
      + discriminate.
      + destruct (Js.splitLines p) as [|l ls] eqn:El.
        * destruct p; simpl in El; [discriminate|].
          destruct (Ascii.eqb a Js.newline); [discriminate|].
          destruct (Js.splitLines p); discriminate.
        * inversion Hl; subst. rewrite IH by reflexivity. reflexivity. }
  unfold ClaudeProviderClient.convertStreamToUnified.
  split.
  - cbn [ClaudeProviderClient.convertFrom String.append Js.splitLines].
    change (Ascii.eqb "d" Js.newline) with false.
    change (Ascii.eqb "a" Js.newline) with false.
    change (Ascii.eqb "t" Js.newline) with false.
    change (Ascii.eqb ":" Js.newline) with false.
    change (Ascii.eqb " " Js.newline) with false.
    cbv iota. rewrite Hpl. cbv iota.
    cbn [ClaudeProviderClient.onLines].
    unfold ClaudeProviderClient.onLine at 1.
    replace (Js.startsWith (String "d" (String "a" (String "t" (String "a"
               (String ":" (String " " payload)))))) "data: ") with true
      by (unfold Js.startsWith; simpl; destruct payload; reflexivity).
    change (Js.slice 6 (String "d" (String "a" (String "t" (String "a"
              (String ":" (String " " payload))))))) with payload.
    cbv iota. rewrite Hp. unfold ClaudeProviderClient.onChunk.
    cbn [ClaudeProviderClient.type ClaudeProviderClient.deltaText Samples.textDelta].
    rewrite Ht. reflexivity.
  - cbn [ClaudeProviderClient.convertFrom String.append Js.splitLines].
    change (Ascii.eqb "d" Js.newline) with false.
    change (Ascii.eqb "a" Js.newline) with false.
    change (Ascii.eqb "t" Js.newline) with false.
    change (Ascii.eqb ":" Js.newline) with false.
    change (Ascii.eqb " " Js.newline) with false.
    cbv iota. rewrite Hpl. reflexivity.
Qed.

(** C7, evaluated on the code. The same bytes, one [data: ] line with a
    text delta, are delivered in one read and in two reads cut inside the
    payload. The converter of the provider client yields the event in the
    first case and nothing in the second; the buffered reader of the
    Claude chat session yields the event in both. *)
Theorem convertStreamToUnified_split_read_loses_event :
  Js.joined Samples.hiTwoReads = Js.joined Samples.hiOneRead
  /\ ClaudeProviderClient.convertStreamToUnified Samples.parseSample
       Samples.hiOneRead
     = [ClaudeProviderClient.incremental "Hi"]
  /\ ClaudeProviderClient.convertStreamToUnified Samples.parseSample
       Samples.hiTwoReads
     = []
  /\ ClaudeChatSession.makeClaudeStreamRequest Samples.parseSampleChunk
       Samples.hiOneRead
     = [ClaudeChatSession.mkStreamed "stream" "Hi"]
  /\ ClaudeChatSession.makeClaudeStreamRequest Samples.parseSampleChunk
       Samples.hiTwoReads
     = [ClaudeChatSession.mkStreamed "stream" "Hi"].
Proof. repeat split. Qed.

(** ** Retry with backoff *)

Section Retry.
Import Types.
Import BaseProviderClient.

Context {T : Type}.
Variable self : AIProvider.
Variable operation : nat -> Outcome T.
Variable random : nat -> Q.
Variable baseDelayMs : Q.

Local Abbreviation sleepAt := (Specs.sleepAt random baseDelayMs).

Lemma retryFrom_sleeps (remaining attempt i : nat) (d : Q) :
  nth_error (sleeps (retryFrom self operation random baseDelayMs remaining attempt)) i
  = Some d ->
  d = sleepAt (attempt + i).
Proof.
  revert attempt i. induction remaining as [|remaining IH]; intros attempt i H.
  - simpl in H. destruct (operation attempt); simpl in H;
      destruct i; discriminate.
  - simpl in H. destruct (operation attempt) as [v|e]; simpl in H.
    + destruct i; discriminate.
    + destruct (isNotRetried e); simpl in H.
      * destruct i; discriminate.
      * destruct i as [|i]; simpl in H.
        -- inversion H. rewrite Nat.add_0_r. reflexivity.
        -- apply IH in H. rewrite H. f_equal. lia.
Qed.

Lemma retryFrom_calls (remaining attempt : nat) :
  let r := retryFrom self operation random baseDelayMs remaining attempt in
  calls r = S (List.length (sleeps r)) /\ calls r <= S remaining.
Proof.
  revert attempt. induction remaining as [|remaining IH]; intros attempt; simpl.
  - destruct (operation attempt); simpl; lia.
  - destruct (operation attempt) as [v|e]; simpl; [lia|].
    destruct (isNotRetried e); simpl; [lia|].
    specialize (IH (S attempt)). simpl in IH. lia.
Qed.

Lemma backoffDelay_nonneg (k : nat) :
  (0 <= baseDelayMs)%Q -> (0 <= backoffDelay baseDelayMs k)%Q.
Proof.
  intros Hb. unfold backoffDelay. apply Qmult_le_0_compat; auto.
  change 0%Q with (inject_Z 0). rewrite <- Zle_Qle.
  apply Z.pow_nonneg. lia.
Qed.

Lemma sleepAt_bounds (k : nat) :
  (0 <= random k)%Q -> (random k < 1)%Q -> (0 <= baseDelayMs)%Q ->
  (backoffDelay baseDelayMs k <= sleepAt k)%Q
  /\ (sleepAt k <= backoffDelay baseDelayMs k
                   + (1 # 10) * backoffDelay baseDelayMs k)%Q.
Proof.
  intros H0 H1 Hb. pose proof (backoffDelay_nonneg k Hb) as Hd.
  unfold Specs.sleepAt, backoffJitter.
  set (D := backoffDelay baseDelayMs k) in *.
  assert (Hj0 : (0 <= random k * (1 # 10) * D)%Q).
  { apply Qmult_le_0_compat; auto.
    apply Qmult_le_0_compat; auto. discriminate. }
  assert (Hj1 : (random k * (1 # 10) * D <= (1 # 10) * D)%Q).
  { apply Qmult_le_compat_r; auto.
    rewrite <- (Qmult_1_l (1 # 10)) at 2.
    apply Qmult_le_compat_r; [apply Qlt_le_weak; exact H1|discriminate]. }
  split.
  - rewrite <- (Qplus_0_r D) at 1. apply Qplus_le_r. exact Hj0.
  - apply Qplus_le_r. exact Hj1.
Qed.

End Retry.

Lemma transient_isNotRetried (e : Types.JsError) :
  Specs.transient e <-> BaseProviderClient.isNotRetried e = false.
Proof.
  destruct e as [m p code [st|]|m]; cbn; try tauto.
  rewrite !orb_false_iff, !Z.eqb_neq. tauto.
Qed.

Section RetryPrefix.
Import Types.
Import BaseProviderClient.

Context {T : Type}.
Variable self : AIProvider.
Variable operation : nat -> Outcome T.
Variable random : nat -> Q.
Variable baseDelayMs : Q.

(** As long as the attempts fail with retried errors and retries are
    left, the loop goes on: the run is the run from the first attempt
    that is not such a failure, with one call and one sleep more for
    every attempt before it. *)
Lemma retryFrom_prefix (k remaining attempt : nat) :
  (forall j, j < k ->
             exists e, operation (attempt + j) = Rejects e
                       /\ Specs.transient e) ->
  k <= remaining ->
  let r := retryFrom self operation random baseDelayMs remaining attempt in
  let r0 := retryFrom self operation random baseDelayMs
              (remaining - k) (attempt + k) in
  result r = result r0
  /\ calls r = k + calls r0
  /\ List.length (sleeps r) = k + List.length (sleeps r0).
Proof.
  revert remaining attempt.
  induction k as [|k IH]; intros remaining attempt Hprev Hle.
  - cbv zeta. rewrite Nat.sub_0_r, Nat.add_0_r. auto.
  - destruct remaining as [|remaining]; [lia|].
    destruct (Hprev 0 ltac:(lia)) as [e [He Ht]].
    rewrite Nat.add_0_r in He. apply transient_isNotRetried in Ht.
    assert (Hprev' : forall j, j < k ->
                       exists e0, operation (S attempt + j) = Rejects e0
                                  /\ Specs.transient e0).
    { intros j Hj. destruct (Hprev (S j) ltac:(lia)) as [e0 [H0 H1]].
      exists e0. split; auto.
      now replace (S attempt + j) with (attempt + S j) by lia. }
    specialize (IH remaining (S attempt) Hprev' ltac:(lia)).
    cbv zeta in *. cbn [retryFrom]. rewrite He, Ht.
    cbn [result calls sleeps List.length].
    replace (attempt + S k) with (S attempt + k) by lia.
    cbn [Nat.sub]. destruct IH as (H1 & H2 & H3).
    rewrite H1, H2, H3. repeat split; lia.
Qed.

End RetryPrefix.

(** C6. [retryWithBackoff] sleeps, after the failed attempt [i], the delay
    [base * 2^i] plus a jitter [random * 0.1 * base * 2^i] of at most a
    tenth of it; it calls the operation at most [maxRetries + 1] times,
    four with the default of three retries.  When the attempts before
    attempt [k] (within the budget) fail with retried errors and attempt
    [k] succeeds, the success is returned after [k + 1] calls and [k]
    sleeps; when attempt [k] fails with a provider error of status 401,
    403 or 404, that error is thrown at once, after [k + 1] calls and
    [k] sleeps: at the first attempt after one call and no sleep, and at
    no attempt is such an error retried. *)
Theorem retryWithBackoff_policy :
  forall (T : Type) (self : Types.AIProvider)
         (operation : nat -> BaseProviderClient.Outcome T)
         (random : nat -> Q) (maxRetries : nat) (baseDelayMs : Q),
    (forall k, (0 <= random k)%Q /\ (random k < 1)%Q) ->
    (0 <= baseDelayMs)%Q ->
    let r := BaseProviderClient.retryWithBackoff self operation random
               maxRetries baseDelayMs in
    (forall i d,
        nth_error (BaseProviderClient.sleeps r) i = Some d ->
        d = (baseDelayMs * inject_Z (2 ^ Z.of_nat i)
             + random i * (1 # 10) * (baseDelayMs * inject_Z (2 ^ Z.of_nat i)))%Q
        /\ (baseDelayMs * inject_Z (2 ^ Z.of_nat i) <= d)%Q
        /\ (d <= baseDelayMs * inject_Z (2 ^ Z.of_nat i)
                 + (1 # 10) * (baseDelayMs * inject_Z (2 ^ Z.of_nat i)))%Q)
    /\ BaseProviderClient.calls r = S (List.length (BaseProviderClient.sleeps r))
    /\ BaseProviderClient.calls r <= S maxRetries
    /\ (maxRetries = BaseProviderClient.defaultMaxRetries ->
        BaseProviderClient.calls r <= 4)
    /\ (forall k v,
           k <= maxRetries ->
           (forall j, j < k ->
                      exists e, operation j = BaseProviderClient.Rejects e
                                /\ Specs.transient e) ->
           operation k = BaseProviderClient.Resolves v ->
           BaseProviderClient.result r = inr v
           /\ BaseProviderClient.calls r = S k
           /\ List.length (BaseProviderClient.sleeps r) = k)
    /\ (forall k msg p code st,
           k <= maxRetries ->
           (forall j, j < k ->
                      exists e, operation j = BaseProviderClient.Rejects e
                                /\ Specs.transient e) ->
           operation k
           = BaseProviderClient.Rejects (Types.ProviderError msg p code (Some st)) ->
           (st = 401 \/ st = 403 \/ st = 404)%Z ->
           BaseProviderClient.result r
           = inl (Types.ProviderError msg p code (Some st))
           /\ BaseProviderClient.calls r = S k
           /\ List.length (BaseProviderClient.sleeps r) = k).
Proof.
  intros T self operation random maxRetries baseDelayMs Hrnd Hbase r.
  unfold r, BaseProviderClient.retryWithBackoff.
  pose proof (retryFrom_calls self operation random baseDelayMs maxRetries 0)
    as [Hc1 Hc2].
  split.
  { intros i d H.
    apply (retryFrom_sleeps self operation random baseDelayMs) in H.
    cbn [Nat.add] in H. subst d. split; [reflexivity|].
    apply (sleepAt_bounds random baseDelayMs i); auto; apply Hrnd. }
  split; [exact Hc1|]. split; [exact Hc2|].
  split.
  { intros Hd. subst maxRetries. exact Hc2. }
  split.
  { intros k v Hle Hprev Hk.
    pose proof (retryFrom_prefix self operation random baseDelayMs
                  k maxRetries 0 Hprev Hle) as (H1 & H2 & H3).
    cbn [Nat.add] in H1, H2, H3. rewrite H1, H2, H3.
    destruct (maxRetries - k); cbn [BaseProviderClient.retryFrom];
      rewrite Hk; cbn; repeat split; lia. }
  intros k msg p code st Hle Hprev Hk Hst.
  assert (Hnr : BaseProviderClient.isNotRetried
                  (Types.ProviderError msg p code (Some st)) = true)
    by (destruct Hst as [-> | [-> | ->]]; reflexivity).
  pose proof (retryFrom_prefix self operation random baseDelayMs
                k maxRetries 0 Hprev Hle) as (H1 & H2 & H3).
  cbn [Nat.add] in H1, H2, H3. rewrite H1, H2, H3.
  destruct (maxRetries - k); cbn [BaseProviderClient.retryFrom];
    rewrite Hk; [|rewrite Hnr]; cbn; repeat split; lia.
Qed.

(** C6 at the default arguments: a server error followed by a success,
    an operation that is refused as unauthenticated, and one that is
    refused as unauthenticated at its second call. *)
Lemma retryWithBackoff_policy_witness :
  (forall k, (0 <= Samples.halfRandom k)%Q /\ (Samples.halfRandom k < 1)%Q)
  /\ (0 <= BaseProviderClient.defaultBaseDelayMs)%Q
  /\ (let r := BaseProviderClient.retryWithBackoff Types.CLAUDE
                 Samples.flakyOperation Samples.halfRandom
                 BaseProviderClient.defaultMaxRetries
                 BaseProviderClient.defaultBaseDelayMs in
      BaseProviderClient.result r = inr "ok"%string
      /\ BaseProviderClient.calls r = 2
      /\ List.length (BaseProviderClient.sleeps r) = 1)
  /\ (let r := BaseProviderClient.retryWithBackoff Types.CLAUDE
                 Samples.unauthorizedOperation Samples.halfRandom
                 BaseProviderClient.defaultMaxRetries
                 BaseProviderClient.defaultBaseDelayMs in
      BaseProviderClient.result r
      = inl (Types.AuthenticationError "denied" Types.CLAUDE)
      /\ BaseProviderClient.calls r = 1
      /\ List.length (BaseProviderClient.sleeps r) = 0)
  /\ (let r := BaseProviderClient.retryWithBackoff Types.CLAUDE
                 Samples.lateUnauthorizedOperation Samples.halfRandom
                 BaseProviderClient.defaultMaxRetries
                 BaseProviderClient.defaultBaseDelayMs in
      BaseProviderClient.result r
      = inl (Types.AuthenticationError "denied" Types.CLAUDE)
      /\ BaseProviderClient.calls r = 2
      /\ List.length (BaseProviderClient.sleeps r) = 1
      /\ forall d, nth_error (BaseProviderClient.sleeps r) 0 = Some d ->
                   ((1000 # 1) <= d)%Q /\ (d <= (1100 # 1))%Q).
Proof.
  assert (Hrnd : forall k, (0 <= Samples.halfRandom k)%Q
                           /\ (Samples.halfRandom k < 1)%Q)
    by (intros k; split; [discriminate|reflexivity]).
  assert (Hbase : (0 <= BaseProviderClient.defaultBaseDelayMs)%Q)
    by discriminate.
  assert (Hfirst : forall op : nat -> BaseProviderClient.Outcome string,
             op 0 = BaseProviderClient.Rejects
                      (Types.ProviderError "server error" Types.CLAUDE
                         (Some "UNKNOWN_ERROR"%string) (Some 500%Z)) ->
             forall j, j < 1 ->
                       exists e, op j = BaseProviderClient.Rejects e
                                 /\ Specs.transient e).
  { intros op H0 j Hj. destruct j as [|j]; [|lia].
    eexists. split; [exact H0|]. cbn. repeat split; discriminate. }
  split; [exact Hrnd|]. split; [exact Hbase|]. split; [|split].
  - destruct (retryWithBackoff_policy string Types.CLAUDE
                Samples.flakyOperation Samples.halfRandom
                BaseProviderClient.defaultMaxRetries
                BaseProviderClient.defaultBaseDelayMs Hrnd Hbase)
      as (_ & _ & _ & _ & H5 & _).
    apply (H5 1 "ok"%string); [unfold BaseProviderClient.defaultMaxRetries; lia
                              |apply Hfirst; reflexivity|reflexivity].
  - destruct (retryWithBackoff_policy string Types.CLAUDE
                Samples.unauthorizedOperation Samples.halfRandom
                BaseProviderClient.defaultMaxRetries
                BaseProviderClient.defaultBaseDelayMs Hrnd Hbase)
      as (_ & _ & _ & _ & _ & H6).
    apply (H6 0 "denied"%string Types.CLAUDE
              (Some "AUTHENTICATION_ERROR"%string) 401%Z);
      [lia|intros j Hj; lia|reflexivity|now left].
  - destruct (retryWithBackoff_policy string Types.CLAUDE
                Samples.lateUnauthorizedOperation Samples.halfRandom
                BaseProviderClient.defaultMaxRetries
                BaseProviderClient.defaultBaseDelayMs Hrnd Hbase)
      as (H1 & _ & _ & _ & _ & H6).
    destruct (H6 1 "denied"%string Types.CLAUDE
                (Some "AUTHENTICATION_ERROR"%string) 401%Z)
      as (Ha & Hb & Hc);
      [unfold BaseProviderClient.defaultMaxRetries; lia
      |apply Hfirst; reflexivity|reflexivity|now left|].
    split; [exact Ha|]. split; [exact Hb|]. split; [exact Hc|].
    intros d Hd. destruct (H1 0 d Hd) as (_ & Hlo & Hhi).
    split; [exact Hlo|].
    apply (Qle_trans _ _ _ Hhi). vm_compute. discriminate.
Defined.

(** ** More on maps: keys *)

Lemma JsMap_keys_set {V : Type} (k : string) (v : V) (m : JsMap.t V) :
  JsMap.keys (JsMap.set k v m)
  = if JsMap.has k m then JsMap.keys m else JsMap.keys m ++ [k].
Proof.
  unfold JsMap.keys, JsMap.has.
  induction m as [|[k' v'] m IH]; simpl; auto.
  destruct (String.eqb k' k) eqn:E; simpl; auto.
  rewrite IH. destruct (JsMap.get k m); auto.
Qed.

Lemma JsMap_get_In {V : Type} (k : string) (v : V) (m : JsMap.t V) :
  JsMap.get k m = Some v -> In (k, v) m.
Proof.
  induction m as [|[k' v'] m IH]; simpl; [discriminate|].
  destruct (String.eqb k' k) eqn:E; intros H.
  - apply String.eqb_eq in E. inversion H. subst. now left.
  - right. auto.
Qed.

Lemma JsMap_get_None_keys {V : Type} (k : string) (m : JsMap.t V) :
  JsMap.get k m = None -> ~ In k (JsMap.keys m).
Proof.
  unfold JsMap.keys.
  induction m as [|[k' v'] m IH]; simpl; auto.
  destruct (String.eqb k' k) eqn:E; intros H; [discriminate|].
  intros [Heq|Hin].
  - subst. rewrite String.eqb_refl in E. discriminate.
  - now apply IH.
Qed.

Lemma JsMap_NoDup_set {V : Type} (k : string) (v : V) (m : JsMap.t V) :
  NoDup (JsMap.keys m) -> NoDup (JsMap.keys (JsMap.set k v m)).
Proof.
  intros Hnd. rewrite JsMap_keys_set. unfold JsMap.has.
  destruct (JsMap.get k m) eqn:E; simpl; auto.
  apply NoDup_app; auto.
  - constructor; [intros []|constructor].
  - intros x Hx [Hk|[]]. subst.
    now apply (JsMap_get_None_keys x m).
Qed.

Lemma JsMap_In_get {V : Type} (k : string) (v : V) (m : JsMap.t V) :
  NoDup (JsMap.keys m) -> In (k, v) m -> JsMap.get k m = Some v.
Proof.
  unfold JsMap.keys.
  induction m as [|[k' v'] m IH]; simpl; intros Hnd Hin; [contradiction|].
  inversion Hnd as [|? ? Hnot Hnd']; subst.
  destruct Hin as [Heq|Hin].
  - inversion Heq; subst. now rewrite String.eqb_refl.
  - destruct (String.eqb k' k) eqn:E; auto.
    apply String.eqb_eq in E. subst.
    exfalso. apply Hnot. apply (in_map fst) in Hin. exact Hin.
Qed.

(** ** The tool registry *)

Section Registry.
Import Types.
Import ProviderToolRegistry.

Local Abbreviation registryOk := Specs.registryOk.

Lemma registryOk_empty : registryOk emptyRegistry.
Proof. split; [constructor|]. intros k t H. discriminate. Qed.

Lemma registryOk_registerTool (tool : Tool) (cfg : ToolSettings) (r : Registry) :
  registryOk r -> registryOk (registerTool tool cfg r).
Proof.
  intros [Hnd Hnames]. split; simpl.
  - now apply JsMap_NoDup_set.
  - intros k t H.
    destruct (String.eqb (getToolName tool) k) eqn:E.
    + apply String.eqb_eq in E. subst k.
      rewrite JsMap_get_set_same in H. now inversion H.
    + apply String.eqb_neq in E.
      rewrite JsMap_get_set_other in H by exact E. now apply Hnames.
Qed.

Lemma registryOk_after (ops : list RegistryOp) : registryOk (registryAfter ops).
Proof.
  unfold registryAfter.
  assert (H : forall r, registryOk r -> registryOk (fold_left applyOp ops r)).
  { induction ops as [|op ops IH]; intros r Hr; simpl; auto.
    apply IH. destruct op; simpl.
    - now apply registryOk_registerTool.
    - apply registryOk_empty. }
  apply H, registryOk_empty.
Qed.

Lemma providerIncluded_In (ps : list AIProvider) (p : AIProvider) :
  providerIncluded ps p = true <-> In p ps.
Proof.
  unfold providerIncluded. rewrite existsb_exists. split.
  - intros [x [Hin Heq]]. destruct p, x; try discriminate; exact Hin.
  - intros Hin. exists p. split; auto. destruct p; reflexivity.
Qed.

Lemma lacksRequired_false (cfg : ProviderToolConfig) (caps : ProviderCapabilities) :
  lacksRequired cfg caps = false
  <-> requiresCapability cfg = None
      \/ exists k, requiresCapability cfg = Some k
                   /\ capabilityTruthy caps k = true.
Proof.
  unfold lacksRequired. destruct (requiresCapability cfg) as [k|].
  - rewrite negb_false_iff. split.
    + intros H. right. exists k. auto.
    + intros [H|[k' [Hk Ht]]]; [discriminate|]. now inversion Hk; subst.
  - split; auto.
Qed.

Lemma isToolSupported_spec (r : Registry) (tn : string)
  (cfg : ProviderToolConfig) (p : AIProvider) (caps : ProviderCapabilities) :
  JsMap.get tn (toolConfigs r) = Some cfg ->
  isToolSupported r tn p caps
  = providerIncluded (supportedProviders cfg) p && negb (lacksRequired cfg caps).
Proof.
  intros H. unfold isToolSupported. rewrite H.
  destruct (providerIncluded (supportedProviders cfg) p);
    destruct (lacksRequired cfg caps); reflexivity.
Qed.

Lemma applyProviderConfig_name (tool tool' : Tool) (sc : ProviderSpecific) :
  applyProviderConfig tool sc = Some tool' -> getToolName tool' = getToolName tool.
Proof.
  unfold applyProviderConfig.
  destruct (negb (Js.isSome (specParameters sc) || Js.truthy (specDescription sc))).
  - intros H. now inversion H.
  - destruct (function_declarations tool) as [[|d ds]|] eqn:E; try discriminate.
    intros H. inversion H. unfold getToolName. rewrite E. simpl.
    destruct (specParameters sc); destruct (Js.truthy (specDescription sc));
      reflexivity.
Qed.

(** Every tool [toolsFrom] returns comes from an entry that passed the
    provider and capability checks and carries the key of that entry as
    its name. *)
Lemma toolsFrom_sound (globals : JsMap.t Tool) (p : AIProvider)
  (caps : ProviderCapabilities) (req : option (list string))
  (entries : list (string * ProviderToolConfig)) (tools : list Tool) :
  (forall k t, JsMap.get k globals = Some t -> getToolName t = k) ->
  toolsFrom globals p caps req entries = Some tools ->
  forall t, In t tools ->
    exists cfg, In (getToolName t, cfg) entries
                /\ providerIncluded (supportedProviders cfg) p = true
                /\ lacksRequired cfg caps = false.
Proof.
  intros Hnames. revert tools.
  induction entries as [|[tn cfg] rest IH]; intros tools H t Hin.
  - simpl in H. inversion H. subst. contradiction.
  - simpl in H.
    destruct (providerIncluded (supportedProviders cfg) p) eqn:Ep; simpl in H.
    2:{ destruct (IH tools H t Hin) as [c [Hc Hr]]. exists c. split; auto.
        now right. }
    destruct (lacksRequired cfg caps) eqn:El; simpl in H.
    1:{ destruct (IH tools H t Hin) as [c [Hc Hr]]. exists c. split; auto.
        now right. }
    destruct (match req with
              | Some req0 => negb (Js.arrayIncludes req0 tn)
              | None => false
              end).
    1:{ destruct (IH tools H t Hin) as [c [Hc Hr]]. exists c. split; auto.
        now right. }
    destruct (JsMap.get tn globals) as [tool|] eqn:Eg.
    2:{ destruct (IH tools H t Hin) as [c [Hc Hr]]. exists c. split; auto.
        now right. }
    destruct (match match providerSpecificConfig cfg with
                    | Some f => f p
                    | None => None
                    end with
              | Some sc => applyProviderConfig tool sc
              | None => Some tool
              end) as [t0|] eqn:Ea; [|discriminate].
    destruct (toolsFrom globals p caps req rest) as [ts|] eqn:Et; [|discriminate].
    inversion H. subst tools. destruct Hin as [Heq|Hin].
    + subst t0. exists cfg. split; [left|split; auto].
      assert (Hn : getToolName t = tn).
      { destruct (match providerSpecificConfig cfg with
                  | Some f => f p
                  | None => None
                  end) as [sc|].
        - apply applyProviderConfig_name in Ea. rewrite Ea. now apply Hnames.
        - inversion Ea. subst. now apply Hnames. }
      now rewrite Hn.
    + destruct (IH ts eq_refl t Hin) as [c [Hc Hr]]. exists c. split; auto.
      now right.
Qed.

End Registry.

(** C9. For a tool registered in any registry built by [registerTool]
    and [clear]: it is reported as supported exactly when the provider is
    among its supported providers and it requires no capability or the
    provider's value for the required capability is truthy; and a tool
    that requires a capability the provider lacks is listed by
    [getUnsupportedTools] whenever it is requested, and is not among the
    tools [getToolsForProvider] returns. *)
Theorem isToolSupported_iff_and_filters :
  forall (ops : list ProviderToolRegistry.RegistryOp) (tn : string)
         (cfg : ProviderToolRegistry.ProviderToolConfig)
         (p : Types.AIProvider)
         (caps : ProviderToolRegistry.ProviderCapabilities),
    let r := ProviderToolRegistry.registryAfter ops in
    JsMap.get tn (ProviderToolRegistry.toolConfigs r) = Some cfg ->
    (ProviderToolRegistry.isToolSupported r tn p caps = true
     <-> In p (ProviderToolRegistry.supportedProviders cfg)
         /\ (ProviderToolRegistry.requiresCapability cfg = None
             \/ exists k,
                 ProviderToolRegistry.requiresCapability cfg = Some k
                 /\ ProviderToolRegistry.capabilityTruthy caps k = true))
    /\ (forall k,
           ProviderToolRegistry.requiresCapability cfg = Some k ->
           ProviderToolRegistry.capabilityTruthy caps k = false ->
           (forall requested,
               In tn requested ->
               In tn (ProviderToolRegistry.getUnsupportedTools r p caps requested))
           /\ (forall requested tools,
                  ProviderToolRegistry.getToolsForProvider r p caps requested
                  = Some tools ->
                  forall t, In t tools ->
                            ProviderToolRegistry.getToolName t <> tn)).
Proof.
  intros ops tn cfg p caps r Hget.
  pose proof (registryOk_after ops) as [Hnd Hnames]. fold r in Hnd, Hnames.
  pose proof (isToolSupported_spec r tn cfg p caps Hget) as Hspec.
  split.
  - rewrite Hspec, andb_true_iff, negb_true_iff.
    rewrite providerIncluded_In, lacksRequired_false. reflexivity.
  - intros k Hk Hfalse.
    assert (Hlack : ProviderToolRegistry.lacksRequired cfg caps = true).
    { unfold ProviderToolRegistry.lacksRequired. rewrite Hk, Hfalse.
      reflexivity. }
    split.
    + intros requested Hin.
      unfold ProviderToolRegistry.getUnsupportedTools.
      apply filter_In. split; auto.
      rewrite Hspec, Hlack, andb_false_r. reflexivity.
    + intros requested tools Htools t Hin Hname.
      destruct (toolsFrom_sound _ p caps requested _ tools Hnames Htools t Hin)
        as [c [Hc [_ Hl]]].
      rewrite Hname in Hc.
      apply (JsMap_In_get tn c _ Hnd) in Hc.
      rewrite Hget in Hc. inversion Hc. subst c.
      rewrite Hlack in Hl. discriminate.
Qed.

(** ** The agent manager: the session cap *)

Section ManagerInvariant.
Import Types.
Import ProviderConfigValidation.
Import MultiAgentManager.

Variable cap : Z.

Local Abbreviation managerOk := (Specs.managerOk cap).

Lemma validateAgentConfig_maxSessions (env : BaseProviderClient.Env)
  (cfg : AgentConfig) (n : Z) :
  validateAgentConfig env cfg = [] -> maxSessions cfg = Some n -> (1 <= n)%Z.
Proof.
  unfold validateAgentConfig. intros H Hn.
  repeat (apply app_eq_nil in H; destruct H as [? H]).
  rewrite Hn in H. unfold errorIf in H.
  destruct (Z.ltb n 1) eqn:E; [discriminate|].
  now apply Z.ltb_ge in E.
Qed.

Lemma startSession_ok (a now rnd : string) (m : Manager) :
  managerOk m -> managerOk (snd (startSession a now rnd m)).
Proof.
  intros Hm. pose proof Hm as (Hcap & Hsize & Hag). unfold startSession.
  destruct (JsMap.get a (agents m)) as [agent|]; [|exact Hm].
  destruct (JsMap.get a (providers m)) as [pr|]; [|exact Hm].
  destruct (Z.geb (Z.of_nat (JsMap.size (sessions m))) (maxConcurrentSessions m))
    eqn:Eg; [exact Hm|].
  destruct (agentCapReached m a agent); [exact Hm|].
  simpl. split; [exact Hcap|]. split; [|exact Hag].
  rewrite Z.geb_leb in Eg. apply Z.leb_gt in Eg. rewrite Hcap in Eg.
  pose proof (JsMap_size_set_le (makeSessionId a now rnd)
                {| sessionId := makeSessionId a now rnd;
                   sessionProvider := agentProvider agent;
                   client := pr;
                   history :=
                     if Js.truthy (systemPrompt agent)
                     then [userTurn [textPart (Js.orDefault (systemPrompt agent) EmptyString)]]
                     else [];
                   sessionTools := nonEmptyTools (tools agent) |}
                (sessions m)) as Hle.
  unfold registerSession. cbn [sessions]. lia.
Qed.

Lemma endSession_ok (sid : string) (m : Manager) :
  managerOk m -> managerOk (snd (endSession sid m)).
Proof.
  intros Hm. pose proof Hm as (Hcap & Hsize & Hag). unfold endSession.
  destruct (JsMap.get sid (sessions m)); [|exact Hm].
  cbn [snd]. split; [exact Hcap|]. split; [|exact Hag].
  cbn [sessions]. pose proof (JsMap_size_delete_le sid (sessions m)). lia.
Qed.

Lemma endSessions_ok (ids : list string) (m : Manager) :
  managerOk m -> managerOk (snd (endSessions ids m)).
Proof.
  revert m. induction ids as [|sid ids IH]; intros m Hm; simpl; auto.
  pose proof (endSession_ok sid m Hm) as H1.
  destruct (endSession sid m) as [[u|e] m']; fields; auto.
Qed.

Lemma endSessionsQuietly_ok (ids : list string) (m : Manager) :
  managerOk m -> managerOk (endSessionsQuietly ids m).
Proof.
  revert m. induction ids as [|sid ids IH]; intros m Hm; simpl; auto.
  apply IH. now apply endSession_ok.
Qed.

Lemma removeAgent_ok (a : string) (m : Manager) :
  managerOk m -> managerOk (snd (removeAgent a m)).
Proof.
  intros Hm. unfold removeAgent.
  pose proof (endSessions_ok (agentSessions m a) m Hm) as H1.
  destruct (endSessions (agentSessions m a) m) as [[u|e] m']; fields; auto.
  destruct H1 as (Hcap & Hsize & Hag).
  split; [exact Hcap|]. split; [exact Hsize|].
  intros a' cfg Hget. fields.
  destruct (String.eqb a a') eqn:E.
  - apply String.eqb_eq in E. subst a'.
    rewrite JsMap_get_delete_same in Hget. discriminate.
  - apply String.eqb_neq in E.
    rewrite JsMap_get_delete_other in Hget by exact E.
    unfold JsMap.has. rewrite JsMap_get_delete_other by exact E.
    now apply Hag.
Qed.

Lemma switchToSession_ok (sid : string) (m : Manager) :
  managerOk m -> managerOk (snd (switchToSession sid m)).
Proof.
  intros Hm. unfold switchToSession.
  destruct (negb (JsMap.has sid (sessions m))); auto.
Qed.

Lemma storeAgent_ok (env : BaseProviderClient.Env) (cfg : AgentConfig)
  (cl : BaseProviderClient.ProviderClient) (m : Manager) :
  validateAgentConfig env cfg = [] ->
  managerOk m -> managerOk (storeAgent cfg cl m).
Proof.
  intros Hv (Hcap & Hsize & Hag).
  split; [exact Hcap|]. split; [exact Hsize|].
  intros a c Hget. fields.
  destruct (String.eqb (agentId cfg) a) eqn:E.
  - apply String.eqb_eq in E. subst a.
    rewrite JsMap_get_set_same in Hget. inversion Hget. subst c.
    split; [apply JsMap_has_set_same|].
    intros n. now apply (validateAgentConfig_maxSessions env).
  - apply String.eqb_neq in E.
    rewrite JsMap_get_set_other in Hget by exact E.
    destruct (Hag a c Hget) as [Hh Hn]. split; auto.
    now apply JsMap_has_set_mono.
Qed.

Lemma createAgent_ok (env : BaseProviderClient.Env) (w : Probe)
  (now rnd : string) (cfg : AgentConfig) (m : Manager) :
  managerOk m -> managerOk (snd (createAgent env w now rnd cfg m)).
Proof.
  intros Hm. unfold createAgent.
  destruct (validateAgentConfig env cfg) eqn:Ev; auto.
  destruct (JsMap.has (agentId cfg) (agents m)); auto.
  destruct (ProviderFactory.createClient env (providerConfig cfg) (factoryCache m))
    as [[e|cl] cache]; auto.
  destruct (negb (validateConfig w cl)); auto.
  destruct (negb (testConnection w cl)); auto.
  assert (H3 : managerOk
                 (storeAgent cfg cl
                    (logCall (CallTestConnection (BaseProviderClient.clientProvider cl))
                       (logCall (CallValidateConfig (BaseProviderClient.clientProvider cl))
                          (withFactory cache m)))))
    by (apply (storeAgent_ok env); auto).
  destruct (isTrue (autoStart cfg)); auto.
  pose proof (startSession_ok (agentId cfg) now rnd _ H3) as H4.
  destruct (startSession (agentId cfg) now rnd
              (storeAgent cfg cl
                 (logCall (CallTestConnection (BaseProviderClient.clientProvider cl))
                    (logCall (CallValidateConfig (BaseProviderClient.clientProvider cl))
                       (withFactory cache m)))))
    as [[sid|e] m4]; auto.
Qed.

Lemma updateAgent_ok (env : BaseProviderClient.Env) (w : Probe)
  (a : string) (u : AgentUpdates) (m : Manager) :
  managerOk m -> managerOk (snd (updateAgent env w a u m)).
Proof.
  intros Hm. unfold updateAgent.
  destruct (JsMap.get a (agents m)) as [existing|] eqn:Ea; auto.
  destruct (validateAgentConfig env (mergeAgent existing u)) eqn:Ev; auto.
  pose proof Hm as (Hcap & Hsize & Hag).
  destruct (Hag a existing Ea) as [Hhas _].
  destruct (updProviderConfig u).
  - destruct (ProviderFactory.createClient env
                (providerConfig (mergeAgent existing u)) (factoryCache m))
      as [[e|cl] cache]; [exact Hm|].
    destruct (negb (validateConfig w cl)); [exact Hm|].
    fields. split; [exact Hcap|]. split; [exact Hsize|].
    intros a' c Hget. fields.
    destruct (String.eqb a a') eqn:E.
    + apply String.eqb_eq in E. subst a'.
      rewrite JsMap_get_set_same in Hget. inversion Hget. subst c.
      split; [apply JsMap_has_set_same|].
      intros n. now apply (validateAgentConfig_maxSessions env).
    + apply String.eqb_neq in E.
      rewrite JsMap_get_set_other in Hget by exact E.
      destruct (Hag a' c Hget) as [Hh Hn]. split; auto.
      now apply JsMap_has_set_mono.
  - simpl. split; [exact Hcap|]. split; [exact Hsize|].
    intros a' c Hget. fields.
    destruct (String.eqb a a') eqn:E.
    + apply String.eqb_eq in E. subst a'.
      rewrite JsMap_get_set_same in Hget. inversion Hget. subst c.
      split; [exact Hhas|].
      intros n. now apply (validateAgentConfig_maxSessions env).
    + apply String.eqb_neq in E.
      rewrite JsMap_get_set_other in Hget by exact E.
      now apply Hag.
Qed.

Lemma shutdown_ok (m : Manager) : managerOk m -> managerOk (shutdown m).
Proof.
  intros Hm. unfold shutdown.
  pose proof (endSessionsQuietly_ok (JsMap.keys (sessions m)) m Hm)
    as (Hcap & Hsize & Hag).
  split; [exact Hcap|]. split; [exact Hsize|].
  intros a c H. discriminate.
Qed.

Lemma createQuickSession_ok (env : BaseProviderClient.Env) (w : Probe)
  (k : QuickClock) (p : AIProvider) (model name : option string) (m : Manager) :
  managerOk m -> managerOk (snd (createQuickSession env w k p model name m)).
Proof.
  intros Hm. unfold createQuickSession.
  pose proof (createAgent_ok env w (firstNow k) (firstRnd k)
                (quickAgentConfig p model name (agentNow k)) m Hm) as H1.
  destruct (createAgent env w (firstNow k) (firstRnd k)
              (quickAgentConfig p model name (agentNow k)) m)
    as [[aid|e] m']; fields; auto.
  now apply startSession_ok.
Qed.

Lemma step_ok (m : Manager) (op : Op) : managerOk m -> managerOk (step m op).
Proof.
  intros Hm. destruct op; simpl.
  - now apply createAgent_ok.
  - now apply removeAgent_ok.
  - now apply startSession_ok.
  - now apply endSession_ok.
  - now apply switchToSession_ok.
  - now apply updateAgent_ok.
  - now apply shutdown_ok.
  - now apply createQuickSession_ok.
Qed.

Lemma run_ok (ops : list Op) : (0 <= cap)%Z -> managerOk (run cap ops).
Proof.
  intros Hcap. unfold run.
  assert (H : forall m, managerOk m -> managerOk (fold_left step ops m)).
  { induction ops as [|op ops IH]; intros m Hm; simpl; auto.
    apply IH. now apply step_ok. }
  apply H. split; [reflexivity|]. split; [exact Hcap|].
  intros a cfg Hget. discriminate.
Qed.

End ManagerInvariant.

(** C1. After any sequence of calls on a manager built with a cap that is
    not negative, the number of registered sessions is at most the cap;
    and for every registered agent, a [startSession] call made when the
    number of sessions has reached the cap, or when the sessions counted
    for the agent have reached its own [maxSessions], rejects with one of
    the two concurrency-limit errors and leaves the manager as it was. *)
Theorem startSession_respects_caps :
  forall (cap : Z) (ops : list MultiAgentManager.Op),
    (0 <= cap)%Z ->
    let m := MultiAgentManager.run cap ops in
    (Z.of_nat (JsMap.size (MultiAgentManager.sessions m)) <= cap)%Z
    /\ MultiAgentManager.maxConcurrentSessions m = cap
    /\ forall (agentId now rnd : string)
              (agent : ProviderConfigValidation.AgentConfig),
         JsMap.get agentId (MultiAgentManager.agents m) = Some agent ->
         ((Z.of_nat (JsMap.size (MultiAgentManager.sessions m)) >= cap)%Z
          \/ exists n,
               ProviderConfigValidation.maxSessions agent = Some n
               /\ (Z.of_nat (List.length (MultiAgentManager.agentSessions m agentId))
                   >= n)%Z) ->
         exists e,
           MultiAgentManager.startSession agentId now rnd m
           = (MultiAgentManager.Err e, m)
           /\ MultiAgentManager.isConcurrencyLimitError e = true.
Proof.
  intros cap ops Hcap m.
  pose proof (run_ok cap ops Hcap) as (Hmax & Hsize & Hag). fold m in Hmax, Hsize, Hag.
  split; [exact Hsize|]. split; [exact Hmax|].
  intros agentId now rnd agent Hget Hreached.
  destruct (Hag agentId agent Hget) as [Hhas Hpos].
  unfold MultiAgentManager.startSession. rewrite Hget.
  unfold JsMap.has in Hhas.
  destruct (JsMap.get agentId (MultiAgentManager.providers m)) as [pr|];
    [|discriminate].
  destruct (Z.geb (Z.of_nat (JsMap.size (MultiAgentManager.sessions m)))
              (MultiAgentManager.maxConcurrentSessions m)) eqn:Eg.
  - eexists. split; reflexivity.
  - destruct Hreached as [Hglobal|[n [Hn Hcount]]].
    + rewrite Z.geb_leb, Hmax in Eg. apply Z.leb_gt in Eg. lia.
    + unfold MultiAgentManager.agentCapReached. rewrite Hn.
      pose proof (Hpos n Hn) as H1.
      unfold MultiAgentManager.maxSessionsSet.
      destruct (Z.eqb n 0) eqn:E0; [apply Z.eqb_eq in E0; lia|].
      assert (Hge : Z.geb (Z.of_nat (List.length
                              (MultiAgentManager.agentSessions m agentId))) n
                    = true)
        by (rewrite Z.geb_leb; apply Z.leb_le; lia).
      rewrite Hge. eexists. split; reflexivity.
Qed.

(** C1 at a manager with cap 1 whose agent "a" holds the one session. *)
Lemma startSession_respects_caps_witness :
  (0 <= 1)%Z
  /\ let m := MultiAgentManager.run 1 Samples.fullManagerOps in
     (Z.of_nat (JsMap.size (MultiAgentManager.sessions m)) <= 1)%Z
     /\ exists e,
          MultiAgentManager.startSession "a" "1700000000002" "qqqqqqqqq" m
          = (MultiAgentManager.Err e, m)
          /\ MultiAgentManager.isConcurrencyLimitError e = true.
Proof.
  assert (H0 : (0 <= 1)%Z) by discriminate.
  split; [exact H0|]. cbv zeta. split.
  - exact (proj1 (startSession_respects_caps 1 Samples.fullManagerOps H0)).
  - apply (proj2 (proj2 (startSession_respects_caps 1 Samples.fullManagerOps H0))
             "a"%string "1700000000002"%string "qqqqqqqqq"%string
             (Samples.claudeAgent "a" true None)).
    + reflexivity.
    + left. vm_compute. discriminate.
Defined.

(** ** Disabled provider configs *)

(** Every adapter constructor fails on a disabled config, before it does
    anything else. *)
Lemma construct_disabled (env : BaseProviderClient.Env)
  (c : Types.ProviderConfig) :
  Types.enabled c = false ->
  ProviderFactory.construct env c
  = inl (Types.ProviderError
           (String.append "Provider "
              (String.append (Types.providerName (Types.provider c)) " is disabled"))
           (Types.provider c) None None).
Proof.
  intros H. unfold ProviderFactory.construct.
  destruct (Types.provider c) eqn:Ep;
    unfold ProviderFactory.constructGemini, ClaudeProviderClient.construct,
      OllamaProviderClient.construct, BaseProviderClient.construct;
    rewrite H, Ep; reflexivity.
Qed.

(** X5. When the factory holds no adapter under the cache key of a
    disabled config, [createAgent] rejects and leaves the manager, its
    log of adapter calls included, as it was. *)
Lemma createAgent_disabled_uncached (env : BaseProviderClient.Env)
  (w : MultiAgentManager.Probe) (now rnd : string)
  (cfg : ProviderConfigValidation.AgentConfig) (m : MultiAgentManager.Manager) :
  Types.enabled (ProviderConfigValidation.providerConfig cfg) = false ->
  JsMap.get (ProviderFactory.createCacheKey (ProviderConfigValidation.providerConfig cfg))
    (MultiAgentManager.factoryCache m) = None ->
  exists e,
    MultiAgentManager.createAgent env w now rnd cfg m = (MultiAgentManager.Err e, m).
Proof.
  intros Hd Hc. unfold MultiAgentManager.createAgent.
  destruct (ProviderConfigValidation.validateAgentConfig env cfg);
    [|eexists; reflexivity].
  destruct (JsMap.has (ProviderConfigValidation.agentId cfg)
              (MultiAgentManager.agents m)); [eexists; reflexivity|].
  unfold ProviderFactory.createClient. rewrite Hc, (construct_disabled env _ Hd).
  eexists. destruct m; reflexivity.
Qed.

(** C8, evaluated on the code. Agent "a" has been created with an enabled
    Claude config, so the factory has cached its adapter. [createAgent]
    for agent "b", whose config differs only in [enabled = false],
    resolves: the cached adapter is returned without construction,
    [validateConfig] and [testConnection] are awaited, and "b" is
    registered.  On a new manager the same call rejects with the error of
    the constructor and no adapter call. *)
Theorem createAgent_disabled_config_cache_hit :
  let disabled := Samples.claudeAgent "b" false None in
  let cached := MultiAgentManager.createAgent Samples.noEnv Samples.reachable
                  "1" "y" disabled Samples.cachedManager in
  let fresh := MultiAgentManager.createAgent Samples.noEnv Samples.reachable
                 "1" "y" disabled
                 (MultiAgentManager.newManager
                    MultiAgentManager.defaultMaxConcurrentSessions) in
  Types.enabled (ProviderConfigValidation.providerConfig disabled) = false
  /\ fst cached = MultiAgentManager.Ok "b"%string
  /\ MultiAgentManager.clientCalls (snd cached)
     = MultiAgentManager.clientCalls Samples.cachedManager
       ++ [MultiAgentManager.CallValidateConfig Types.CLAUDE;
           MultiAgentManager.CallTestConnection Types.CLAUDE]
  /\ JsMap.has "b" (MultiAgentManager.agents (snd cached)) = true
  /\ fst fresh
     = MultiAgentManager.Err
         (MultiAgentManager.ClientConstructionFailed
            (Types.ProviderError "Provider claude is disabled" Types.CLAUDE
               None None))
  /\ MultiAgentManager.clientCalls (snd fresh) = [].
Proof. repeat split. Qed.

(** ** Quick sessions *)

Lemma prefix_append (a s : string) : String.prefix a (String.append a s) = true.
Proof.
  induction a as [|c a IH]; simpl.
  - destruct s; reflexivity.
  - destruct (Ascii.ascii_dec c c) as [_|Hne]; [exact IH|contradiction].
Qed.

Lemma makeSessionId_startsWith (a now rnd : string) :
  Js.startsWith (MultiAgentManager.makeSessionId a now rnd) a = true.
Proof. unfold Js.startsWith, MultiAgentManager.makeSessionId. apply prefix_append. Qed.

(** A [startSession] call that resolves has registered the session under
    the id built from its agent id, clock and random values. *)
Lemma startSession_Ok (a now rnd sid : string)
  (m m' : MultiAgentManager.Manager) :
  MultiAgentManager.startSession a now rnd m = (MultiAgentManager.Ok sid, m') ->
  exists agent pr,
    JsMap.get a (MultiAgentManager.agents m) = Some agent
    /\ JsMap.get a (MultiAgentManager.providers m) = Some pr
    /\ sid = MultiAgentManager.makeSessionId a now rnd
    /\ m' = MultiAgentManager.registerSession agent pr sid m.
Proof.
  unfold MultiAgentManager.startSession. intros H.
  destruct (JsMap.get a (MultiAgentManager.agents m)) as [agent|]; [|discriminate].
  destruct (JsMap.get a (MultiAgentManager.providers m)) as [pr|]; [|discriminate].
  destruct (Z.geb _ _); [discriminate|].
  destruct (MultiAgentManager.agentCapReached m a agent); [discriminate|].
  inversion H. subst. exists agent, pr. repeat split.
Qed.

(** A [createAgent] call that resolves for an auto-start config has
    registered a new agent and one session for it. *)
Lemma createAgent_autoStart_Ok (env : BaseProviderClient.Env)
  (w : MultiAgentManager.Probe) (now rnd aid : string)
  (cfg : ProviderConfigValidation.AgentConfig)
  (m m' : MultiAgentManager.Manager) :
  ProviderConfigValidation.autoStart cfg = Some true ->
  MultiAgentManager.createAgent env w now rnd cfg m = (MultiAgentManager.Ok aid, m') ->
  JsMap.has (ProviderConfigValidation.agentId cfg) (MultiAgentManager.agents m) = false
  /\ exists cl s1,
       JsMap.get (ProviderConfigValidation.agentId cfg) (MultiAgentManager.agents m')
       = Some cfg
       /\ JsMap.get (ProviderConfigValidation.agentId cfg)
            (MultiAgentManager.providers m') = Some cl
       /\ MultiAgentManager.sessions m'
          = JsMap.set (MultiAgentManager.makeSessionId
                         (ProviderConfigValidation.agentId cfg) now rnd)
              s1 (MultiAgentManager.sessions m).
Proof.
  intros Hauto. unfold MultiAgentManager.createAgent.
  destruct (ProviderConfigValidation.validateAgentConfig env cfg); [|discriminate].
  destruct (JsMap.has (ProviderConfigValidation.agentId cfg)
              (MultiAgentManager.agents m)) eqn:Ehas; [discriminate|].
  destruct (ProviderFactory.createClient env
              (ProviderConfigValidation.providerConfig cfg)
              (MultiAgentManager.factoryCache m)) as [[e|cl] cache];
    [discriminate|].
  destruct (negb (MultiAgentManager.validateConfig w cl)); [discriminate|].
  destruct (negb (MultiAgentManager.testConnection w cl)); [discriminate|].
  rewrite Hauto. cbn [MultiAgentManager.isTrue].
  destruct (MultiAgentManager.startSession
              (ProviderConfigValidation.agentId cfg) now rnd _)
    as [[sid|e] m4] eqn:Es; [|discriminate].
  intros H. inversion H. subst aid m'. split; [reflexivity|].
  apply startSession_Ok in Es.
  destruct Es as (agent & pr & Hag & Hpr & Hsid & Hm4).
  cbn [MultiAgentManager.storeAgent MultiAgentManager.agents
       MultiAgentManager.providers] in Hag, Hpr.
  rewrite JsMap_get_set_same in Hag. rewrite JsMap_get_set_same in Hpr.
  inversion Hag. inversion Hpr. subst agent pr m4 sid.
  exists cl. eexists.
  cbn [MultiAgentManager.registerSession MultiAgentManager.agents
       MultiAgentManager.providers MultiAgentManager.sessions
       MultiAgentManager.storeAgent MultiAgentManager.logCall
       MultiAgentManager.withFactory].
  rewrite !JsMap_get_set_same. repeat split.
Qed.

(** X4. A quick session for the Claude or the Ollama provider never starts:
    the synthesized config has no endpoint, which the validation of both
    providers requires, so [createQuickSession] rejects with the
    validation errors and leaves the manager as it was. *)
Lemma createQuickSession_rejects_claude_ollama
  (env : BaseProviderClient.Env) (w : MultiAgentManager.Probe)
  (k : MultiAgentManager.QuickClock) (model name : option string)
  (m : MultiAgentManager.Manager) :
  (exists errors,
      MultiAgentManager.createQuickSession env w k Types.CLAUDE model name m
      = (MultiAgentManager.Err (MultiAgentManager.InvalidAgentConfiguration errors), m)
      /\ In "Provider config: Endpoint is required for Claude"%string errors)
  /\ (exists errors,
         MultiAgentManager.createQuickSession env w k Types.OLLAMA model name m
         = (MultiAgentManager.Err (MultiAgentManager.InvalidAgentConfiguration errors), m)
         /\ In "Provider config: Endpoint is required for Ollama"%string errors).
Proof.
  assert (Hin : forall p msg,
             In msg (ProviderConfigValidation.providerSpecificErrors env
                       (ProviderConfigValidation.providerConfig
                          (MultiAgentManager.quickAgentConfig p model name
                             (MultiAgentManager.agentNow k)))) ->
             In (String.append "Provider config: " msg)
                (ProviderConfigValidation.validateAgentConfig env
                   (MultiAgentManager.quickAgentConfig p model name
                      (MultiAgentManager.agentNow k)))).
  { intros p msg H. unfold ProviderConfigValidation.validateAgentConfig.
    apply in_or_app. right. apply in_or_app. right. apply in_or_app. left.
    apply in_map. unfold ProviderConfigValidation.validateProviderConfig.
    apply in_or_app. right. apply in_or_app. left. exact H. }
  split.
  - pose proof (Hin Types.CLAUDE "Endpoint is required for Claude"%string) as H.
    unfold MultiAgentManager.createQuickSession, MultiAgentManager.createAgent.
    destruct (ProviderConfigValidation.validateAgentConfig env
                (MultiAgentManager.quickAgentConfig Types.CLAUDE model name
                   (MultiAgentManager.agentNow k))) as [|e es].
    + exfalso. apply H.
      unfold ProviderConfigValidation.providerSpecificErrors. simpl.
      apply in_or_app. right. now left.
    + eexists. split; [reflexivity|]. apply H.
      unfold ProviderConfigValidation.providerSpecificErrors. simpl.
      apply in_or_app. right. now left.
  - pose proof (Hin Types.OLLAMA "Endpoint is required for Ollama"%string) as H.
    unfold MultiAgentManager.createQuickSession, MultiAgentManager.createAgent.
    destruct (ProviderConfigValidation.validateAgentConfig env
                (MultiAgentManager.quickAgentConfig Types.OLLAMA model name
                   (MultiAgentManager.agentNow k))) as [|e es].
    + exfalso. apply H. now left.
    + eexists. split; [reflexivity|]. apply H. now left.
Qed.

(** C10. A [createQuickSession] call that resolves has registered a new
    agent and set two sessions for it, the one [createAgent] auto-starts
    and the one of its own [startSession] call; it returns the id of the
    second; and when the two ids differ from each other and from every
    earlier session id, the manager holds two sessions more than
    before. *)
Theorem createQuickSession_registers_two_sessions :
  forall (env : BaseProviderClient.Env) (w : MultiAgentManager.Probe)
         (k : MultiAgentManager.QuickClock) (p : Types.AIProvider)
         (model name : option string) (sid : string)
         (m m' : MultiAgentManager.Manager),
    MultiAgentManager.createQuickSession env w k p model name m
    = (MultiAgentManager.Ok sid, m') ->
    let cfg := MultiAgentManager.quickAgentConfig p model name
                 (MultiAgentManager.agentNow k) in
    let a := ProviderConfigValidation.agentId cfg in
    let sid1 := MultiAgentManager.makeSessionId a
                  (MultiAgentManager.firstNow k) (MultiAgentManager.firstRnd k) in
    let sid2 := MultiAgentManager.makeSessionId a
                  (MultiAgentManager.secondNow k) (MultiAgentManager.secondRnd k) in
    ProviderConfigValidation.autoStart cfg = Some true
    /\ sid = sid2
    /\ JsMap.has a (MultiAgentManager.agents m) = false
    /\ JsMap.get a (MultiAgentManager.agents m') = Some cfg
    /\ (exists s1 s2,
          MultiAgentManager.sessions m'
          = JsMap.set sid2 s2 (JsMap.set sid1 s1 (MultiAgentManager.sessions m)))
    /\ JsMap.has sid1 (MultiAgentManager.sessions m') = true
    /\ JsMap.has sid2 (MultiAgentManager.sessions m') = true
    /\ Js.startsWith sid1 a = true
    /\ Js.startsWith sid2 a = true
    /\ (sid1 <> sid2 ->
        JsMap.has sid1 (MultiAgentManager.sessions m) = false ->
        JsMap.has sid2 (MultiAgentManager.sessions m) = false ->
        JsMap.size (MultiAgentManager.sessions m')
        = JsMap.size (MultiAgentManager.sessions m) + 2).
Proof.
  intros env w k p model name sid m m' H cfg a sid1 sid2.
  unfold MultiAgentManager.createQuickSession in H. fold cfg in H.
  destruct (MultiAgentManager.createAgent env w (MultiAgentManager.firstNow k)
              (MultiAgentManager.firstRnd k) cfg m) as [[aid|e] m1] eqn:Ec;
    [|discriminate].
  apply createAgent_autoStart_Ok in Ec; [|reflexivity].
  destruct Ec as (Hnew & cl & s1 & Hag1 & Hpr1 & Hs1).
  apply startSession_Ok in H.
  destruct H as (agent & pr & Hag & Hpr & Hsid & Hm').
  fold a in Hag, Hpr, Hag1, Hpr1, Hsid, Hs1, Hnew. fold sid1 in Hs1. fold sid2 in Hsid.
  rewrite Hag1 in Hag. inversion Hag. subst agent. clear Hag.
  assert (Hs2 : MultiAgentManager.sessions m'
                = JsMap.set sid2
                    {| MultiAgentManager.sessionId := sid2;
                       MultiAgentManager.sessionProvider :=
                         ProviderConfigValidation.agentProvider cfg;
                       MultiAgentManager.client := pr;
                       MultiAgentManager.history := [];
                       MultiAgentManager.sessionTools := [] |}
                    (JsMap.set sid1 s1 (MultiAgentManager.sessions m))).
  { rewrite Hm', Hsid.
    unfold MultiAgentManager.registerSession.
    cbn [MultiAgentManager.sessions]. rewrite Hs1. reflexivity. }
  split; [reflexivity|]. split; [exact Hsid|]. split; [exact Hnew|].
  split.
  { rewrite Hm'. unfold MultiAgentManager.registerSession.
    cbn [MultiAgentManager.agents]. exact Hag1. }
  split; [eexists; eexists; exact Hs2|].
  split.
  { rewrite Hs2. apply JsMap_has_set_mono, JsMap_has_set_same. }
  split.
  { rewrite Hs2. apply JsMap_has_set_same. }
  split; [apply makeSessionId_startsWith|].
  split; [apply makeSessionId_startsWith|].
  intros Hne Hf1 Hf2. rewrite Hs2, !JsMap_size_set, Hf1.
  assert (Hf : JsMap.has sid2 (JsMap.set sid1 s1 (MultiAgentManager.sessions m))
               = false).
  { unfold JsMap.has in *. rewrite JsMap_get_set_other by exact Hne. exact Hf2. }
  rewrite Hf. lia.
Qed.

(** C10 at a Gemini quick session on a new manager. *)
Lemma createQuickSession_registers_two_sessions_witness :
  let start := MultiAgentManager.newManager
                 MultiAgentManager.defaultMaxConcurrentSessions in
  let r := MultiAgentManager.createQuickSession Samples.geminiEnv
             Samples.reachable Samples.quickClock Types.GEMINI None None start in
  r = (MultiAgentManager.Ok
         "quick-gemini-1700000000000-1700000000002-jklmnopqr"%string, snd r)
  /\ JsMap.size (MultiAgentManager.sessions (snd r))
     = JsMap.size (MultiAgentManager.sessions start) + 2.
Proof.
  cbv zeta.
  assert (H : MultiAgentManager.createQuickSession Samples.geminiEnv
                Samples.reachable Samples.quickClock Types.GEMINI None None
                (MultiAgentManager.newManager
                   MultiAgentManager.defaultMaxConcurrentSessions)
              = (MultiAgentManager.Ok
                   "quick-gemini-1700000000000-1700000000002-jklmnopqr"%string,
                 snd (MultiAgentManager.createQuickSession Samples.geminiEnv
                        Samples.reachable Samples.quickClock Types.GEMINI None None
                        (MultiAgentManager.newManager
                           MultiAgentManager.defaultMaxConcurrentSessions))))
    by reflexivity.
  split; [exact H|].
  destruct (createQuickSession_registers_two_sessions _ _ _ _ _ _ _ _ _ H)
    as (_ & _ & _ & _ & _ & _ & _ & _ & _ & Hsize).
  apply Hsize.
  - intros Heq. vm_compute in Heq. discriminate Heq.
  - reflexivity.
  - reflexivity.
Defined.

(** C9 at a tool that requires tool support, for the Ollama adapter. *)
Lemma isToolSupported_iff_and_filters_witness :
  let r := ProviderToolRegistry.registryAfter Samples.registryOps in
  JsMap.get "mcp_tool" (ProviderToolRegistry.toolConfigs r)
  = Some {| ProviderToolRegistry.toolName := "mcp_tool";
            ProviderToolRegistry.supportedProviders := [Types.GEMINI; Types.OLLAMA];
            ProviderToolRegistry.requiresCapability :=
              Some ProviderToolRegistry.KSupportsTools;
            ProviderToolRegistry.providerSpecificConfig := None |}
  /\ In "mcp_tool"%string
       (ProviderToolRegistry.getUnsupportedTools r Types.OLLAMA
          Samples.ollamaCapabilities ["read_file"; "mcp_tool"]%string)
  /\ forall tools,
       ProviderToolRegistry.getToolsForProvider r Types.OLLAMA
         Samples.ollamaCapabilities None = Some tools ->
       forall t, In t tools -> ProviderToolRegistry.getToolName t <> "mcp_tool"%string.
Proof.
  cbv zeta.
  assert (H : JsMap.get "mcp_tool"
                (ProviderToolRegistry.toolConfigs
                   (ProviderToolRegistry.registryAfter Samples.registryOps))
              = Some {| ProviderToolRegistry.toolName := "mcp_tool";
                        ProviderToolRegistry.supportedProviders :=
                          [Types.GEMINI; Types.OLLAMA];
                        ProviderToolRegistry.requiresCapability :=
                          Some ProviderToolRegistry.KSupportsTools;
                        ProviderToolRegistry.providerSpecificConfig := None |})
    by reflexivity.
  split; [exact H|].
  destruct (proj2 (isToolSupported_iff_and_filters Samples.registryOps
                     "mcp_tool" _ Types.OLLAMA Samples.ollamaCapabilities H)
              ProviderToolRegistry.KSupportsTools eq_refl eq_refl)
    as [Hunsupported Hexcluded].
  split.
  - apply Hunsupported. simpl. auto.
  - intros tools. apply Hexcluded.
Defined.

(** ** Read boundaries in the buffered reader of the Claude chat session *)

Lemma splitLines_nonempty (s : string) : Js.splitLines s <> [].
Proof.
  destruct s as [|c s]; simpl; [discriminate|].
  destruct (Ascii.eqb c Js.newline); [discriminate|].
  destruct (Js.splitLines s); discriminate.
Qed.

(** Splitting a concatenation: the complete lines of the first text,
    then the split of its unfinished last line followed by the second
    text. *)
Lemma splitLines_app (a b : string) :
  Js.splitLines (String.append a b)
  = removelast (Js.splitLines a)
    ++ Js.splitLines (String.append (last (Js.splitLines a) EmptyString) b).
Proof.
  induction a as [|c a IH].
  - reflexivity.
  - cbn [String.append Js.splitLines].
    destruct (Ascii.eqb c Js.newline) eqn:Ec.
    + rewrite IH.
      destruct (Js.splitLines a) as [|l ls] eqn:El;
        [now apply splitLines_nonempty in El|].
      reflexivity.
    + rewrite IH.
      destruct (Js.splitLines a) as [|l ls] eqn:El;
        [now apply splitLines_nonempty in El|].
      destruct ls as [|l' ls'].
      * cbn [removelast last app String.append Js.splitLines].
        rewrite Ec. reflexivity.
      * change (removelast (l :: l' :: ls')) with (l :: removelast (l' :: ls')).
        change (removelast (String c l :: l' :: ls'))
          with (String c l :: removelast (l' :: ls')).
        change (last (l :: l' :: ls') EmptyString)
          with (last (l' :: ls') EmptyString).
        change (last (String c l :: l' :: ls') EmptyString)
          with (last (l' :: ls') EmptyString).
        reflexivity.
Qed.

(** The pieces of a split hold no line feed. *)
Lemma splitLines_pieces (s : string) :
  Forall (fun l => Js.splitLines l = [l]) (Js.splitLines s).
Proof.
  induction s as [|c s IH]; simpl.
  - constructor; [reflexivity|constructor].
  - destruct (Ascii.eqb c Js.newline) eqn:Ec.
    + constructor; [reflexivity|exact IH].
    + destruct (Js.splitLines s) as [|l ls]; [constructor; [|constructor]|].
      * simpl. now rewrite Ec.
      * inversion IH as [|? ? Hl Hls]; subst.
        constructor; [|exact Hls]. simpl. now rewrite Ec, Hl.
Qed.

Lemma splitLines_last_piece (s : string) :
  Js.splitLines (last (Js.splitLines s) EmptyString)
  = [last (Js.splitLines s) EmptyString].
Proof.
  pose proof (splitLines_pieces s) as H.
  destruct (exists_last (splitLines_nonempty s)) as [front [y Heq]].
  rewrite Heq in *. rewrite last_last.
  apply Forall_app in H. destruct H as [_ H]. now inversion H.
Qed.

(** ** The persisted turn and the text deltas of the stream *)

Section StreamDeltas.

Variable parse : string -> option ClaudeProviderClient.ClaudeStreamChunk.

Local Abbreviation deltasOf :=
  (flat_map (fun line => match Specs.deltaOfLine parse line with
                         | Some t => [t]
                         | None => []
                         end)).

Lemma splitLines_line (a : string) :
  Js.splitLines (String.append a (String Js.newline EmptyString))
  = Js.splitLines a ++ [EmptyString].
Proof.
  induction a as [|c a IH].
  - reflexivity.
  - cbn [String.append Js.splitLines]. rewrite IH.
    destruct (Ascii.eqb c Js.newline); [reflexivity|].
    destruct (Js.splitLines a) as [|l ls] eqn:El;
      [now apply splitLines_nonempty in El|].
    reflexivity.
Qed.

Lemma streamDeltas_line (a : string) :
  Specs.streamDeltas parse (String.append a (String Js.newline EmptyString))
  = deltasOf (Js.splitLines a).
Proof.
  unfold Specs.streamDeltas. rewrite splitLines_line, flat_map_app.
  cbn [flat_map]. change (Specs.deltaOfLine parse EmptyString) with (@None string).
  now rewrite !app_nil_r.
Qed.

Lemma streamDeltas_after_line (a b : string) :
  Specs.streamDeltas parse
    (String.append (String.append a (String Js.newline EmptyString)) b)
  = Specs.streamDeltas parse (String.append a (String Js.newline EmptyString))
    ++ Specs.streamDeltas parse b.
Proof.
  rewrite streamDeltas_line. unfold Specs.streamDeltas.
  rewrite splitLines_app, splitLines_line, removelast_last, last_last.
  cbn [String.append]. apply flat_map_app.
Qed.

(** When no line is cut by a read boundary, the deltas the converter
    accepts are the deltas of the stream. *)
Lemma acceptedDeltas_whole_lines (reads : list string) :
  Forall (fun r => exists a,
              r = String.append a (String Js.newline EmptyString))
    (removelast reads) ->
  Specs.acceptedDeltas parse reads
  = Specs.streamDeltas parse (Js.joined reads).
Proof.
  induction reads as [|r rest IH]; intros H.
  - reflexivity.
  - destruct rest as [|r' rest'].
    + unfold Specs.acceptedDeltas, Specs.streamDeltas, Js.joined.
      cbn [flat_map fold_right]. now rewrite append_empty_r, app_nil_r.
    + change (removelast (r :: r' :: rest'))
        with (r :: removelast (r' :: rest')) in H.
      inversion H as [|? ? [a Ha] Hrest]; subst.
      specialize (IH Hrest).
      change (Specs.acceptedDeltas parse
                (String.append a (String Js.newline EmptyString) :: r' :: rest'))
        with (deltasOf (Js.splitLines
                          (String.append a (String Js.newline EmptyString)))
              ++ Specs.acceptedDeltas parse (r' :: rest')).
      rewrite IH.
      change (Js.joined (String.append a (String Js.newline EmptyString)
                           :: r' :: rest'))
        with (String.append (String.append a (String Js.newline EmptyString))
                (Js.joined (r' :: rest'))).
      rewrite streamDeltas_after_line. reflexivity.
Qed.

End StreamDeltas.



Section BufferedReader.
Import ClaudeChatSession.

Variable parse : string -> option ParsedChunk.

Lemma onLines_app (l1 l2 : list string) :
  onLines parse (l1 ++ l2)
  = if snd (onLines parse l1) then (fst (onLines parse l1), true)
    else (fst (onLines parse l1) ++ fst (onLines parse l2),
          snd (onLines parse l2)).
Proof.
  induction l1 as [|line l1 IH]; cbn [app onLines].
  - cbn [fst snd app]. now destruct (onLines parse l2).
  - destruct (Js.startsWith line "data: "); [|exact IH].
    destruct (String.eqb (Js.slice 6 line) "[DONE]"); [reflexivity|].
    rewrite IH.
    destruct (onLines parse l1) as [ys1 [|]]; cbn [fst snd];
      [reflexivity|].
    now rewrite app_assoc.
Qed.

(** What the reader yields: the events of the complete lines of the
    buffer followed by all the reads. *)
Lemma readFrom_joined (reads : list string) (buffer : string) :
  Js.splitLines buffer = [buffer] ->
  readFrom parse buffer reads
  = fst (onLines parse
           (removelast (Js.splitLines (String.append buffer (Js.joined reads))))).
Proof.
  revert buffer. induction reads as [|chunk rest IH]; intros buffer Hb.
  - cbn [readFrom Js.joined fold_right]. rewrite append_empty_r, Hb.
    reflexivity.
  - cbn [readFrom].
    rewrite (IH _ (splitLines_last_piece (String.append buffer chunk))).
    change (Js.joined (chunk :: rest))
      with (String.append chunk (Js.joined rest)).
    rewrite <- (append_assoc buffer chunk (Js.joined rest)).
    rewrite (splitLines_app (String.append buffer chunk) (Js.joined rest)).
    rewrite removelast_app by apply splitLines_nonempty.
    rewrite onLines_app.
    destruct (onLines parse (removelast (Js.splitLines (String.append buffer chunk))))
      as [ys [|]]; reflexivity.
Qed.

End BufferedReader.

(** X1. The buffered reader of the Claude chat session does not depend
    on the read boundaries: two sequences of reads that add up to the
    same text yield the same events. *)
Lemma makeClaudeStreamRequest_read_boundaries
  (parse : string -> option ClaudeChatSession.ParsedChunk)
  (reads1 reads2 : list string) :
  Js.joined reads1 = Js.joined reads2 ->
  ClaudeChatSession.makeClaudeStreamRequest parse reads1
  = ClaudeChatSession.makeClaudeStreamRequest parse reads2.
Proof.
  intros H. unfold ClaudeChatSession.makeClaudeStreamRequest.
  rewrite !readFrom_joined by reflexivity. cbn [String.append].
  now rewrite H.
Qed.

(** ** Concrete instances *)

(** X1 at the one-read and the two-read delivery of one event. *)
Lemma makeClaudeStreamRequest_read_boundaries_witness :
  Js.joined Samples.hiTwoReads = Js.joined Samples.hiOneRead
  /\ ClaudeChatSession.makeClaudeStreamRequest Samples.parseSampleChunk
       Samples.hiTwoReads
     = ClaudeChatSession.makeClaudeStreamRequest Samples.parseSampleChunk
         Samples.hiOneRead.
Proof.
  assert (H : Js.joined Samples.hiTwoReads = Js.joined Samples.hiOneRead)
    by reflexivity.
  split; [exact H|].
  exact (makeClaudeStreamRequest_read_boundaries Samples.parseSampleChunk
           Samples.hiTwoReads Samples.hiOneRead H).
Defined.

(** X2 at the first turn of the sample history. *)
Lemma getCuratedHistory_valid_witness :
  let h := Samples.sampleHistory ++ [Samples.emptyModelTurn; Samples.emptyTextTurn] in
  let c := Types.userTurn [Types.textPart "question"] in
  In c (BaseProviderSession.getCuratedHistory h)
  /\ BaseChatSession.hasZeroParts c = false
  /\ BaseChatSession.soleEmptyTextPart c = false.
Proof.
  cbv zeta.
  assert (H : In (Types.userTurn [Types.textPart "question"])
                (BaseProviderSession.getCuratedHistory
                   (Samples.sampleHistory
                    ++ [Samples.emptyModelTurn; Samples.emptyTextTurn])))
    by (left; reflexivity).
  split; [exact H|].
  exact (getCuratedHistory_valid _ _ H).
Defined.

(** X5 at a new manager. *)
Lemma createAgent_disabled_uncached_witness :
  let start := MultiAgentManager.newManager
                 MultiAgentManager.defaultMaxConcurrentSessions in
  let cfg := Samples.claudeAgent "b" false None in
  Types.enabled (ProviderConfigValidation.providerConfig cfg) = false
  /\ JsMap.get (ProviderFactory.createCacheKey
                  (ProviderConfigValidation.providerConfig cfg))
       (MultiAgentManager.factoryCache start) = None
  /\ exists e,
       MultiAgentManager.createAgent Samples.noEnv Samples.reachable "1" "y" cfg start
       = (MultiAgentManager.Err e, start).
Proof.
  cbv zeta. split; [reflexivity|]. split; [reflexivity|].
  exact (createAgent_disabled_uncached Samples.noEnv Samples.reachable
           "1" "y" (Samples.claudeAgent "b" false None)
           (MultiAgentManager.newManager
              MultiAgentManager.defaultMaxConcurrentSessions)
           eq_refl eq_refl).
Defined.

(** ** More on maps: deletion and membership *)

Lemma JsMap_keys_delete {V : Type} (k : string) (m : JsMap.t V) :
  JsMap.keys (JsMap.delete k m)
  = filter (fun x => negb (String.eqb x k)) (JsMap.keys m).
Proof.
  unfold JsMap.keys, JsMap.delete.
  induction m as [|[k' v'] m IH]; simpl; auto.
  destruct (String.eqb k' k); simpl; now rewrite IH.
Qed.

Lemma JsMap_NoDup_delete {V : Type} (k : string) (m : JsMap.t V) :
  NoDup (JsMap.keys m) -> NoDup (JsMap.keys (JsMap.delete k m)).
Proof. intros H. rewrite JsMap_keys_delete. now apply NoDup_filter. Qed.

Lemma JsMap_has_In {V : Type} (k : string) (m : JsMap.t V) :
  JsMap.has k m = true <-> In k (JsMap.keys m).
Proof.
  unfold JsMap.has, JsMap.keys.
  induction m as [|[k' v'] m IH]; simpl.
  - split; [discriminate|contradiction].
  - destruct (String.eqb k' k) eqn:E.
    + apply String.eqb_eq in E. subst. simpl. split; auto.
    + rewrite IH. split; auto. intros [H|H]; auto.
      subst. rewrite String.eqb_refl in E. discriminate.
Qed.

Lemma JsMap_delete_absent {V : Type} (k : string) (m : JsMap.t V) :
  JsMap.get k m = None -> JsMap.delete k m = m.
Proof.
  unfold JsMap.delete.
  induction m as [|[k' v'] m IH]; simpl; auto.
  destruct (String.eqb k' k) eqn:E; [discriminate|].
  intros H. simpl. now rewrite IH.
Qed.

Lemma JsMap_delete_set_fresh {V : Type} (k : string) (v : V) (m : JsMap.t V) :
  JsMap.get k m = None -> JsMap.delete k (JsMap.set k v m) = m.
Proof.
  unfold JsMap.delete.
  induction m as [|[k' v'] m IH]; simpl.
  - now rewrite String.eqb_refl.
  - destruct (String.eqb k' k) eqn:E; [discriminate|].
    intros H. simpl. rewrite E. simpl. now rewrite IH.
Qed.

Lemma JsMap_keys_nil {V : Type} (m : JsMap.t V) : JsMap.keys m = [] -> m = [].
Proof. destruct m; [reflexivity|discriminate]. Qed.

Lemma JsMap_get_filter {V : Type} (f : string -> bool) (k : string)
  (m : JsMap.t V) :
  JsMap.get k (filter (fun kv => f (fst kv)) m)
  = if f k then JsMap.get k m else None.
Proof.
  induction m as [|[k' v'] m IH]; simpl.
  - destruct (f k); reflexivity.
  - destruct (f k') eqn:Ef; simpl.
    + destruct (String.eqb k' k) eqn:E.
      * apply String.eqb_eq in E. subst. now rewrite Ef.
      * exact IH.
    + destruct (String.eqb k' k) eqn:E.
      * apply String.eqb_eq in E. subst. rewrite Ef in IH. rewrite Ef. exact IH.
      * exact IH.
Qed.

Lemma JsMap_filter_delete {V : Type} (k : string) (ks : list string)
  (m : JsMap.t V) :
  filter (fun kv => negb (Js.arrayIncludes ks (fst kv))) (JsMap.delete k m)
  = filter (fun kv => negb (Js.arrayIncludes (k :: ks) (fst kv))) m.
Proof.
  unfold JsMap.delete, Js.arrayIncludes.
  induction m as [|kv l IHl]; simpl; auto.
  destruct (String.eqb (fst kv) k); simpl; auto.
  destruct (existsb (String.eqb (fst kv)) ks); simpl; auto.
  now rewrite IHl.
Qed.

(** ** The agent manager: the session map and the active session *)

Section SessionInvariant.
Import Types.
Import ProviderConfigValidation.
Import MultiAgentManager.

Local Abbreviation sessionsOk := Specs.sessionsOk.

Lemma makeSessionId_truthy (a now rnd : string) :
  Js.truthyString (makeSessionId a now rnd) = true.
Proof. unfold makeSessionId. destruct a; reflexivity. Qed.

Lemma endSession_sessions (sid : string) (m : Manager) :
  sessions (snd (endSession sid m)) = JsMap.delete sid (sessions m).
Proof.
  unfold endSession.
  destruct (JsMap.get sid (sessions m)) eqn:E; simpl; auto.
  symmetry. now apply JsMap_delete_absent.
Qed.

Lemma endSession_agents (sid : string) (m : Manager) :
  agents (snd (endSession sid m)) = agents m
  /\ providers (snd (endSession sid m)) = providers m
  /\ factoryCache (snd (endSession sid m)) = factoryCache m
  /\ clientCalls (snd (endSession sid m)) = clientCalls m
  /\ maxConcurrentSessions (snd (endSession sid m)) = maxConcurrentSessions m.
Proof.
  unfold endSession. destruct (JsMap.get sid (sessions m)); simpl; auto.
Qed.

Lemma startSession_inv (a now rnd : string) (m : Manager) :
  sessionsOk m -> sessionsOk (snd (startSession a now rnd m)).
Proof.
  intros Hm. pose proof Hm as (Hna & Hns & Hown & Hact).
  unfold startSession.
  destruct (JsMap.get a (agents m)) as [agent|] eqn:Ea; [|exact Hm].
  destruct (JsMap.get a (providers m)) as [pr|]; [|exact Hm].
  destruct (Z.geb _ _); [exact Hm|].
  destruct (agentCapReached m a agent); [exact Hm|].
  cbn [snd]. unfold registerSession.
  split; [exact Hna|]. split; [cbn [sessions]; now apply JsMap_NoDup_set|].
  split.
  - intros sid s. cbn [sessions agents].
    destruct (String.eqb (makeSessionId a now rnd) sid) eqn:E.
    + apply String.eqb_eq in E. subst sid.
      rewrite JsMap_get_set_same. intros H. inversion H. subst s. cbn [sessionId].
      split; [reflexivity|]. exists a, now, rnd. split; [reflexivity|].
      unfold JsMap.has. now rewrite Ea.
    + apply String.eqb_neq in E. rewrite JsMap_get_set_other by exact E.
      apply Hown.
  - cbn [activeSessionId sessions].
    destruct (activeSessionId m) as [act|] eqn:Eact.
    + destruct (Js.truthy (Some act)).
      * now apply JsMap_has_set_mono.
      * apply JsMap_has_set_same.
    + cbn [Js.truthy]. apply JsMap_has_set_same.
Qed.

Lemma endSession_inv (sid : string) (m : Manager) :
  sessionsOk m -> sessionsOk (snd (endSession sid m)).
Proof.
  intros Hm. pose proof Hm as (Hna & Hns & Hown & Hact).
  unfold endSession.
  destruct (JsMap.get sid (sessions m)) as [s0|] eqn:Es; [|exact Hm].
  cbn [snd]. split; [exact Hna|].
  split; [cbn [sessions]; now apply JsMap_NoDup_delete|].
  split.
  - intros sid' s. cbn [sessions agents].
    destruct (String.eqb sid sid') eqn:E.
    + apply String.eqb_eq in E. subst sid'.
      rewrite JsMap_get_delete_same. discriminate.
    + apply String.eqb_neq in E. rewrite JsMap_get_delete_other by exact E.
      apply Hown.
  - cbn [activeSessionId sessions].
    destruct (activeSessionId m) as [act|] eqn:Eact.
    + destruct (String.eqb act sid) eqn:E.
      * destruct (JsMap.keys (JsMap.delete sid (sessions m))) as [|k ks] eqn:Ek.
        -- now apply JsMap_keys_nil.
        -- apply JsMap_has_In. rewrite Ek. now left.
      * apply String.eqb_neq in E. unfold JsMap.has.
        rewrite JsMap_get_delete_other by (intros Heq; apply E; now symmetry).
        exact Hact.
    + rewrite Hact in Es. discriminate.
Qed.

Lemma endSessions_inv (ids : list string) (m : Manager) :
  sessionsOk m -> sessionsOk (snd (endSessions ids m)).
Proof.
  revert m. induction ids as [|sid ids IH]; intros m Hm; simpl; auto.
  pose proof (endSession_inv sid m Hm) as H1.
  destruct (endSession sid m) as [[u|e] m']; cbn [snd] in *; auto.
Qed.

Lemma endSessionsQuietly_inv (ids : list string) (m : Manager) :
  sessionsOk m -> sessionsOk (endSessionsQuietly ids m).
Proof.
  revert m. induction ids as [|sid ids IH]; intros m Hm; simpl; auto.
  apply IH. now apply endSession_inv.
Qed.

(** A loop of [endSession] calls over distinct registered ids resolves
    and removes exactly those ids. *)
Lemma endSessions_resolves (ids : list string) (m : Manager) :
  NoDup ids ->
  (forall sid, In sid ids -> JsMap.has sid (sessions m) = true) ->
  exists m',
    endSessions ids m = (Ok tt, m')
    /\ sessions m'
       = filter (fun kv => negb (Js.arrayIncludes ids (fst kv))) (sessions m)
    /\ agents m' = agents m /\ providers m' = providers m
    /\ factoryCache m' = factoryCache m /\ clientCalls m' = clientCalls m
    /\ maxConcurrentSessions m' = maxConcurrentSessions m.
Proof.
  revert m. induction ids as [|sid ids IH]; intros m Hnd Hin.
  - exists m. simpl. repeat split; auto.
    induction (sessions m) as [|kv l IHl]; simpl; auto. now rewrite <- IHl.
  - inversion Hnd as [|? ? Hnot Hnd']; subst.
    assert (Hs : JsMap.has sid (sessions m) = true) by (apply Hin; now left).
    cbn [endSessions].
    pose proof (endSession_sessions sid m) as Hss.
    pose proof (endSession_agents sid m) as (Ha & Hp & Hf & Hc & Hx).
    unfold endSession in *. unfold JsMap.has in Hs.
    destruct (JsMap.get sid (sessions m)) as [s0|] eqn:Es; [|discriminate].
    cbn [snd] in *.
    match goal with |- context [endSessions ids ?M] => set (m1 := M) in * end.
    destruct (IH m1 Hnd') as (m' & He & Hsess & Ha' & Hp' & Hf' & Hc' & Hx').
    { intros sid' Hin'. unfold JsMap.has. rewrite Hss.
      rewrite JsMap_get_delete_other.
      - apply (Hin sid'). now right.
      - intros Heq. subst sid'. contradiction. }
    exists m'. split; [exact He|].
    split.
    + rewrite Hsess, Hss. apply JsMap_filter_delete.
    + repeat split; congruence.
Qed.

Lemma arrayIncludes_In (xs : list string) (x : string) :
  Js.arrayIncludes xs x = true <-> In x xs.
Proof.
  unfold Js.arrayIncludes. rewrite existsb_exists. split.
  - intros [y [Hin Heq]]. apply String.eqb_eq in Heq. now subst.
  - intros Hin. exists x. split; auto. apply String.eqb_refl.
Qed.

Lemma agentSessions_includes (m : Manager) (a k : string) :
  In k (JsMap.keys (sessions m)) ->
  Js.arrayIncludes (agentSessions m a) k = Js.startsWith k a.
Proof.
  intros Hin. unfold agentSessions.
  destruct (Js.startsWith k a) eqn:E.
  - apply arrayIncludes_In. apply filter_In. auto.
  - destruct (Js.arrayIncludes _ k) eqn:E'; auto.
    apply arrayIncludes_In in E'. apply filter_In in E'.
    destruct E' as [_ E']. congruence.
Qed.

Lemma agentSessions_filter (m : Manager) (a : string) :
  filter (fun kv => negb (Js.arrayIncludes (agentSessions m a) (fst kv)))
         (sessions m)
  = filter (fun kv => negb (Js.startsWith (fst kv) a)) (sessions m).
Proof.
  apply filter_ext_in. intros kv Hin.
  rewrite agentSessions_includes; auto.
  unfold JsMap.keys. now apply in_map.
Qed.

(** [removeAgent] on a manager that satisfies the invariant: the loop
    over the sessions of the agent resolves. *)
Lemma removeAgent_sessions (a : string) (m : Manager) :
  sessionsOk m ->
  exists m1,
    endSessions (agentSessions m a) m = (Ok tt, m1)
    /\ sessions m1
       = filter (fun kv => negb (Js.startsWith (fst kv) a)) (sessions m)
    /\ agents m1 = agents m /\ providers m1 = providers m
    /\ factoryCache m1 = factoryCache m /\ clientCalls m1 = clientCalls m
    /\ maxConcurrentSessions m1 = maxConcurrentSessions m.
Proof.
  intros (Hna & Hns & Hown & Hact).
  destruct (endSessions_resolves (agentSessions m a) m) as (m1 & He & Hs & Hr).
  - unfold agentSessions. now apply NoDup_filter.
  - intros sid Hin. unfold agentSessions in Hin. apply filter_In in Hin.
    apply JsMap_has_In. tauto.
  - exists m1. split; [exact He|]. split; [|exact Hr].
    rewrite Hs. apply agentSessions_filter.
Qed.

Lemma removeAgent_inv (a : string) (m : Manager) :
  sessionsOk m -> sessionsOk (snd (removeAgent a m)).
Proof.
  intros Hm.
  destruct (removeAgent_sessions a m Hm) as (m1 & He & Hs & Ha & Hp & _).
  pose proof (endSessions_inv (agentSessions m a) m Hm) as H1.
  unfold removeAgent. rewrite He in *. cbn [snd] in *.
  destruct H1 as (Hna & Hns & Hown & Hact).
  assert (Hkeep : forall sid, JsMap.has sid (sessions m1) = true ->
                              Js.startsWith sid a = false).
  { intros sid Hh. unfold JsMap.has in Hh. rewrite Hs in Hh.
    rewrite (JsMap_get_filter (fun k => negb (Js.startsWith k a))) in Hh.
    destruct (Js.startsWith sid a); [discriminate|reflexivity]. }
  split; [cbn [agents]; now apply JsMap_NoDup_delete|].
  split; [exact Hns|]. split.
  - intros sid s Hget. cbn [sessions agents] in *.
    destruct (Hown sid s Hget) as [Hid (a0 & now & rnd & Hsid & Hhas)].
    split; [exact Hid|]. exists a0, now, rnd. split; [exact Hsid|].
    destruct (String.eqb a a0) eqn:E.
    + apply String.eqb_eq in E. subst a0.
      assert (Hh : JsMap.has sid (sessions m1) = true)
        by (unfold JsMap.has; now rewrite Hget).
      apply Hkeep in Hh. rewrite Hsid in Hh.
      unfold Js.startsWith, makeSessionId in Hh.
      rewrite prefix_append in Hh. discriminate.
    + apply String.eqb_neq in E. unfold JsMap.has in *.
      now rewrite JsMap_get_delete_other.
  - cbn [activeSessionId sessions].
    destruct (activeSessionId m1) as [act|] eqn:Eact; [|exact Hact].
    rewrite (Hkeep act Hact), andb_false_r. exact Hact.
Qed.

Lemma switchToSession_inv (sid : string) (m : Manager) :
  sessionsOk m -> sessionsOk (snd (switchToSession sid m)).
Proof.
  intros Hm. pose proof Hm as (Hna & Hns & Hown & Hact).
  unfold switchToSession.
  destruct (JsMap.has sid (sessions m)) eqn:E; simpl; [|exact Hm].
  split; [exact Hna|]. split; [exact Hns|]. split; [exact Hown|exact E].
Qed.

Lemma setAgents_inv (k : string) (cfg : AgentConfig) (m m' : Manager) :
  sessionsOk m ->
  agents m' = JsMap.set k cfg (agents m) ->
  sessions m' = sessions m ->
  activeSessionId m' = activeSessionId m ->
  sessionsOk m'.
Proof.
  intros (Hna & Hns & Hown & Hact) Ha Hs Hc.
  unfold Specs.sessionsOk. rewrite Ha, Hs, Hc.
  split; [now apply JsMap_NoDup_set|]. split; [exact Hns|].
  split; [|exact Hact].
  intros sid s Hget. destruct (Hown sid s Hget) as [Hid (a0 & now & rnd & H1 & H2)].
  split; [exact Hid|]. exists a0, now, rnd. split; [exact H1|].
  now apply JsMap_has_set_mono.
Qed.

Lemma sameSessions_inv (m m' : Manager) :
  sessionsOk m ->
  agents m' = agents m ->
  sessions m' = sessions m ->
  activeSessionId m' = activeSessionId m ->
  sessionsOk m'.
Proof.
  intros Hm Ha Hs Hc. unfold Specs.sessionsOk. now rewrite Ha, Hs, Hc.
Qed.

Lemma createAgent_inv (env : BaseProviderClient.Env) (w : Probe)
  (now rnd : string) (cfg : AgentConfig) (m : Manager) :
  sessionsOk m -> sessionsOk (snd (createAgent env w now rnd cfg m)).
Proof.
  intros Hm. unfold createAgent.
  destruct (validateAgentConfig env cfg); [|exact Hm].
  destruct (JsMap.has (agentId cfg) (agents m)); [exact Hm|].
  destruct (ProviderFactory.createClient env (providerConfig cfg) (factoryCache m))
    as [[e|cl] cache].
  { now apply (sameSessions_inv m). }
  destruct (negb (validateConfig w cl)).
  { now apply (sameSessions_inv m). }
  destruct (negb (testConnection w cl)).
  { now apply (sameSessions_inv m). }
  match goal with
  | |- context [storeAgent cfg cl ?M] =>
      assert (H3 : sessionsOk (storeAgent cfg cl M))
        by (now apply (setAgents_inv (agentId cfg) cfg m))
  end.
  destruct (isTrue (autoStart cfg)); [|exact H3].
  pose proof (startSession_inv (agentId cfg) now rnd _ H3) as H4.
  match goal with
  | |- context [startSession ?A ?N ?R ?M] =>
      destruct (startSession A N R M) as [[sid|e] m4]
  end; exact H4.
Qed.

Lemma updateAgent_inv (env : BaseProviderClient.Env) (w : Probe)
  (a : string) (u : AgentUpdates) (m : Manager) :
  sessionsOk m -> sessionsOk (snd (updateAgent env w a u m)).
Proof.
  intros Hm. unfold updateAgent.
  destruct (JsMap.get a (agents m)) as [existing|]; [|exact Hm].
  destruct (validateAgentConfig env (mergeAgent existing u)); [|exact Hm].
  destruct (updProviderConfig u).
  - destruct (ProviderFactory.createClient env
                (providerConfig (mergeAgent existing u)) (factoryCache m))
      as [[e|cl] cache].
    { now apply (sameSessions_inv m). }
    destruct (negb (validateConfig w cl)).
    { now apply (sameSessions_inv m). }
    now apply (setAgents_inv a (mergeAgent existing u) m).
  - now apply (setAgents_inv a (mergeAgent existing u) m).
Qed.

Lemma endSessionsQuietly_sessions (ids : list string) (m : Manager) :
  sessions (endSessionsQuietly ids m)
  = filter (fun kv => negb (Js.arrayIncludes ids (fst kv))) (sessions m).
Proof.
  revert m. induction ids as [|sid ids IH]; intros m.
  - simpl. induction (sessions m) as [|kv l IHl]; simpl; auto. now rewrite <- IHl.
  - cbn [endSessionsQuietly]. rewrite IH, endSession_sessions.
    apply JsMap_filter_delete.
Qed.

Lemma filter_none {A : Type} (f : A -> bool) (l : list A) :
  (forall x, In x l -> f x = false) -> filter f l = [].
Proof.
  induction l as [|x l IH]; intros H; simpl; auto.
  rewrite (H x) by now left. apply IH. intros y Hy. apply H. now right.
Qed.

Lemma shutdown_sessions (m : Manager) : sessions (shutdown m) = [].
Proof.
  unfold shutdown. cbn [sessions]. rewrite endSessionsQuietly_sessions.
  apply filter_none. intros kv Hin. apply negb_false_iff.
  apply arrayIncludes_In. unfold JsMap.keys. now apply in_map.
Qed.

Lemma shutdown_inv (m : Manager) : sessionsOk (shutdown m).
Proof.
  pose proof (shutdown_sessions m) as Hs.
  unfold Specs.sessionsOk. rewrite Hs. unfold shutdown. cbn [agents activeSessionId].
  split; [constructor|]. split; [constructor|]. split; [|reflexivity].
  intros sid s H. discriminate.
Qed.

Lemma createQuickSession_inv (env : BaseProviderClient.Env) (w : Probe)
  (k : QuickClock) (p : AIProvider) (model name : option string) (m : Manager) :
  sessionsOk m -> sessionsOk (snd (createQuickSession env w k p model name m)).
Proof.
  intros Hm. unfold createQuickSession.
  pose proof (createAgent_inv env w (firstNow k) (firstRnd k)
                (quickAgentConfig p model name (agentNow k)) m Hm) as H1.
  destruct (createAgent env w (firstNow k) (firstRnd k)
              (quickAgentConfig p model name (agentNow k)) m)
    as [[aid|e] m']; cbn [snd] in *; auto.
  now apply startSession_inv.
Qed.

Lemma step_inv (m : Manager) (op : Op) : sessionsOk m -> sessionsOk (step m op).
Proof.
  intros Hm. destruct op; simpl.
  - now apply createAgent_inv.
  - now apply removeAgent_inv.
  - now apply startSession_inv.
  - now apply endSession_inv.
  - now apply switchToSession_inv.
  - now apply updateAgent_inv.
  - apply shutdown_inv.
  - now apply createQuickSession_inv.
Qed.

Lemma run_inv (cap : Z) (ops : list Op) : sessionsOk (run cap ops).
Proof.
  unfold run.
  assert (H : forall m, sessionsOk m -> sessionsOk (fold_left step ops m)).
  { induction ops as [|op ops IH]; intros m Hm; simpl; auto.
    apply IH. now apply step_inv. }
  apply H. unfold Specs.sessionsOk, newManager. cbn.
  split; [constructor|]. split; [constructor|]. split; [|reflexivity].
  intros sid s Hget. discriminate.
Qed.

End SessionInvariant.

(** X6. After every sequence of manager calls, [getActiveSession] returns
    nothing exactly when the manager holds no session at all; and a
    session it returns is the one stored under the active session id,
    and carries that id as its own [sessionId]. *)
Theorem getActiveSession_tracks_sessions :
  forall (cap : Z) (ops : list MultiAgentManager.Op),
    let m := MultiAgentManager.run cap ops in
    (MultiAgentManager.getActiveSession m = None
     <-> MultiAgentManager.sessions m = [])
    /\ forall s,
         MultiAgentManager.getActiveSession m = Some s ->
         MultiAgentManager.activeSessionId m
         = Some (MultiAgentManager.sessionId s)
         /\ MultiAgentManager.getSession (MultiAgentManager.sessionId s) m
            = Some s.
Proof.
  intros cap ops m.
  pose proof (run_inv cap ops) as (Hna & Hns & Hown & Hact). fold m in Hna, Hns, Hown, Hact.
  unfold MultiAgentManager.getActiveSession, MultiAgentManager.getSession.
  destruct (MultiAgentManager.activeSessionId m) as [act|] eqn:Eact.
  - unfold JsMap.has in Hact.
    destruct (JsMap.get act (MultiAgentManager.sessions m)) as [s0|] eqn:Eg;
      [|discriminate].
    destruct (Hown act s0 Eg) as [Hid (a & now & rnd & Hsid & _)].
    assert (Ht : Js.truthyString act = true)
      by (rewrite Hsid; apply makeSessionId_truthy).
    rewrite Ht. split.
    + split; [discriminate|]. intros Hnil. rewrite Hnil in Eg. discriminate.
    + intros s Hs. inversion Hs. subst s0. rewrite Hid. split; [reflexivity|exact Eg].
  - split; [split; auto|]. discriminate.
Qed.

Lemma endSessions_active (ids : list string) (m : MultiAgentManager.Manager)
  (act : string) :
  MultiAgentManager.activeSessionId m = Some act ->
  ~ In act ids ->
  MultiAgentManager.activeSessionId (snd (MultiAgentManager.endSessions ids m))
  = Some act.
Proof.
  revert m. induction ids as [|sid ids IH]; intros m Hact Hnot; simpl; auto.
  assert (H1 : MultiAgentManager.activeSessionId
                 (snd (MultiAgentManager.endSession sid m)) = Some act).
  { unfold MultiAgentManager.endSession.
    destruct (JsMap.get sid (MultiAgentManager.sessions m)); simpl; auto.
    rewrite Hact.
    destruct (String.eqb act sid) eqn:E; auto.
    apply String.eqb_eq in E. subst. exfalso. apply Hnot. now left. }
  destruct (MultiAgentManager.endSession sid m) as [[u|e] m1]; cbn [snd] in *; auto.
  apply IH; auto. intros Hin. apply Hnot. now right.
Qed.

Lemma find_filter_none {A : Type} (f : A -> bool) (l : list A) :
  find f (filter (fun x => negb (f x)) l) = None.
Proof.
  induction l as [|x l IH]; simpl; auto.
  destruct (f x) eqn:E; simpl; auto. now rewrite E.
Qed.

(** X7. After every sequence of manager calls, [removeAgent] resolves for
    every id, also one that names no agent.  It ends exactly the sessions
    whose id starts with the given id (which takes in the sessions of
    every agent whose own id starts with it) and keeps the others in
    their order, deletes the agent and its provider, so that [getAgent]
    and [getAgentConfig] find nothing under the id afterwards, and leaves
    the active session id as it was when that id does not start with the
    given id. *)
Theorem removeAgent_ends_prefixed_sessions :
  forall (cap : Z) (ops : list MultiAgentManager.Op) (a : string),
    let m := MultiAgentManager.run cap ops in
    exists m',
      MultiAgentManager.removeAgent a m = (MultiAgentManager.Ok tt, m')
      /\ MultiAgentManager.sessions m'
         = filter (fun kv => negb (Js.startsWith (fst kv) a))
             (MultiAgentManager.sessions m)
      /\ MultiAgentManager.agents m' = JsMap.delete a (MultiAgentManager.agents m)
      /\ MultiAgentManager.providers m'
         = JsMap.delete a (MultiAgentManager.providers m)
      /\ MultiAgentManager.getAgent a m' = None
      /\ MultiAgentManager.getAgentConfig a m' = None
      /\ (forall act,
             MultiAgentManager.activeSessionId m = Some act ->
             Js.startsWith act a = false ->
             MultiAgentManager.activeSessionId m' = Some act).
Proof.
  intros cap ops a m.
  pose proof (run_inv cap ops) as Hm. fold m in Hm.
  destruct (removeAgent_sessions a m Hm) as (m1 & He & Hs & Ha & Hp & _).
  pose proof (endSessions_active (MultiAgentManager.agentSessions m a) m) as Hact.
  unfold MultiAgentManager.removeAgent. rewrite He in *. cbn [snd] in Hact.
  eexists. split; [reflexivity|].
  cbn [MultiAgentManager.sessions MultiAgentManager.agents
       MultiAgentManager.providers MultiAgentManager.activeSessionId].
  split; [exact Hs|]. split; [now rewrite Ha|]. split; [now rewrite Hp|].
  split.
  { unfold MultiAgentManager.getAgent. cbn [MultiAgentManager.sessions].
    rewrite Hs.
    rewrite (find_filter_none (fun kv => Js.startsWith (fst kv) a)).
    reflexivity. }
  split.
  { unfold MultiAgentManager.getAgentConfig. cbn [MultiAgentManager.agents].
    apply JsMap_get_delete_same. }
  intros act Eact Hsw.
  rewrite (Hact act Eact).
  - now rewrite Hsw, andb_false_r.
  - unfold MultiAgentManager.agentSessions. intros Hin.
    apply filter_In in Hin. destruct Hin as [_ Hin]. congruence.
Qed.

(** ** The statistics of the manager *)

Lemma increment_total (p : Types.AIProvider) (c : MultiAgentManager.ProviderCounts) :
  Specs.countsTotal (MultiAgentManager.increment p c) = S (Specs.countsTotal c).
Proof. unfold Specs.countsTotal. destruct p; simpl; lia. Qed.

Lemma fold_increment_total (l : list MultiAgentManager.Session)
  (c : MultiAgentManager.ProviderCounts) :
  Specs.countsTotal
    (fold_left (fun c s => MultiAgentManager.increment
                             (MultiAgentManager.sessionProvider s) c) l c)
  = List.length l + Specs.countsTotal c.
Proof.
  revert c. induction l as [|s l IH]; intros c; simpl; auto.
  rewrite IH, increment_total. lia.
Qed.

Lemma fold_setAdd_spec (g : string -> string) (l acc : list string) :
  NoDup acc ->
  let r := fold_left (fun s sid => MultiAgentManager.setAdd (g sid) s) l acc in
  NoDup r /\ forall x, In x r <-> In x acc \/ In x (map g l).
Proof.
  revert acc. induction l as [|k l IH]; intros acc Hnd; simpl.
  - split; auto. intros x. tauto.
  - assert (Hnd' : NoDup (MultiAgentManager.setAdd (g k) acc)).
    { unfold MultiAgentManager.setAdd.
      destruct (Js.arrayIncludes acc (g k)) eqn:E; auto.
      apply NoDup_app; auto.
      - constructor; [intros []|constructor].
      - intros x Hx [Hk|[]]. subst.
        apply arrayIncludes_In in Hx. congruence. }
    destruct (IH _ Hnd') as [H1 H2]. split; auto.
    intros x. rewrite H2. unfold MultiAgentManager.setAdd.
    destruct (Js.arrayIncludes acc (g k)) eqn:E.
    + apply arrayIncludes_In in E. split.
      * intros [H|H]; auto.
      * intros [H|[H|H]]; auto. subst. auto.
    + rewrite in_app_iff. simpl. tauto.
Qed.

Lemma NoDup_same_length (xs ys : list string) :
  NoDup xs -> NoDup ys -> (forall x, In x xs <-> In x ys) ->
  List.length xs = List.length ys.
Proof.
  intros Hx Hy H. apply Nat.le_antisymm; apply NoDup_incl_length; auto;
    intros x Hin; now apply H.
Qed.

Lemma firstSegment_append (a rest : string) :
  MultiAgentManager.firstSegment (String.append a (String "-" rest))
  = MultiAgentManager.firstSegment a.
Proof.
  induction a as [|c a IH]; simpl; auto.
  destruct (Ascii.eqb c "-"); auto. now rewrite IH.
Qed.

Lemma firstSegment_makeSessionId (a now rnd : string) :
  MultiAgentManager.firstSegment (MultiAgentManager.makeSessionId a now rnd)
  = MultiAgentManager.firstSegment a.
Proof. unfold MultiAgentManager.makeSessionId. apply firstSegment_append. Qed.

(** X8. After every sequence of manager calls, the statistics of
    [getStats] are consistent: the per-provider counts add up to
    [totalSessions]; [activeAgents] is the number of distinct texts in
    front of the first hyphen of the session ids; it exceeds neither
    [totalSessions] nor [totalAgents], and it is zero exactly when there
    is no session. *)
Theorem getStats_consistent :
  forall (cap : Z) (ops : list MultiAgentManager.Op),
    let m := MultiAgentManager.run cap ops in
    let st := MultiAgentManager.getStats m in
    Specs.countsTotal (MultiAgentManager.sessionsByProvider st)
    = MultiAgentManager.totalSessions st
    /\ MultiAgentManager.activeAgents st
       = Specs.distinct (map MultiAgentManager.firstSegment
                           (MultiAgentManager.getActiveSessionIds m))
    /\ MultiAgentManager.activeAgents st <= MultiAgentManager.totalSessions st
    /\ MultiAgentManager.activeAgents st <= MultiAgentManager.totalAgents st
    /\ (MultiAgentManager.activeAgents st = 0
        <-> MultiAgentManager.totalSessions st = 0).
Proof.
  intros cap ops m st.
  pose proof (run_inv cap ops) as (Hna & Hns & Hown & Hact).
  fold m in Hna, Hns, Hown, Hact.
  destruct (fold_setAdd_spec MultiAgentManager.firstSegment
              (JsMap.keys (MultiAgentManager.sessions m)) [] (NoDup_nil _))
    as [Hnd Hin].
  set (active := fold_left
                   (fun s sid => MultiAgentManager.setAdd
                                   (MultiAgentManager.firstSegment sid) s)
                   (JsMap.keys (MultiAgentManager.sessions m)) []) in *.
  assert (Hdist : List.length active
                  = Specs.distinct (map MultiAgentManager.firstSegment
                                      (JsMap.keys (MultiAgentManager.sessions m)))).
  { unfold Specs.distinct. apply NoDup_same_length; auto.
    - apply NoDup_nodup.
    - intros x. rewrite Hin, nodup_In. simpl. tauto. }
  assert (Hle : List.length active
                <= JsMap.size (MultiAgentManager.sessions m)).
  { rewrite Hdist. unfold Specs.distinct, JsMap.size.
    replace (List.length (MultiAgentManager.sessions m))
      with (List.length (map MultiAgentManager.firstSegment
                           (JsMap.keys (MultiAgentManager.sessions m))))
      by (unfold JsMap.keys; now rewrite !length_map).
    apply NoDup_incl_length; [apply NoDup_nodup|].
    intros x Hx. now apply nodup_In in Hx. }
  unfold st, MultiAgentManager.getStats.
  cbn [MultiAgentManager.sessionsByProvider MultiAgentManager.totalSessions
       MultiAgentManager.activeAgents MultiAgentManager.totalAgents].
  fold active.
  split.
  { rewrite fold_increment_total. unfold Specs.countsTotal, JsMap.values, JsMap.size.
    simpl. rewrite length_map. lia. }
  split; [exact Hdist|]. split; [exact Hle|]. split.
  { unfold JsMap.size.
    replace (List.length (MultiAgentManager.agents m))
      with (List.length (map MultiAgentManager.firstSegment
                           (JsMap.keys (MultiAgentManager.agents m))))
      by (unfold JsMap.keys; now rewrite !length_map).
    apply NoDup_incl_length; auto.
    intros x Hx. apply Hin in Hx. destruct Hx as [[]|Hx].
    apply in_map_iff in Hx. destruct Hx as (sid & Hseg & Hsid).
    apply JsMap_has_In in Hsid. unfold JsMap.has in Hsid.
    destruct (JsMap.get sid (MultiAgentManager.sessions m)) as [s|] eqn:Eg;
      [|discriminate].
    destruct (Hown sid s Eg) as [_ (a & now & rnd & Hmk & Hhas)].
    apply in_map_iff. exists a. split.
    - rewrite <- Hseg, Hmk. symmetry. apply firstSegment_makeSessionId.
    - now apply JsMap_has_In. }
  split.
  - intros H0. unfold JsMap.size.
    destruct (MultiAgentManager.sessions m) as [|kv l] eqn:Es; auto.
    exfalso.
    assert (Hx : In (MultiAgentManager.firstSegment (fst kv)) active).
    { apply Hin. right. simpl. now left. }
    destruct active; [contradiction|discriminate].
  - intros H0. lia.
Qed.

(** ** Round trips of the manager *)

(** X9. After every sequence of manager calls, a [startSession] that
    resolves with an id not in use stores under that id a session with
    the provider of the agent's config, the system prompt as its only
    turn (no turn for a missing or empty prompt) and the agent's tools;
    the id starts with the agent id, the number of sessions grows by one,
    and [endSession] on that id gives back the manager as it was before
    the start. *)
Theorem startSession_endSession_roundtrip :
  forall (cap : Z) (ops : list MultiAgentManager.Op) (a now rnd sid : string)
         (m1 : MultiAgentManager.Manager),
    let m := MultiAgentManager.run cap ops in
    MultiAgentManager.startSession a now rnd m = (MultiAgentManager.Ok sid, m1) ->
    MultiAgentManager.getSession sid m = None ->
    (exists agent pr,
        MultiAgentManager.getAgentConfig a m = Some agent
        /\ MultiAgentManager.getSession sid m1
           = Some {| MultiAgentManager.sessionId := sid;
                     MultiAgentManager.sessionProvider :=
                       ProviderConfigValidation.agentProvider agent;
                     MultiAgentManager.client := pr;
                     MultiAgentManager.history :=
                       match ProviderConfigValidation.systemPrompt agent with
                       | Some (String c p) =>
                           [Types.userTurn [Types.textPart (String c p)]]
                       | _ => []
                       end;
                     MultiAgentManager.sessionTools :=
                       MultiAgentManager.nonEmptyTools
                         (ProviderConfigValidation.tools agent) |})
    /\ Js.startsWith sid a = true
    /\ JsMap.size (MultiAgentManager.sessions m1)
       = S (JsMap.size (MultiAgentManager.sessions m))
    /\ MultiAgentManager.endSession sid m1 = (MultiAgentManager.Ok tt, m).
Proof.
  intros cap ops a now rnd sid m1 m Hstart Hfresh.
  pose proof (run_inv cap ops) as (Hna & Hns & Hown & Hact).
  fold m in Hna, Hns, Hown, Hact.
  destruct (startSession_Ok a now rnd sid m m1 Hstart)
    as (agent & pr & Hagent & Hpr & Hsid & Hm1).
  unfold MultiAgentManager.getSession in *.
  split.
  { exists agent, pr. split; [exact Hagent|].
    rewrite Hm1. unfold MultiAgentManager.registerSession.
    cbn [MultiAgentManager.sessions]. rewrite JsMap_get_set_same.
    do 2 f_equal.
    destruct (ProviderConfigValidation.systemPrompt agent) as [[|c p]|];
      reflexivity. }
  split; [rewrite Hsid; apply makeSessionId_startsWith|].
  split.
  { rewrite Hm1. unfold MultiAgentManager.registerSession.
    cbn [MultiAgentManager.sessions]. rewrite JsMap_size_set.
    unfold JsMap.has. now rewrite Hfresh. }
  rewrite Hm1. unfold MultiAgentManager.endSession, MultiAgentManager.registerSession.
  cbn [MultiAgentManager.sessions MultiAgentManager.agents
       MultiAgentManager.providers MultiAgentManager.activeSessionId
       MultiAgentManager.maxConcurrentSessions MultiAgentManager.factoryCache
       MultiAgentManager.clientCalls].
  rewrite JsMap_get_set_same. rewrite (JsMap_delete_set_fresh _ _ _ Hfresh).
  f_equal. destruct m as [ag ss prv act mx fc cc].
  cbn [MultiAgentManager.sessions MultiAgentManager.agents
       MultiAgentManager.providers MultiAgentManager.activeSessionId
       MultiAgentManager.maxConcurrentSessions MultiAgentManager.factoryCache
       MultiAgentManager.clientCalls] in *.
  f_equal.
  destruct act as [act|].
  - unfold JsMap.has in Hact.
    assert (Hne : String.eqb act sid = false).
    { apply String.eqb_neq. intros Heq. subst act. now rewrite Hfresh in Hact. }
    destruct (JsMap.get act ss) as [s0|] eqn:Eg; [|discriminate].
    destruct (Hown act s0 Eg) as [_ (a0 & n0 & r0 & Hmk & _)].
    assert (Ht : Js.truthy (Some act) = true)
      by (cbn [Js.truthy]; rewrite Hmk; apply makeSessionId_truthy).
    rewrite Ht. now rewrite Hne.
  - cbn [Js.truthy]. rewrite String.eqb_refl. now rewrite Hact.
Qed.

Lemma startSession_agents (a now rnd : string) (m : MultiAgentManager.Manager) :
  MultiAgentManager.agents (snd (MultiAgentManager.startSession a now rnd m))
  = MultiAgentManager.agents m.
Proof.
  unfold MultiAgentManager.startSession.
  destruct (JsMap.get a (MultiAgentManager.agents m)); auto.
  destruct (JsMap.get a (MultiAgentManager.providers m)); auto.
  destruct (Z.geb _ _); auto.
  destruct (MultiAgentManager.agentCapReached m a _); auto.
Qed.

(** A [createAgent] call that resolves has stored the config under its
    agent id. *)
Lemma createAgent_Ok_agents (env : BaseProviderClient.Env)
  (w : MultiAgentManager.Probe) (now rnd : string)
  (cfg : ProviderConfigValidation.AgentConfig)
  (m m' : MultiAgentManager.Manager) (id : string) :
  MultiAgentManager.createAgent env w now rnd cfg m = (MultiAgentManager.Ok id, m') ->
  id = ProviderConfigValidation.agentId cfg
  /\ JsMap.has id (MultiAgentManager.agents m) = false
  /\ MultiAgentManager.agents m'
     = JsMap.set id cfg (MultiAgentManager.agents m).
Proof.
  unfold MultiAgentManager.createAgent.
  destruct (ProviderConfigValidation.validateAgentConfig env cfg); [|discriminate].
  destruct (JsMap.has (ProviderConfigValidation.agentId cfg)
              (MultiAgentManager.agents m)) eqn:Eh; [discriminate|].
  destruct (ProviderFactory.createClient env
              (ProviderConfigValidation.providerConfig cfg)
              (MultiAgentManager.factoryCache m)) as [[e|cl] cache];
    [discriminate|].
  destruct (negb (MultiAgentManager.validateConfig w cl)); [discriminate|].
  destruct (negb (MultiAgentManager.testConnection w cl)); [discriminate|].
  destruct (MultiAgentManager.isTrue (ProviderConfigValidation.autoStart cfg)).
  - match goal with
    | |- context [MultiAgentManager.startSession ?A ?N ?R ?M] =>
        pose proof (startSession_agents A N R M) as Hag;
        destruct (MultiAgentManager.startSession A N R M) as [[sid|e] m4]
    end; [|discriminate].
    intros H. inversion H. subst. cbn [snd] in Hag. rewrite Hag.
    repeat split; auto.
  - intros H. inversion H. subst. repeat split; auto.
Qed.

(** X10. A [createAgent] that resolves returns the id of the config; the
    id was not registered before, [getAgentConfig] returns the config
    afterwards and [listAgents] lists it; and every later [createAgent]
    for a config with the same id, whatever else it holds, rejects and
    leaves the manager unchanged. *)
Theorem createAgent_registers_once :
  forall (env : BaseProviderClient.Env) (w : MultiAgentManager.Probe)
         (now rnd : string) (cfg : ProviderConfigValidation.AgentConfig)
         (m m' : MultiAgentManager.Manager) (id : string),
    MultiAgentManager.createAgent env w now rnd cfg m
    = (MultiAgentManager.Ok id, m') ->
    id = ProviderConfigValidation.agentId cfg
    /\ MultiAgentManager.getAgentConfig id m = None
    /\ MultiAgentManager.getAgentConfig id m' = Some cfg
    /\ In cfg (MultiAgentManager.listAgents m')
    /\ forall (env' : BaseProviderClient.Env) (w' : MultiAgentManager.Probe)
              (now' rnd' : string) (cfg' : ProviderConfigValidation.AgentConfig),
         ProviderConfigValidation.agentId cfg' = id ->
         exists e,
           MultiAgentManager.createAgent env' w' now' rnd' cfg' m'
           = (MultiAgentManager.Err e, m').
Proof.
  intros env w now rnd cfg m m' id H.
  destruct (createAgent_Ok_agents env w now rnd cfg m m' id H) as (Hid & Hnew & Hag).
  assert (Hget : JsMap.get id (MultiAgentManager.agents m') = Some cfg)
    by (rewrite Hag; apply JsMap_get_set_same).
  split; [exact Hid|]. split.
  { unfold MultiAgentManager.getAgentConfig. unfold JsMap.has in Hnew.
    destruct (JsMap.get id (MultiAgentManager.agents m)); [discriminate|reflexivity]. }
  split; [exact Hget|]. split.
  { unfold MultiAgentManager.listAgents, JsMap.values.
    apply JsMap_get_In in Hget. apply (in_map snd) in Hget. exact Hget. }
  intros env' w' now' rnd' cfg' Hsame.
  unfold MultiAgentManager.createAgent.
  destruct (ProviderConfigValidation.validateAgentConfig env' cfg') as [|x xs].
  - rewrite Hsame. unfold JsMap.has. rewrite Hget. cbn [Js.isSome].
    eexists. reflexivity.
  - eexists. reflexivity.
Qed.

(** X9 at a manager with one Claude agent: a session is started and
    ended again. *)
Lemma startSession_endSession_roundtrip_witness :
  let ops := [MultiAgentManager.OpCreateAgent Samples.noEnv Samples.reachable
                "0" "x" (Samples.claudeAgent "a" true None)]%string in
  let m := MultiAgentManager.run 5 ops in
  let sid := "a-1700000000000-k3j9x0a1b"%string in
  let m1 := snd (MultiAgentManager.startSession "a" "1700000000000" "k3j9x0a1b" m) in
  MultiAgentManager.startSession "a" "1700000000000" "k3j9x0a1b" m
  = (MultiAgentManager.Ok sid, m1)
  /\ MultiAgentManager.getSession sid m = None
  /\ JsMap.size (MultiAgentManager.sessions m1) = 1
  /\ MultiAgentManager.endSession sid m1 = (MultiAgentManager.Ok tt, m).
Proof.
  cbv zeta. split; [reflexivity|]. split; [reflexivity|].
  destruct (startSession_endSession_roundtrip 5
              [MultiAgentManager.OpCreateAgent Samples.noEnv Samples.reachable
                 "0" "x" (Samples.claudeAgent "a" true None)]%string
              "a" "1700000000000" "k3j9x0a1b" "a-1700000000000-k3j9x0a1b" _
              eq_refl eq_refl)
    as (_ & _ & Hsize & Hend).
  split; [exact Hsize|exact Hend].
Defined.

(** X10 at a new manager: the Claude agent "a" is created, and a second
    agent with the same id is refused. *)
Lemma createAgent_registers_once_witness :
  let start := MultiAgentManager.newManager
                 MultiAgentManager.defaultMaxConcurrentSessions in
  let cfg := Samples.claudeAgent "a" true None in
  let m' := snd (MultiAgentManager.createAgent Samples.noEnv Samples.reachable
                   "0" "x" cfg start) in
  MultiAgentManager.createAgent Samples.noEnv Samples.reachable "0" "x" cfg start
  = (MultiAgentManager.Ok "a"%string, m')
  /\ MultiAgentManager.getAgentConfig "a" m' = Some cfg
  /\ exists e,
       MultiAgentManager.createAgent Samples.noEnv Samples.reachable "1" "y"
         (Samples.claudeAgent "a" true (Some 2%Z)) m'
       = (MultiAgentManager.Err e, m').
Proof.
  cbv zeta. split; [reflexivity|].
  destruct (createAgent_registers_once Samples.noEnv Samples.reachable "0" "x"
              (Samples.claudeAgent "a" true None)
              (MultiAgentManager.newManager
                 MultiAgentManager.defaultMaxConcurrentSessions)
              _ "a" eq_refl)
    as (_ & _ & Hget & _ & Hdup).
  split; [exact Hget|].
  exact (Hdup Samples.noEnv Samples.reachable "1"%string "y"%string
           (Samples.claudeAgent "a" true (Some 2%Z)) eq_refl).
Defined.

(** ** The provider factory: its cache *)

Lemma construct_config (env : BaseProviderClient.Env) (c : Types.ProviderConfig)
  (cl : BaseProviderClient.ProviderClient) :
  ProviderFactory.construct env c = inr cl ->
  BaseProviderClient.config cl = c
  /\ BaseProviderClient.clientProvider cl = Types.provider c
  /\ Types.enabled c = true.
Proof.
  unfold ProviderFactory.construct, ProviderFactory.constructGemini,
    ClaudeProviderClient.construct, OllamaProviderClient.construct,
    BaseProviderClient.construct.
  destruct (Types.provider c); destruct (Types.enabled c); simpl;
    try discriminate.
  - intros H. inversion H. auto.
  - destruct (negb _); [discriminate|]. intros H. inversion H. auto.
  - intros H. inversion H. auto.
Qed.

Lemma createCacheKey_fields (c1 c2 : Types.ProviderConfig) :
  Types.provider c1 = Types.provider c2 ->
  Types.model c1 = Types.model c2 ->
  Types.authType c1 = Types.authType c2 ->
  Js.orDefault (Types.apiKey c1) "no-key" = Js.orDefault (Types.apiKey c2) "no-key" ->
  Js.orDefault (Types.endpoint c1) "default-endpoint"
  = Js.orDefault (Types.endpoint c2) "default-endpoint" ->
  ProviderFactory.createCacheKey c1 = ProviderFactory.createCacheKey c2.
Proof.
  intros H1 H2 H3 H4 H5. unfold ProviderFactory.createCacheKey.
  now rewrite H1, H2, H3, H4, H5.
Qed.

Lemma createClient_cached (env : BaseProviderClient.Env)
  (c : Types.ProviderConfig) (cache cache1 : ProviderFactory.Cache)
  (cl : BaseProviderClient.ProviderClient) :
  ProviderFactory.createClient env c cache = (inr cl, cache1) ->
  JsMap.get (ProviderFactory.createCacheKey c) cache1 = Some cl.
Proof.
  unfold ProviderFactory.createClient.
  destruct (JsMap.get (ProviderFactory.createCacheKey c) cache) as [cl0|] eqn:E.
  - intros H. inversion H. subst. exact E.
  - destruct (ProviderFactory.construct env c); [discriminate|].
    intros H. inversion H. subst. apply JsMap_get_set_same.
Qed.

(** X11. The factory's cache does not look at more than five fields: when
    [createClient] has resolved for a config, a [createClient] for any
    config with the same provider, model and auth type, and the same API
    key and endpoint as the cache key reads them (a missing or empty one
    reads as 'no-key' and 'default-endpoint'), resolves with the very
    same client and leaves the cache unchanged, whatever the temperature,
    token limit, top-p, proxy, enabled flag and environment of the second
    call are; and a client that was not in the cache before the first
    call holds the first config. *)
Theorem createClient_reuses_cached_client :
  forall (env env' : BaseProviderClient.Env) (c1 c2 : Types.ProviderConfig)
         (cache cache1 : ProviderFactory.Cache)
         (cl : BaseProviderClient.ProviderClient),
    Types.provider c1 = Types.provider c2 ->
    Types.model c1 = Types.model c2 ->
    Types.authType c1 = Types.authType c2 ->
    Js.orDefault (Types.apiKey c1) "no-key"
    = Js.orDefault (Types.apiKey c2) "no-key" ->
    Js.orDefault (Types.endpoint c1) "default-endpoint"
    = Js.orDefault (Types.endpoint c2) "default-endpoint" ->
    ProviderFactory.createClient env c1 cache = (inr cl, cache1) ->
    ProviderFactory.createClient env' c2 cache1 = (inr cl, cache1)
    /\ (JsMap.get (ProviderFactory.createCacheKey c1) cache = None ->
        BaseProviderClient.config cl = c1).
Proof.
  intros env env' c1 c2 cache cache1 cl H1 H2 H3 H4 H5 Hc.
  pose proof (createCacheKey_fields c1 c2 H1 H2 H3 H4 H5) as Hk.
  split.
  - apply createClient_cached in Hc. unfold ProviderFactory.createClient.
    rewrite <- Hk, Hc. reflexivity.
  - intros Hnone. unfold ProviderFactory.createClient in Hc. rewrite Hnone in Hc.
    destruct (ProviderFactory.construct env c1) as [e|cl0] eqn:E; [discriminate|].
    inversion Hc. subst. now apply (construct_config env).
Qed.

(** X11 at the Claude sample config: a second config that asks for
    another temperature and token limit gets the client of the first. *)
Lemma createClient_reuses_cached_client_witness :
  let c1 := Samples.claudeConfig true in
  let c2 := {| Types.provider := Types.CLAUDE;
               Types.model := "claude-3-5-sonnet-20241022";
               Types.authType := Types.CLAUDE_API_KEY;
               Types.apiKey := Some "secret"%string;
               Types.endpoint := Some "https://api.anthropic.com/v1/messages"%string;
               Types.proxy := None;
               Types.enabled := true;
               Types.maxTokens := Some 100%Z;
               Types.temperature := Some (1 # 5)%Q;
               Types.topP := None |} in
  let r1 := ProviderFactory.createClient Samples.noEnv c1 JsMap.empty in
  exists cl,
    r1 = (inr cl, snd r1)
    /\ ProviderFactory.createClient Samples.noEnv c2 (snd r1) = (inr cl, snd r1)
    /\ BaseProviderClient.config cl = c1.
Proof.
  cbv zeta. eexists. split; [reflexivity|].
  refine (let H := createClient_reuses_cached_client Samples.noEnv Samples.noEnv
                     (Samples.claudeConfig true) _ JsMap.empty _ _
                     eq_refl eq_refl eq_refl eq_refl eq_refl eq_refl in
          conj (proj1 H) (proj2 H eq_refl)).
Defined.

(** X12. After [removeCachedClient] for a config, its cache key is not
    among [getCachedClientKeys], so the next [createClient] for the
    config runs the adapter's constructor (and rejects when the config is
    disabled); the entries under other keys are untouched. *)
Theorem removeCachedClient_forces_construction :
  forall (env : BaseProviderClient.Env) (c : Types.ProviderConfig)
         (cache : ProviderFactory.Cache),
    let cache' := ProviderFactory.removeCachedClient c cache in
    Js.arrayIncludes (ProviderFactory.getCachedClientKeys cache')
      (ProviderFactory.createCacheKey c) = false
    /\ fst (ProviderFactory.createClient env c cache')
       = ProviderFactory.construct env c
    /\ (Types.enabled c = false ->
        exists e, ProviderFactory.createClient env c cache' = (inl e, cache'))
    /\ (forall c',
           ProviderFactory.createCacheKey c' <> ProviderFactory.createCacheKey c ->
           JsMap.get (ProviderFactory.createCacheKey c') cache'
           = JsMap.get (ProviderFactory.createCacheKey c') cache).
Proof.
  intros env c cache cache'.
  assert (Hnone : JsMap.get (ProviderFactory.createCacheKey c) cache' = None)
    by apply JsMap_get_delete_same.
  split.
  { destruct (Js.arrayIncludes _ _) eqn:E; auto.
    unfold Js.arrayIncludes in E. apply existsb_exists in E.
    destruct E as [k [Hin Heq]]. apply String.eqb_eq in Heq. subst k.
    apply JsMap_get_None_keys in Hnone. contradiction. }
  split.
  { unfold ProviderFactory.createClient. rewrite Hnone.
    destruct (ProviderFactory.construct env c); reflexivity. }
  split.
  { intros Hdis. unfold ProviderFactory.createClient. rewrite Hnone.
    destruct (ProviderFactory.construct env c) as [e|cl] eqn:E.
    - eexists. reflexivity.
    - apply construct_config in E. destruct E as (_ & _ & E). congruence. }
  intros c' Hne. unfold cache', ProviderFactory.removeCachedClient.
  apply JsMap_get_delete_other. auto.
Qed.

(** X13. [testProviderConfig] reports [valid: true] exactly when the
    config names a model, is enabled, [createClient] resolves and both
    the adapter's [validateConfig] and its [testConnection] answer true;
    it reports an error exactly when it reports [valid: false]; a
    disabled config with a model is reported as 'Provider ... is
    disabled' with the cache untouched; and when the factory's own
    validation passes, the cache afterwards is the one [createClient]
    leaves, so the tested client stays cached. *)
Theorem testProviderConfig_valid_iff :
  forall (env : BaseProviderClient.Env)
         (validate connect : BaseProviderClient.ProviderClient -> bool)
         (c : Types.ProviderConfig) (cache : ProviderFactory.Cache),
    let r := ProviderFactory.testProviderConfig env validate connect c cache in
    (ProviderFactory.valid (fst r) = true
     <-> Js.truthyString (Types.model c) = true
         /\ Types.enabled c = true
         /\ exists cl,
              fst (ProviderFactory.createClient env c cache) = inr cl
              /\ validate cl = true /\ connect cl = true)
    /\ (ProviderFactory.valid (fst r) = true
        <-> ProviderFactory.error (fst r) = None)
    /\ (Js.truthyString (Types.model c) = true ->
        Types.enabled c = false ->
        r = ({| ProviderFactory.valid := false;
                ProviderFactory.error :=
                  Some (String.append "Provider "
                          (String.append (Types.providerName (Types.provider c))
                             " is disabled"));
                ProviderFactory.passed := None |}, cache))
    /\ (ProviderFactory.validateConfig c = inr tt ->
        snd r = snd (ProviderFactory.createClient env c cache)).
Proof.
  intros env validate connect c cache r. unfold r.
  unfold ProviderFactory.testProviderConfig, ProviderFactory.validateConfig.
  destruct (Js.truthyString (Types.model c)) eqn:Em;
    destruct (Types.enabled c) eqn:Ee; cbn [negb fst snd];
    try (split; [split; [discriminate|intros (H1 & H2 & _); discriminate]|];
         split; [split; discriminate|];
         split; [intros; try discriminate; reflexivity|]; discriminate).
  destruct (ProviderFactory.createClient env c cache) as [[e|cl] cache1];
    cbn [fst snd].
  - split; [split; [discriminate|intros (_ & _ & cl & H & _); discriminate]|].
    split; [split; discriminate|]. split; [discriminate|reflexivity].
  - destruct (validate cl) eqn:Ev; destruct (connect cl) eqn:Ec; cbn [negb fst snd].
    + split.
      { split; auto. intros _. repeat split. exists cl. auto. }
      split; [split; reflexivity|]. split; [discriminate|reflexivity].
    + split.
      { split; [discriminate|].
        intros (_ & _ & cl' & H & _ & Hc). inversion H. subst. congruence. }
      split; [split; discriminate|]. split; [discriminate|reflexivity].
    + split.
      { split; [discriminate|].
        intros (_ & _ & cl' & H & Hv & _). inversion H. subst. congruence. }
      split; [split; discriminate|]. split; [discriminate|reflexivity].
    + split.
      { split; [discriminate|].
        intros (_ & _ & cl' & H & Hv & _). inversion H. subst. congruence. }
      split; [split; discriminate|]. split; [discriminate|reflexivity].
Qed.

Lemma createClientsFrom_spec (env : BaseProviderClient.Env)
  (configs : list Types.ProviderConfig)
  (clients : JsMap.t BaseProviderClient.ProviderClient)
  (cache : ProviderFactory.Cache) :
  let r := ProviderFactory.createClientsFrom env configs clients cache in
  (forall k cl,
      JsMap.get k (fst r) = Some cl ->
      JsMap.get k clients = Some cl
      \/ exists c, In c configs /\ Types.enabled c = true
                   /\ ProviderFactory.clientsKey c = k)
  /\ JsMap.size (fst r)
     <= JsMap.size clients + List.length (filter Types.enabled configs).
Proof.
  revert clients cache. induction configs as [|c rest IH]; intros clients cache.
  - simpl. split; [auto|lia].
  - cbn [ProviderFactory.createClientsFrom filter].
    destruct (Types.enabled c) eqn:Ee.
    + destruct (ProviderFactory.createClient env c cache) as [[e|cl0] cache1].
      * destruct (IH clients cache1) as [H1 H2]. split.
        -- intros k cl Hget. destruct (H1 k cl Hget) as [H|(c' & Hin & He & Hk)];
             auto.
           right. exists c'. split; [now right|auto].
        -- cbn [List.length]. lia.
      * destruct (IH (JsMap.set (ProviderFactory.clientsKey c) cl0 clients) cache1)
          as [H1 H2]. split.
        -- intros k cl Hget. destruct (H1 k cl Hget) as [H|(c' & Hin & He & Hk)].
           ++ destruct (String.eqb (ProviderFactory.clientsKey c) k) eqn:E.
              ** apply String.eqb_eq in E. right. exists c.
                 split; [now left|auto].
              ** apply String.eqb_neq in E.
                 rewrite JsMap_get_set_other in H by exact E. now left.
           ++ right. exists c'. split; [now right|auto].
        -- pose proof (JsMap_size_set_le (ProviderFactory.clientsKey c) cl0 clients).
           cbn [List.length]. lia.
    + destruct (IH clients cache) as [H1 H2]. split; [|exact H2].
      intros k cl Hget. destruct (H1 k cl Hget) as [H|(c' & Hin & He & Hk)]; auto.
      right. exists c'. split; [now right|auto].
Qed.

Lemma createClientsFrom_disabled (env : BaseProviderClient.Env)
  (configs : list Types.ProviderConfig)
  (clients : JsMap.t BaseProviderClient.ProviderClient)
  (cache : ProviderFactory.Cache) :
  forallb (fun c => negb (Types.enabled c)) configs = true ->
  ProviderFactory.createClientsFrom env configs clients cache = (clients, cache).
Proof.
  induction configs as [|c rest IH]; simpl; auto.
  intros H. apply andb_true_iff in H. destruct H as [H1 H2].
  apply negb_true_iff in H1. rewrite H1. auto.
Qed.

(** X14. [createClients] never holds a client for a disabled config:
    every key of the map it returns is the key of an enabled config of
    the list, the map has at most as many entries as there are enabled
    configs, and a list of disabled configs gives the empty map and
    leaves the cache untouched. *)
Theorem createClients_enabled_only :
  forall (env : BaseProviderClient.Env) (configs : list Types.ProviderConfig)
         (cache : ProviderFactory.Cache),
    let r := ProviderFactory.createClients env configs cache in
    (forall k cl,
        JsMap.get k (fst r) = Some cl ->
        exists c, In c configs /\ Types.enabled c = true
                  /\ ProviderFactory.clientsKey c = k)
    /\ JsMap.size (fst r) <= List.length (filter Types.enabled configs)
    /\ (forallb (fun c => negb (Types.enabled c)) configs = true ->
        r = (JsMap.empty, cache)).
Proof.
  intros env configs cache r. unfold r, ProviderFactory.createClients.
  destruct (createClientsFrom_spec env configs JsMap.empty cache) as [H1 H2].
  split.
  - intros k cl Hget. destruct (H1 k cl Hget) as [H|H]; [discriminate|exact H].
  - split; [exact H2|]. apply createClientsFrom_disabled.
Qed.

(** ** Validation and construction *)

(** X15. Validation and construction agree on enabled configs: when
    [validateProviderConfig] reports no error for an enabled config
    (whose auth type, for Claude, is the Claude API key), the adapter's
    constructor accepts it, the client holds that config and its
    provider, and [createClient] resolves whatever the cache holds. *)
Theorem validated_config_constructs :
  forall (env : BaseProviderClient.Env) (c : Types.ProviderConfig),
    ProviderConfigValidation.validateProviderConfig env c = [] ->
    Types.enabled c = true ->
    (Types.provider c = Types.CLAUDE ->
     Types.authType c = Types.CLAUDE_API_KEY) ->
    (exists cl,
        ProviderFactory.construct env c = inr cl
        /\ BaseProviderClient.config cl = c
        /\ BaseProviderClient.clientProvider cl = Types.provider c)
    /\ forall cache : ProviderFactory.Cache,
         exists cl cache',
           ProviderFactory.createClient env c cache = (inr cl, cache').
Proof.
  intros env c Hv He Hauth.
  assert (Hc : exists cl, ProviderFactory.construct env c = inr cl).
  { unfold ProviderFactory.construct, ProviderFactory.constructGemini,
      ClaudeProviderClient.construct, OllamaProviderClient.construct,
      BaseProviderClient.construct.
    rewrite He. cbn [negb].
    destruct (Types.provider c) eqn:Ep; try (eexists; reflexivity).
    unfold ProviderConfigValidation.validateProviderConfig in Hv.
    apply app_eq_nil in Hv. destruct Hv as [_ Hv].
    apply app_eq_nil in Hv. destruct Hv as [Hv _].
    unfold ProviderConfigValidation.providerSpecificErrors in Hv.
    rewrite Ep, (Hauth eq_refl) in Hv.
    apply app_eq_nil in Hv. destruct Hv as [Hv _].
    change (ProviderConfigValidation.authType_eqb Types.CLAUDE_API_KEY
              Types.CLAUDE_API_KEY) with true in Hv.
    unfold ProviderConfigValidation.errorIf in Hv.
    unfold Js.orElse, Js.orDefault.
    destruct (Js.truthy (Types.apiKey c)) eqn:Ek.
    - destruct (Types.apiKey c) as [k|]; [|discriminate]. cbn [Js.truthy] in Ek.
      rewrite Ek. cbn iota. rewrite Ek. cbn [negb]. eexists. reflexivity.
    - destruct (Js.truthy (BaseProviderClient.ENV_ANTHROPIC_API_KEY env)) eqn:Ek2;
        [|discriminate].
      destruct (BaseProviderClient.ENV_ANTHROPIC_API_KEY env) as [k|];
        [|discriminate].
      cbn [Js.truthy] in Ek2. rewrite Ek2. cbn iota. rewrite Ek2. cbn [negb].
      eexists. reflexivity. }
  destruct Hc as [cl Hc]. split.
  - exists cl. split; [exact Hc|].
    destruct (construct_config env c cl Hc) as (H1 & H2 & _). auto.
  - intros cache. unfold ProviderFactory.createClient.
    destruct (JsMap.get (ProviderFactory.createCacheKey c) cache) as [cl0|].
    + exists cl0, cache. reflexivity.
    + rewrite Hc. eexists. eexists. reflexivity.
Qed.

(** X15 at the Claude sample config. *)
Lemma validated_config_constructs_witness :
  ProviderConfigValidation.validateProviderConfig Samples.noEnv
    (Samples.claudeConfig true) = []
  /\ exists cl,
       ProviderFactory.construct Samples.noEnv (Samples.claudeConfig true) = inr cl
       /\ BaseProviderClient.config cl = Samples.claudeConfig true
       /\ BaseProviderClient.clientProvider cl = Types.CLAUDE.
Proof.
  split; [reflexivity|].
  exact (proj1 (validated_config_constructs Samples.noEnv
                  (Samples.claudeConfig true) eq_refl eq_refl (fun _ => eq_refl))).
Defined.

(** ** The token estimate *)

Lemma fold_left_add (A : Type) (f : A -> Z) (l : list A) (a : Z) :
  fold_left (fun acc x => (acc + f x)%Z) l a
  = (a + fold_right (fun x s => (f x + s)%Z) 0%Z l)%Z.
Proof.
  revert a. induction l as [|x l IH]; intros a; simpl; [lia|].
  rewrite IH. lia.
Qed.

Lemma estimateTokens_app (cs1 cs2 : list Types.Content) :
  BaseProviderClient.estimateTokens (cs1 ++ cs2)
  = (BaseProviderClient.estimateTokens cs1
     + BaseProviderClient.estimateTokens cs2)%Z.
Proof.
  unfold BaseProviderClient.estimateTokens.
  rewrite !fold_left_add. rewrite fold_right_app.
  induction cs1 as [|c cs1 IH]; simpl; [lia|]. lia.
Qed.

Lemma ceilDiv4_bounds (n : nat) :
  (Z.of_nat n <= 4 * BaseProviderClient.ceilDiv4 n <= Z.of_nat n + 3)%Z.
Proof.
  unfold BaseProviderClient.ceilDiv4.
  pose proof (Z.div_mod (Z.of_nat n + 3) 4 ltac:(lia)).
  pose proof (Z.mod_pos_bound (Z.of_nat n + 3) 4 ltac:(lia)). lia.
Qed.

Lemma contentTokens_bounds (c : Types.Content) :
  let ls := Specs.textLengths [c] in
  (Z.of_nat (list_sum ls) <= 4 * BaseProviderClient.contentTokens c
   <= Z.of_nat (list_sum ls) + 3 * Z.of_nat (List.length ls))%Z.
Proof.
  unfold Specs.textLengths, BaseProviderClient.contentTokens.
  cbn [flat_map]. rewrite app_nil_r.
  destruct (Types.parts c) as [ps|].
  2:{ cbn [list_sum fold_right List.length Nat.add]. lia. }
  rewrite fold_left_add.
  induction ps as [|p ps IH].
  - cbn [flat_map fold_right list_sum List.length Nat.add]. lia.
  - cbn [flat_map fold_right].
    rewrite list_sum_app, length_app, !Nat2Z.inj_add.
    remember (BaseProviderClient.partTokens p) as t eqn:Ht.
    unfold BaseProviderClient.partTokens in Ht.
    destruct (Types.text p) as [s|].
    2:{ subst t. cbn [list_sum fold_right List.length Nat.add]. lia. }
    destruct (Js.truthyString s).
    2:{ subst t. cbn [list_sum fold_right List.length Nat.add]. lia. }
    subst t. cbn [list_sum fold_right List.length Nat.add].
    pose proof (ceilDiv4_bounds (String.length s)).
    rewrite Nat.add_0_r. lia.
Qed.

Lemma textLengths_app (cs1 cs2 : list Types.Content) :
  Specs.textLengths (cs1 ++ cs2) = Specs.textLengths cs1 ++ Specs.textLengths cs2.
Proof. unfold Specs.textLengths. apply flat_map_app. Qed.

Lemma list_sum_app_Z (l1 l2 : list nat) :
  Z.of_nat (list_sum (l1 ++ l2))
  = (Z.of_nat (list_sum l1) + Z.of_nat (list_sum l2))%Z.
Proof. rewrite list_sum_app. lia. Qed.

(** X16. [BaseProviderClient.estimateTokens] is additive over the turns,
    and it is within a rounding of a quarter of the characters: with n
    non-empty text parts of c characters in total, c <= 4 * estimate <=
    c + 3 * n.  The estimate is zero exactly when no part holds a
    non-empty text, so inline data, function calls and function responses
    count for nothing. *)
Theorem estimateTokens_bounds :
  forall (cs cs' : list Types.Content),
    let ls := Specs.textLengths cs in
    BaseProviderClient.estimateTokens (cs ++ cs')
    = (BaseProviderClient.estimateTokens cs
       + BaseProviderClient.estimateTokens cs')%Z
    /\ (Z.of_nat (list_sum ls) <= 4 * BaseProviderClient.estimateTokens cs)%Z
    /\ (4 * BaseProviderClient.estimateTokens cs
        <= Z.of_nat (list_sum ls) + 3 * Z.of_nat (List.length ls))%Z
    /\ (BaseProviderClient.estimateTokens cs = 0%Z <-> ls = []).
Proof.
  intros cs cs' ls. split; [apply estimateTokens_app|].
  assert (H : (Z.of_nat (list_sum ls) <= 4 * BaseProviderClient.estimateTokens cs
               <= Z.of_nat (list_sum ls) + 3 * Z.of_nat (List.length ls))%Z
              /\ (ls <> [] -> 0 < BaseProviderClient.estimateTokens cs)%Z).
  { unfold ls. clear ls. induction cs as [|c cs IH].
    - cbn. split; [lia|].
      intros H. contradiction.
    - change (c :: cs) with ([c] ++ cs).
      rewrite estimateTokens_app, textLengths_app, list_sum_app_Z, length_app,
        Nat2Z.inj_add.
      pose proof (contentTokens_bounds c) as Hc. cbv zeta in Hc.
      assert (He : BaseProviderClient.estimateTokens [c]
                   = BaseProviderClient.contentTokens c)
        by (unfold BaseProviderClient.estimateTokens; cbn [fold_left]; lia).
      rewrite He. destruct IH as [IH1 IH2]. split; [lia|].
      intros Hne.
      destruct (Specs.textLengths [c]) as [|n l] eqn:E1.
      + cbn [app] in Hne. specialize (IH2 Hne).
        cbn [list_sum fold_right List.length] in Hc. lia.
      + assert (Hn : (0 < Z.of_nat n)%Z).
        { clear - E1. unfold Specs.textLengths in E1. simpl in E1.
          rewrite app_nil_r in E1.
          destruct (Types.parts c) as [ps|]; [|discriminate].
          induction ps as [|p ps IHp]; [discriminate|].
          simpl in E1. destruct (Types.text p) as [s|]; auto.
          destruct s as [|ch s]; simpl in E1; auto.
          inversion E1. simpl. lia. }
        cbn [list_sum fold_right List.length] in Hc. rewrite Nat2Z.inj_add in Hc.
        assert (0 <= BaseProviderClient.estimateTokens cs)%Z by lia.
        assert (0 <= Z.of_nat (list_sum l))%Z by lia. lia. }
  destruct H as [[H1 H2] H3]. split; [exact H1|]. split; [exact H2|].
  split.
  - intros H0. destruct ls; auto. assert (n :: ls <> []) by discriminate.
    specialize (H3 H). lia.
  - intros Hnil. rewrite Hnil in *. cbn [list_sum fold_right List.length] in *. lia.
Qed.

(** ** What trimming keeps *)

Section TrimResult.
Import Types.
Import BaseProviderSession.

Variable countTokens : list Content -> Z.
Variable maxTokens : Z.

Lemma trimLoop_suffix (fuel : nat) (h : list Content) :
  exists n, trimLoop countTokens maxTokens fuel h = skipn n h
            /\ (h <> [] -> trimLoop countTokens maxTokens fuel h <> []).
Proof.
  revert h. induction fuel as [|fuel IH]; intros h.
  - exists 0. simpl. auto.
  - cbn [trimLoop].
    destruct (Nat.ltb 2 (List.length h)) eqn:E1; cbn [andb].
    2:{ exists 0. simpl. auto. }
    destruct (Z.ltb maxTokens (countTokens h)).
    2:{ exists 0. simpl. auto. }
    apply Nat.ltb_lt in E1.
    destruct (IH (trimStep h)) as (n & Hn & Hne).
    assert (Hs : exists k, trimStep h = skipn k h /\ k <= 2).
    { unfold trimStep.
      destruct (roleIs "user" (nth_error h 0) && roleIs "model" (nth_error h 1));
        eexists; split; try reflexivity; lia. }
    destruct Hs as (k & Hk & Hk2).
    exists (n + k). split.
    + rewrite Hn, Hk. apply skipn_skipn.
    + intros _. apply Hne. rewrite Hk. intros Hnil.
      apply (f_equal (@List.length Content)) in Hnil.
      rewrite length_skipn in Hnil. simpl in Hnil. lia.
Qed.

End TrimResult.

(** X17. For every token counter and limit, the result of
    [trimHistoryToTokenLimit] is what is left of the history after
    dropping turns from its front: it is within the limit or has at most
    two turns, it is empty only for an empty history, and its last turn
    is the last turn of the history. *)
Theorem trimHistoryToTokenLimit_keeps_recent :
  forall (countTokens : list Types.Content -> Z) (maxTokens : Z)
         (h : list Types.Content),
    let r := BaseProviderSession.trimHistoryToTokenLimit countTokens maxTokens h in
    (exists dropped, h = dropped ++ r)
    /\ ((countTokens r <= maxTokens)%Z \/ List.length r <= 2)
    /\ (h = [] <-> r = [])
    /\ (forall d, last r d = last h d).
Proof.
  intros countTokens maxTokens h r.
  assert (Hsuf : exists n, r = skipn n h /\ (h <> [] -> r <> [])).
  { unfold r, BaseProviderSession.trimHistoryToTokenLimit.
    destruct (Z.leb (countTokens h) maxTokens).
    - exists 0. simpl. auto.
    - apply trimLoop_suffix. }
  destruct Hsuf as (n & Hn & Hne).
  assert (Hd : h = firstn n h ++ r) by (rewrite Hn; symmetry; apply firstn_skipn).
  split; [exists (firstn n h); exact Hd|].
  split.
  { unfold r, BaseProviderSession.trimHistoryToTokenLimit.
    destruct (Z.leb (countTokens h) maxTokens) eqn:E.
    - left. now apply Z.leb_le.
    - pose proof (trimLoop_exit countTokens maxTokens (List.length h) h
                    ltac:(lia)) as Hex.
      cbv zeta in Hex. tauto. }
  assert (Hiff : h = [] <-> r = []).
  { split.
    - intros Hnil. rewrite Hn, Hnil. now destruct n.
    - intros Hr. destruct h as [|c h']; auto.
      exfalso. apply Hne; [discriminate|exact Hr]. }
  split; [exact Hiff|].
  intros d.
  transitivity (last (firstn n h ++ r) d); [|now rewrite <- Hd].
  rewrite last_app_default.
  destruct r as [|c r'] eqn:Er; [|apply last_cons_default].
  assert (Hh : h = []) by now apply Hiff.
  rewrite Hh. now destruct n.
Qed.

(** ** Retry with backoff: an operation that keeps failing *)

Section RetryExhausts.
Import Types.
Import BaseProviderClient.

Context {T : Type}.
Variable self : AIProvider.
Variable operation : nat -> Outcome T.
Variable random : nat -> Q.
Variable baseDelayMs : Q.

Local Abbreviation sleepAt := (Specs.sleepAt random baseDelayMs).

Lemma handleError_ProviderError (e : JsError) :
  exists msg p code st, handleError self e = ProviderError msg p code st.
Proof.
  destruct e as [msg p code st|msg]; simpl.
  - repeat eexists.
  - repeat match goal with |- context [if ?b then _ else _] => destruct b end;
      repeat eexists.
Qed.

Lemma retryFrom_exhausts (remaining attempt : nat) :
  (forall k, attempt <= k <= attempt + remaining ->
             exists e, operation k = Rejects e /\ isNotRetried e = false) ->
  let r := retryFrom self operation random baseDelayMs remaining attempt in
  calls r = S remaining
  /\ sleeps r = map sleepAt (seq attempt remaining)
  /\ exists e, operation (attempt + remaining) = Rejects e
               /\ result r = inl (handleError self e).
Proof.
  revert attempt. induction remaining as [|remaining IH]; intros attempt H.
  - destruct (H attempt ltac:(lia)) as (e & He & Hn).
    cbn [retryFrom]. rewrite He. cbn. repeat split.
    exists e. rewrite Nat.add_0_r. auto.
  - destruct (H attempt ltac:(lia)) as (e & He & Hn).
    cbn [retryFrom]. rewrite He, Hn.
    destruct (IH (S attempt)) as (H1 & H2 & e' & H3 & H4).
    { intros k Hk. apply H. lia. }
    cbn [calls sleeps result]. rewrite H1, H2. repeat split.
    exists e'. replace (attempt + S remaining) with (S attempt + remaining) by lia.
    auto.
Qed.

Lemma totalSleep_delays (a n : nat) :
  (Specs.totalSleep (map (backoffDelay baseDelayMs) (seq a n))
   == baseDelayMs * inject_Z (2 ^ Z.of_nat a * (2 ^ Z.of_nat n - 1)))%Q.
Proof.
  revert a. induction n as [|n IH]; intros a.
  - cbn [seq map Specs.totalSleep fold_right].
    replace (2 ^ Z.of_nat a * (2 ^ Z.of_nat 0 - 1))%Z with 0%Z
      by (change (2 ^ Z.of_nat 0)%Z with 1%Z; lia).
    change (inject_Z 0) with 0%Q. now rewrite Qmult_0_r.
  - cbn [seq map Specs.totalSleep fold_right].
    fold (Specs.totalSleep (map (backoffDelay baseDelayMs) (seq (S a) n))).
    rewrite IH. unfold backoffDelay.
    rewrite <- Qmult_plus_distr_r. apply Qmult_comp; [reflexivity|].
    rewrite <- inject_Z_plus. apply inject_Z_injective.
    rewrite !Nat2Z.inj_succ, !Z.pow_succ_r by lia. ring.
Qed.

Lemma totalSleep_bounds (l : list nat) :
  (forall k, (0 <= random k)%Q /\ (random k < 1)%Q) ->
  (0 <= baseDelayMs)%Q ->
  (Specs.totalSleep (map (backoffDelay baseDelayMs) l)
   <= Specs.totalSleep (map sleepAt l))%Q
  /\ (Specs.totalSleep (map sleepAt l)
      <= (11 # 10) * Specs.totalSleep (map (backoffDelay baseDelayMs) l))%Q.
Proof.
  intros Hr Hb. induction l as [|k l IH].
  - simpl. split; [apply Qle_refl|]. unfold Qle. simpl. lia.
  - cbn [map Specs.totalSleep fold_right].
    fold (Specs.totalSleep (map sleepAt l)).
    fold (Specs.totalSleep (map (backoffDelay baseDelayMs) l)).
    destruct (sleepAt_bounds random baseDelayMs k) as [H1 H2];
      try apply Hr; auto.
    destruct IH as [I1 I2]. split; lra.
Qed.

End RetryExhausts.

(** X18. When every attempt fails with an error that is retried (any
    error but a provider error of status 401, 403 or 404),
    [retryWithBackoff] calls the operation [maxRetries + 1] times, sleeps
    after each but the last, and throws the last error passed through
    [handleError], which is always a provider error.  The sleeps add up
    to between [baseDelayMs * (2^maxRetries - 1)] and 1.1 times that. *)
Theorem retryWithBackoff_exhausts :
  forall (T : Type) (self : Types.AIProvider)
         (operation : nat -> BaseProviderClient.Outcome T)
         (random : nat -> Q) (maxRetries : nat) (baseDelayMs : Q),
    (forall k, k <= maxRetries ->
               exists e, operation k = BaseProviderClient.Rejects e
                         /\ BaseProviderClient.isNotRetried e = false) ->
    (forall k, (0 <= random k)%Q /\ (random k < 1)%Q) ->
    (0 <= baseDelayMs)%Q ->
    let r := BaseProviderClient.retryWithBackoff self operation random
               maxRetries baseDelayMs in
    BaseProviderClient.calls r = S maxRetries
    /\ BaseProviderClient.sleeps r
       = map (Specs.sleepAt random baseDelayMs) (seq 0 maxRetries)
    /\ (exists e,
           operation maxRetries = BaseProviderClient.Rejects e
           /\ BaseProviderClient.result r
              = inl (BaseProviderClient.handleError self e))
    /\ (exists msg p code st,
           BaseProviderClient.result r = inl (Types.ProviderError msg p code st))
    /\ (baseDelayMs * inject_Z (2 ^ Z.of_nat maxRetries - 1)
        <= Specs.totalSleep (BaseProviderClient.sleeps r))%Q
    /\ (Specs.totalSleep (BaseProviderClient.sleeps r)
        <= (11 # 10) * (baseDelayMs * inject_Z (2 ^ Z.of_nat maxRetries - 1)))%Q.
Proof.
  intros T self operation random maxRetries baseDelayMs Hop Hrnd Hbase r.
  destruct (retryFrom_exhausts self operation random baseDelayMs maxRetries 0)
    as (Hc & Hs & e & He & Hr).
  { intros k Hk. apply Hop. lia. }
  unfold r, BaseProviderClient.retryWithBackoff.
  split; [exact Hc|]. split; [exact Hs|].
  split; [exists e; auto|].
  split.
  { rewrite Hr. destruct (handleError_ProviderError self e)
      as (msg & p & code & st & H).
    rewrite H. repeat eexists. }
  rewrite Hs.
  destruct (totalSleep_bounds random baseDelayMs (seq 0 maxRetries) Hrnd Hbase)
    as [H1 H2].
  pose proof (totalSleep_delays baseDelayMs 0 maxRetries) as Hd.
  replace (2 ^ Z.of_nat 0 * (2 ^ Z.of_nat maxRetries - 1))%Z
    with (2 ^ Z.of_nat maxRetries - 1)%Z in Hd
    by (change (2 ^ Z.of_nat 0)%Z with 1%Z; lia).
  rewrite Hd in H1, H2. split; assumption.
Qed.

(** X18 at the default arguments, for an operation that keeps failing
    with a plain error whose message names the status 401: it is called
    four times, the error thrown is an authentication error, and the
    three sleeps add up to between 7000 and 7700 milliseconds. *)
Lemma retryWithBackoff_exhausts_witness :
  let operation := fun _ : nat =>
    @BaseProviderClient.Rejects string (Types.PlainError "HTTP 401") in
  let r := BaseProviderClient.retryWithBackoff Types.CLAUDE operation
             Samples.halfRandom BaseProviderClient.defaultMaxRetries
             BaseProviderClient.defaultBaseDelayMs in
  BaseProviderClient.calls r = 4
  /\ BaseProviderClient.result r
     = inl (Types.ProviderError "HTTP 401" Types.CLAUDE
              (Some "AUTHENTICATION_ERROR"%string) (Some 401%Z))
  /\ (7000 # 1 <= Specs.totalSleep (BaseProviderClient.sleeps r))%Q
  /\ (Specs.totalSleep (BaseProviderClient.sleeps r) <= 7700 # 1)%Q.
Proof.
  cbv zeta.
  destruct (retryWithBackoff_exhausts string Types.CLAUDE
              (fun _ : nat =>
                 @BaseProviderClient.Rejects string (Types.PlainError "HTTP 401"))
              Samples.halfRandom BaseProviderClient.defaultMaxRetries
              BaseProviderClient.defaultBaseDelayMs)
    as (Hc & _ & _ & _ & Hlo & Hhi).
  - intros k _. eexists. split; reflexivity.
  - intros k. split; [discriminate|reflexivity].
  - discriminate.
  - split; [exact Hc|]. split; [reflexivity|]. split.
    + eapply Qle_trans; [|exact Hlo]. discriminate.
    + eapply Qle_trans; [exact Hhi|]. discriminate.
Defined.

(** ** Requests to the Ollama adapter *)

(** X19. The Ollama adapter checks the requested model against the models
    it has fetched.  With the capabilities the class starts with (an
    empty model list) [generateContent] rejects every request with a
    provider error and sends nothing.  With a fetched model list, the
    request is sent (once, converted by [convertFromUnifiedRequest])
    exactly when it has no [tools] field (an empty array counts as
    tools), its model is in the list and its
    estimated tokens are at most 8192; otherwise nothing is sent. *)
Theorem ollamaGenerateContent_needs_models :
  forall (respond : ProviderRequests.OllamaRequest
                    -> Types.JsError + Types.UnifiedResponse)
         (request : ProviderRequests.UnifiedRequest),
    (let g := ProviderRequests.ollamaGenerateContent
                ProviderRequests.ollamaInitialCapabilities respond request in
     ProviderRequests.sent g = []
     /\ exists msg,
          ProviderRequests.generated g
          = inl (Types.ProviderError msg Types.OLLAMA None None))
    /\ forall models : list string,
         let g := ProviderRequests.ollamaGenerateContent
                    (ProviderRequests.ollamaCapabilities models) respond request in
         (ProviderRequests.sent g
          = [ProviderRequests.ollamaConvertFromUnifiedRequest request]
          <-> ProviderRequests.requestTools request = None
              /\ In (ProviderRequests.requestModel request) models
              /\ (BaseProviderClient.estimateTokens
                    (ProviderRequests.contents request) <= 8192)%Z)
         /\ (ProviderRequests.sent g = []
             \/ ProviderRequests.sent g
                = [ProviderRequests.ollamaConvertFromUnifiedRequest request]).
Proof.
  intros respond request. split.
  - unfold ProviderRequests.ollamaGenerateContent, ProviderRequests.validateRequest,
      ProviderRequests.ollamaInitialCapabilities, ProviderRequests.ollamaCapabilities.
    cbn [ProviderToolRegistry.supportsStreaming ProviderToolRegistry.supportsTools
         ProviderToolRegistry.supportedModels negb andb].
    rewrite andb_false_r, andb_true_r.
    destruct (Js.isSome (ProviderRequests.requestTools request)).
    + split; [reflexivity|]. eexists. reflexivity.
    + cbn [Js.arrayIncludes existsb negb].
      split; [reflexivity|]. eexists. reflexivity.
  - intros models.
    unfold ProviderRequests.ollamaGenerateContent, ProviderRequests.validateRequest,
      ProviderRequests.ollamaCapabilities.
    cbn [ProviderToolRegistry.supportsStreaming ProviderToolRegistry.supportsTools
         ProviderToolRegistry.supportedModels ProviderToolRegistry.supportsImages
         ProviderToolRegistry.maxContextLength negb andb].
    rewrite andb_false_r, andb_true_r.
    destruct (ProviderRequests.requestTools request) as [ts|] eqn:Et;
      cbn [Js.isSome].
    { split; [|now left]. split; [discriminate|].
      intros [H _]. discriminate. }
    destruct (Js.arrayIncludes models (ProviderRequests.requestModel request))
      eqn:Em; cbn [negb].
    2:{ split; [|now left]. split; [discriminate|].
        intros (_ & Hin & _). apply arrayIncludes_In in Hin. congruence. }
    apply arrayIncludes_In in Em.
    destruct (Z.ltb 8192 (BaseProviderClient.estimateTokens
                            (ProviderRequests.contents request))) eqn:El.
    { split; [|now left]. split; [discriminate|].
      intros (_ & _ & Hle). apply Z.ltb_lt in El. lia. }
    apply Z.ltb_ge in El.
    destruct (respond (ProviderRequests.ollamaConvertFromUnifiedRequest request));
      cbn [ProviderRequests.sent]; (split; [|now right]); split; auto.
Qed.

(** ** Requests to the Claude adapter *)

Section ClaudeRequest.
Import Types.
Import ProviderRequests.

Lemma messageOfContent_length (c : Content) :
  List.length (messageOfContent c)
  = (if Specs.isUserTurn c then 1 else 0)
    + (if Specs.isModelTurnWithText c then 1 else 0).
Proof.
  unfold messageOfContent, Specs.isUserTurn, Specs.isModelTurnWithText,
    BaseProviderSession.roleIs.
  destruct (role c) as [r|]; [|reflexivity].
  destruct (String.eqb r "user") eqn:Eu.
  - apply String.eqb_eq in Eu. subst r. reflexivity.
  - destruct (String.eqb r "model"); cbn [andb]; [|reflexivity].
    destruct (parts c) as [ps|]; [|reflexivity].
    destruct (Js.truthyString (joinedText ps)); reflexivity.
Qed.

Lemma converted_length (cs : list Content) :
  List.length (flat_map messageOfContent cs)
  = List.length (filter Specs.isUserTurn cs)
    + List.length (filter Specs.isModelTurnWithText cs).
Proof.
  induction cs as [|c cs IH]; [reflexivity|].
  cbn [flat_map filter]. rewrite length_app, messageOfContent_length, IH.
  destruct (Specs.isUserTurn c); destruct (Specs.isModelTurnWithText c);
    cbn [List.length]; lia.
Qed.

Lemma messageOfContent_assistant (c : Content) (m : ClaudeMessage) :
  In m (messageOfContent c) -> claudeRole m = RoleAssistant ->
  exists t, claudeContent m = ContentString t /\ Js.truthyString t = true.
Proof.
  unfold messageOfContent.
  destruct (role c) as [r|]; [|contradiction].
  destruct (String.eqb r "user").
  - intros [H|[]] Hr. subst m. discriminate.
  - destruct (String.eqb r "model"); [|contradiction].
    destruct (Js.truthyString _) eqn:Et; [|contradiction].
    intros [H|[]] _. subst m. eexists. split; [reflexivity|exact Et].
Qed.

Lemma looksLikeSystemPrompt_spec (m : ClaudeMessage) (s : string) :
  looksLikeSystemPrompt m = Some s ->
  m = {| claudeRole := RoleUser; claudeContent := ContentString s |}
  /\ Js.includes (Js.toLowerCase s) "you are" = true
  /\ Js.truthyString s = true.
Proof.
  unfold looksLikeSystemPrompt. destruct m as [[|] [t|bs]]; cbn; try discriminate.
  destruct (Js.includes (Js.toLowerCase t) "you are") eqn:E; [|discriminate].
  intros H. inversion H. subst. repeat split; auto.
  destruct s; [discriminate|reflexivity].
Qed.

End ClaudeRequest.

(** X20. The Claude request built by [convertFromUnifiedRequest]: the
    messages are the converted turns in order (one message per user turn,
    one per model turn that has text, none for other turns; a user turn
    of one text gives a user message with that text, a model turn of one
    text an assistant message with it unless it is empty).  When the
    first message is a user message whose text contains 'you are' in any
    letter case, that text becomes [system] and the message is taken out
    of the messages; otherwise there is no [system] and every message is
    kept.  An assistant message always holds a non-empty text;
    [max_tokens] is the request's [maxTokens], and 4096 when that is
    missing or zero; model, temperature and top-p are passed on. *)
Theorem claudeConvertFromUnifiedRequest_messages :
  forall request : ProviderRequests.UnifiedRequest,
    let r := ProviderRequests.claudeConvertFromUnifiedRequest request in
    let converted := flat_map ProviderRequests.messageOfContent
                       (ProviderRequests.contents request) in
    let userMessage := fun s =>
      {| ProviderRequests.claudeRole := ProviderRequests.RoleUser;
         ProviderRequests.claudeContent := ProviderRequests.ContentString s |} in
    let assistantMessage := fun s =>
      {| ProviderRequests.claudeRole := ProviderRequests.RoleAssistant;
         ProviderRequests.claudeContent := ProviderRequests.ContentString s |} in
    (forall s rest,
        converted = userMessage s :: rest ->
        Js.includes (Js.toLowerCase s) "you are" = true ->
        ProviderRequests.system r = Some s
        /\ ProviderRequests.messages r = rest)
    /\ ((forall s rest,
            converted = userMessage s :: rest ->
            Js.includes (Js.toLowerCase s) "you are" = false) ->
        ProviderRequests.system r = None
        /\ ProviderRequests.messages r = converted)
    /\ match ProviderRequests.system r with
       | Some s =>
           converted = userMessage s :: ProviderRequests.messages r
           /\ Js.includes (Js.toLowerCase s) "you are" = true
       | None => converted = ProviderRequests.messages r
       end
    /\ (forall t cs,
           ProviderRequests.contents request
           = Types.userTurn [Types.textPart t] :: cs ->
           converted
           = userMessage t :: flat_map ProviderRequests.messageOfContent cs
           /\ (Js.includes (Js.toLowerCase t) "you are" = true ->
               ProviderRequests.system r = Some t
               /\ ProviderRequests.messages r
                  = flat_map ProviderRequests.messageOfContent cs)
           /\ (Js.includes (Js.toLowerCase t) "you are" = false ->
               ProviderRequests.system r = None
               /\ ProviderRequests.messages r = converted))
    /\ (forall t cs,
           ProviderRequests.contents request
           = Types.modelTurn [Types.textPart t] :: cs ->
           converted
           = (if Js.truthyString t then [assistantMessage t] else [])
             ++ flat_map ProviderRequests.messageOfContent cs)
    /\ List.length converted
       = List.length (filter Specs.isUserTurn (ProviderRequests.contents request))
         + List.length (filter Specs.isModelTurnWithText
                          (ProviderRequests.contents request))
    /\ (forall m,
           In m (ProviderRequests.messages r) ->
           ProviderRequests.claudeRole m = ProviderRequests.RoleAssistant ->
           exists t,
             ProviderRequests.claudeContent m = ProviderRequests.ContentString t
             /\ Js.truthyString t = true)
    /\ (ProviderRequests.requestMaxTokens request = None ->
        ProviderRequests.max_tokens r = 4096%Z)
    /\ (ProviderRequests.requestMaxTokens request = Some 0%Z ->
        ProviderRequests.max_tokens r = 4096%Z)
    /\ (forall n,
           ProviderRequests.requestMaxTokens request = Some n -> n <> 0%Z ->
           ProviderRequests.max_tokens r = n)
    /\ ProviderRequests.claudeModel r = ProviderRequests.requestModel request
    /\ ProviderRequests.claudeTemperature r
       = ProviderRequests.requestTemperature request
    /\ ProviderRequests.top_p r = ProviderRequests.requestTopP request.
Proof.
  intros request r converted userMessage assistantMessage.
  assert (Hassist : forall m, In m converted ->
             ProviderRequests.claudeRole m = ProviderRequests.RoleAssistant ->
             exists t,
               ProviderRequests.claudeContent m = ProviderRequests.ContentString t
               /\ Js.truthyString t = true).
  { intros m Hin Hr. unfold converted in Hin. apply in_flat_map in Hin.
    destruct Hin as (c & _ & Hin). now apply (messageOfContent_assistant c). }
  assert (Hyes : forall s rest,
             converted = userMessage s :: rest ->
             Js.includes (Js.toLowerCase s) "you are" = true ->
             ProviderRequests.system r = Some s
             /\ ProviderRequests.messages r = rest).
  { intros s rest Hc Hi.
    unfold r, ProviderRequests.claudeConvertFromUnifiedRequest.
    fold converted. rewrite Hc.
    cbn [ProviderRequests.system ProviderRequests.messages].
    unfold ProviderRequests.looksLikeSystemPrompt, userMessage.
    cbn [ProviderRequests.claudeRole ProviderRequests.claudeContent].
    rewrite Hi. cbn [fst snd].
    destruct s as [|c s]; [discriminate Hi|]. split; reflexivity. }
  assert (Hno : (forall s rest,
                    converted = userMessage s :: rest ->
                    Js.includes (Js.toLowerCase s) "you are" = false) ->
                ProviderRequests.system r = None
                /\ ProviderRequests.messages r = converted).
  { intros Hnone.
    unfold r, ProviderRequests.claudeConvertFromUnifiedRequest.
    fold converted.
    cbn [ProviderRequests.system ProviderRequests.messages].
    destruct converted as [|first rest] eqn:Ec; cbn [fst snd];
      [split; reflexivity|].
    destruct (ProviderRequests.looksLikeSystemPrompt first) as [s|] eqn:El;
      cbn [fst snd]; [|split; reflexivity].
    destruct (looksLikeSystemPrompt_spec first s El) as (Hf & Hi & _).
    rewrite (Hnone s rest) in Hi; [discriminate|]. now rewrite Hf. }
  assert (Huser : forall t cs,
             ProviderRequests.contents request
             = Types.userTurn [Types.textPart t] :: cs ->
             converted
             = userMessage t :: flat_map ProviderRequests.messageOfContent cs).
  { intros t cs Hc. unfold converted. rewrite Hc. reflexivity. }
  split; [exact Hyes|]. split; [exact Hno|]. split.
  { unfold r, ProviderRequests.claudeConvertFromUnifiedRequest.
    fold converted.
    cbn [ProviderRequests.system ProviderRequests.messages].
    destruct converted as [|first rest] eqn:Ec; cbn [fst snd]; [reflexivity|].
    destruct (ProviderRequests.looksLikeSystemPrompt first) as [s|] eqn:El;
      cbn [fst snd]; [|reflexivity].
    destruct (looksLikeSystemPrompt_spec first s El) as (Hf & Hi & Ht).
    rewrite Ht. split; [now rewrite Hf|exact Hi]. }
  split.
  { intros t cs Hc. pose proof (Huser t cs Hc) as Hu.
    split; [exact Hu|]. split.
    - intros Hi. now apply Hyes.
    - intros Hi. apply Hno. intros s rest Hs.
      rewrite Hu in Hs. inversion Hs. now subst. }
  split.
  { intros t cs Hc. unfold converted. rewrite Hc. cbn [flat_map].
    unfold ProviderRequests.messageOfContent at 1.
    cbn. unfold ProviderRequests.joinedText. cbn.
    destruct (Js.truthyString t); reflexivity. }
  split; [apply converted_length|]. split.
  { intros m Hin. apply Hassist.
    unfold r, ProviderRequests.claudeConvertFromUnifiedRequest in Hin.
    fold converted in Hin. cbn [ProviderRequests.messages] in Hin.
    destruct converted as [|first rest]; cbn [fst snd] in Hin; auto.
    destruct (ProviderRequests.looksLikeSystemPrompt first); cbn [fst snd] in Hin;
      auto. now right. }
  unfold r, ProviderRequests.claudeConvertFromUnifiedRequest.
  cbn [ProviderRequests.max_tokens ProviderRequests.claudeModel
       ProviderRequests.claudeTemperature ProviderRequests.top_p].
  split; [intros H; now rewrite H|].
  split; [intros H; now rewrite H|].
  split; [|repeat split].
  intros n H Hn. rewrite H. apply Z.eqb_neq in Hn. now rewrite Hn.
Qed.

(** ** The chat sessions: streaming and the history *)

Lemma last_cons_last {A : Type} (l : list A) (a d : A) :
  last (a :: l) d = last l a.
Proof.
  revert a d. induction l as [|b l IH]; intros a d; [reflexivity|].
  change (last (b :: l) d = last (b :: l) a). rewrite !IH. reflexivity.
Qed.

Section OllamaChat.
Import Types.
Import BaseChatSession.
Import OllamaChatSession.

Lemma ollama_wrap_locals (stream : list OllamaResponse) (st : WrapLocals) :
  let st' := fold_left wrapOnResponse stream st in
  fullContent st'
  = String.append (fullContent st) (Js.joined (map messageContent stream))
  /\ lastResponse st'
     = match stream with
       | [] => lastResponse st
       | r :: rs => Some (last rs r)
       end.
Proof.
  revert st. induction stream as [|r rs IH]; intros st.
  - simpl. split; [now rewrite append_empty_r|reflexivity].
  - cbn [fold_left map].
    destruct (IH (wrapOnResponse st r)) as [H1 H2]. split.
    + rewrite H1. cbn [wrapOnResponse fullContent].
      unfold Js.joined. cbn [fold_right]. apply append_assoc.
    + rewrite H2. destruct rs as [|r' rs']; [reflexivity|].
      now rewrite last_cons_last.
Qed.

End OllamaChat.

(** X21. A streamed message of the Ollama chat session: every response of
    the stream is yielded converted while the history is still unchanged.
    When the stream completes after at least one response, the history
    gains the user turn and one model turn holding the concatenation of
    the content of all responses, and the message count grows by one; an
    empty stream changes neither history nor statistics.  When the stream
    throws, the wrapped error is thrown, the history is unchanged (the
    user turn is not kept), and only the error count grows. *)
Theorem OllamaChatSession_stream_history :
  forall (message : BaseChatSession.ChatMessage) (responseTime : Q)
         (stream : list OllamaChatSession.OllamaResponse)
         (ending : BaseChatSession.ChatStreamEnd)
         (h : list Types.Content) (stats : BaseChatSession.ChatSessionStats),
    let run := OllamaChatSession.wrapStreamResponse message responseTime stream
                 ending h stats in
    BaseChatSession.chatYielded run
    = map (fun r => (OllamaChatSession.convertToGeminiResponse r, h)) stream
    /\ match ending with
       | BaseChatSession.StreamCompletes =>
           BaseChatSession.chatThrown run = None
           /\ BaseChatSession.errorCount (BaseChatSession.chatStats run)
              = BaseChatSession.errorCount stats
           /\ match stream with
              | [] => BaseChatSession.chatHistory run = h
                      /\ BaseChatSession.chatStats run = stats
              | _ :: _ =>
                  BaseChatSession.chatHistory run
                  = h ++ [Types.userTurn
                            (BaseChatSession.convertMessageToParts message);
                          Types.modelTurn
                            [Types.textPart
                               (Js.joined
                                  (map OllamaChatSession.messageContent stream))]]
                  /\ BaseChatSession.messageCount (BaseChatSession.chatStats run)
                     = (BaseChatSession.messageCount stats + 1)%Z
              end
       | BaseChatSession.StreamThrows e =>
           BaseChatSession.chatThrown run
           = Some (OllamaChatSession.wrapOllamaError e)
           /\ BaseChatSession.chatHistory run = h
           /\ BaseChatSession.errorCount (BaseChatSession.chatStats run)
              = (BaseChatSession.errorCount stats + 1)%Z
           /\ BaseChatSession.messageCount (BaseChatSession.chatStats run)
              = BaseChatSession.messageCount stats
       end.
Proof.
  intros message responseTime stream ending h stats run.
  unfold run, OllamaChatSession.wrapStreamResponse.
  destruct (ollama_wrap_locals stream
              {| OllamaChatSession.chunks := [];
                 OllamaChatSession.fullContent := EmptyString;
                 OllamaChatSession.lastResponse := None |}) as [Hfull Hlast].
  cbv zeta in Hfull, Hlast. cbn [OllamaChatSession.fullContent
    OllamaChatSession.lastResponse String.append] in Hfull, Hlast.
  destruct ending as [|e].
  - rewrite Hlast. destruct stream as [|r rs].
    + repeat split.
    + rewrite Hfull. cbn [BaseChatSession.chatYielded BaseChatSession.chatThrown
        BaseChatSession.chatStats BaseChatSession.chatHistory].
      split; [reflexivity|]. split; [reflexivity|]. split; [reflexivity|].
      split; [|reflexivity].
      unfold OllamaChatSession.updateHistoryFromResponse, BaseChatSession.addHistory.
      cbn [OllamaChatSession.messageContent]. now rewrite <- app_assoc.
  - repeat split.
Qed.

Section OllamaLines.
Import OllamaChatSession.

Variable parse : string -> option OllamaResponse.

Local Abbreviation parsed :=
  (flat_map (fun line => match parse line with
                         | Some r => [r]
                         | None => []
                         end)).

Lemma onLines_untilDone (lines : list string) :
  onLines parse lines
  = (Specs.untilDone (parsed lines), existsb done (parsed lines)).
Proof.
  induction lines as [|l ls IH]; cbn [onLines flat_map]; [reflexivity|].
  destruct (parse l) as [p|]; cbn [app]; [|exact IH].
  cbn [Specs.untilDone existsb].
  destruct (done p); [reflexivity|]. rewrite IH. reflexivity.
Qed.

Lemma untilDone_app (a b : list OllamaResponse) :
  Specs.untilDone (a ++ b)
  = if existsb done a then Specs.untilDone a else a ++ Specs.untilDone b.
Proof.
  induction a as [|x a IH]; cbn [app Specs.untilDone existsb]; [reflexivity|].
  destruct (done x); cbn [orb]; [reflexivity|].
  rewrite IH. destruct (existsb done a); reflexivity.
Qed.

Lemma untilDone_none (a : list OllamaResponse) :
  existsb done a = false -> Specs.untilDone a = a.
Proof.
  induction a as [|x a IH]; cbn [Specs.untilDone existsb]; [reflexivity|].
  destruct (done x); cbn [orb]; [discriminate|].
  intros H. now rewrite IH.
Qed.

Lemma makeOllamaStreamRequest_untilDone (reads : list string) :
  makeOllamaStreamRequest parse reads
  = Specs.untilDone (Specs.parsedLines parse reads).
Proof.
  induction reads as [|chunk rest IH];
    cbn [makeOllamaStreamRequest Specs.parsedLines flat_map]; [reflexivity|].
  rewrite onLines_untilDone, untilDone_app.
  fold (Specs.parsedLines parse rest).
  destruct (existsb done _) eqn:E; [reflexivity|].
  rewrite IH, (untilDone_none _ E). reflexivity.
Qed.

Lemma untilDone_done (rs : list OllamaResponse) :
  Forall (fun r => done r = false) (removelast (Specs.untilDone rs)).
Proof.
  induction rs as [|r rs IH]; cbn [Specs.untilDone]; [constructor|].
  destruct (done r) eqn:E; [constructor|].
  destruct (Specs.untilDone rs) as [|y ys] eqn:Eu; [constructor|].
  change (removelast (r :: y :: ys)) with (r :: removelast (y :: ys)).
  constructor; auto.
Qed.

Lemma untilDone_prefix (rs : list OllamaResponse) :
  exists rest, rs = Specs.untilDone rs ++ rest.
Proof.
  induction rs as [|r rs [rest IH]]; cbn [Specs.untilDone]; [now exists []|].
  destruct (done r).
  - exists rs. reflexivity.
  - exists rest. cbn [app]. now rewrite <- IH.
Qed.

End OllamaLines.

(** X22. The line reader of the Ollama chat session splits every read into
    lines on its own and yields what the non-blank lines parse to, in
    order, up to and including the first response with [done: true]:
    nothing is yielded after it, so every yielded response but the last
    has [done] false; and when no line carries [done: true], every parsed
    line of every read is yielded. *)
Theorem makeOllamaStreamRequest_stops_at_done :
  forall (parse : string -> option OllamaChatSession.OllamaResponse)
         (reads : list string),
    let yielded := OllamaChatSession.makeOllamaStreamRequest parse reads in
    yielded = Specs.untilDone (Specs.parsedLines parse reads)
    /\ (exists rest, Specs.parsedLines parse reads = yielded ++ rest)
    /\ Forall (fun r => OllamaChatSession.done r = false) (removelast yielded)
    /\ (existsb OllamaChatSession.done (Specs.parsedLines parse reads) = false ->
        yielded = Specs.parsedLines parse reads).
Proof.
  intros parse reads yielded. subst yielded.
  rewrite makeOllamaStreamRequest_untilDone. split; [reflexivity|].
  split; [apply untilDone_prefix|].
  split; [apply untilDone_done|].
  apply untilDone_none.
Qed.

Lemma claude_wrap_locals (stream : list ClaudeChatSession.StreamedResponse)
  (st : ClaudeChatSession.WrapLocals) :
  ClaudeChatSession.fullResponse
    (fold_left ClaudeChatSession.wrapOnResponse stream st)
  = match stream with
    | [] => ClaudeChatSession.fullResponse st
    | r :: rs => Some (last rs r)
    end.
Proof.
  revert st. induction stream as [|r rs IH]; intros st; [reflexivity|].
  cbn [fold_left]. rewrite IH. destruct rs as [|r' rs']; [reflexivity|].
  now rewrite last_cons_last.
Qed.

(** X23. A streamed message of the Claude chat session: every response of
    the stream is yielded converted while the history is still unchanged.
    When the stream completes after at least one response, the history
    gains the user turn and one model turn holding the text of the LAST
    response only (the earlier deltas are not kept), the message count
    grows by one and the token total is unchanged; an empty stream
    changes neither history nor statistics.  When the stream throws, the
    wrapped error is thrown, the history is unchanged, and only the error
    count grows. *)
Theorem ClaudeChatSession_stream_history :
  forall (message : BaseChatSession.ChatMessage) (responseTime : Q)
         (stream : list ClaudeChatSession.StreamedResponse)
         (ending : BaseChatSession.ChatStreamEnd)
         (h : list Types.Content) (stats : BaseChatSession.ChatSessionStats),
    let run := ClaudeChatSession.wrapStreamResponse message responseTime stream
                 ending h stats in
    BaseChatSession.chatYielded run
    = map (fun r => (ClaudeChatSession.convertToGeminiResponse r, h)) stream
    /\ match ending with
       | BaseChatSession.StreamCompletes =>
           BaseChatSession.chatThrown run = None
           /\ BaseChatSession.errorCount (BaseChatSession.chatStats run)
              = BaseChatSession.errorCount stats
           /\ match stream with
              | [] => BaseChatSession.chatHistory run = h
                      /\ BaseChatSession.chatStats run = stats
              | r :: rs =>
                  BaseChatSession.chatHistory run
                  = h ++ [Types.userTurn
                            (BaseChatSession.convertMessageToParts message);
                          Types.modelTurn
                            [Types.textPart
                               (ClaudeChatSession.respText (last rs r))]]
                  /\ BaseChatSession.messageCount (BaseChatSession.chatStats run)
                     = (BaseChatSession.messageCount stats + 1)%Z
                  /\ BaseChatSession.tokenTotal (BaseChatSession.chatStats run)
                     = BaseChatSession.tokenTotal stats
              end
       | BaseChatSession.StreamThrows e =>
           BaseChatSession.chatThrown run
           = Some (ClaudeChatSession.wrapClaudeError e)
           /\ BaseChatSession.chatHistory run = h
           /\ BaseChatSession.errorCount (BaseChatSession.chatStats run)
              = (BaseChatSession.errorCount stats + 1)%Z
           /\ BaseChatSession.messageCount (BaseChatSession.chatStats run)
              = BaseChatSession.messageCount stats
       end.
Proof.
  intros message responseTime stream ending h stats run.
  unfold run, ClaudeChatSession.wrapStreamResponse.
  rewrite claude_wrap_locals. cbn [ClaudeChatSession.fullResponse].
  destruct ending as [|e].
  - destruct stream as [|r rs].
    + repeat split.
    + cbn [BaseChatSession.chatYielded BaseChatSession.chatThrown
        BaseChatSession.chatStats BaseChatSession.chatHistory].
      split; [reflexivity|]. split; [reflexivity|]. split; [reflexivity|].
      split; [|split; [reflexivity|]].
      * unfold ClaudeChatSession.updateHistoryFromResponse,
          BaseChatSession.addHistory. now rewrite <- app_assoc.
      * unfold BaseChatSession.updateStats. cbn [BaseChatSession.tokenTotal]. lia.
  - repeat split.
Qed.

(** ** The final usage metadata *)

(** X24. [getFinalUsageMetadata] returns the usage metadata of the last
    chunk that carries one: no chunk after it has usage metadata; and it
    returns nothing only when no chunk has. *)
Theorem getFinalUsageMetadata_last :
  forall chunks : list BaseChatSession.GenerateContentResponse,
    match BaseChatSession.getFinalUsageMetadata chunks with
    | Some u =>
        exists before c after,
          chunks = before ++ c :: after
          /\ BaseChatSession.responseUsage c = Some u
          /\ Forall (fun x => BaseChatSession.responseUsage x = None) after
    | None => Forall (fun x => BaseChatSession.responseUsage x = None) chunks
    end.
Proof.
  intros chunks. unfold BaseChatSession.getFinalUsageMetadata.
  induction chunks as [|x l IH] using rev_ind.
  - constructor.
  - rewrite rev_app_distr. cbn [rev app find].
    destruct (BaseChatSession.responseUsage x) as [u|] eqn:Ex; cbn [Js.isSome].
    + rewrite Ex. exists l, x, []. auto.
    + destruct (find (fun chunk => Js.isSome (BaseChatSession.responseUsage chunk))
                  (rev l)) as [c|] eqn:Ef.
      * destruct (BaseChatSession.responseUsage c) as [u|] eqn:Ec.
        -- destruct IH as (before & c' & after & Hl & Hc & Ha).
           exists before, c', (after ++ [x]). split.
           ++ rewrite Hl, <- app_assoc. reflexivity.
           ++ split; auto. apply Forall_app. auto.
        -- apply Forall_app. auto.
      * apply Forall_app. auto.
Qed.

(** ** The tool manager *)

Section ToolManagerRegistry.
Import Types.
Import ProviderToolRegistry.
Import ToolManager.

Lemma registryComplete_empty : Specs.registryComplete emptyRegistry.
Proof. intros tn cfg H. discriminate. Qed.

Lemma registryComplete_registerTool (tool : Tool) (cfg : ToolSettings)
  (r : Registry) :
  Specs.registryComplete r -> Specs.registryComplete (registerTool tool cfg r).
Proof.
  intros Hc tn c H. cbn [registerTool toolConfigs globalTools] in *.
  destruct (String.eqb (getToolName tool) tn) eqn:E.
  - apply String.eqb_eq in E. subst tn. exists tool.
    apply JsMap_get_set_same.
  - apply String.eqb_neq in E.
    rewrite JsMap_get_set_other in H by exact E.
    rewrite JsMap_get_set_other by exact E. now apply (Hc tn c).
Qed.

Lemma registerDefaultTools_ok (r : Registry) :
  Specs.registryOk r /\ Specs.registryComplete r ->
  Specs.registryOk (registerDefaultTools r)
  /\ Specs.registryComplete (registerDefaultTools r).
Proof.
  intros H. unfold registerDefaultTools, registerDefaultTool.
  cbn [fold_left].
  repeat (first [ apply registryOk_registerTool
                | apply registryComplete_registerTool
                | split ]); apply H.
Qed.

Lemma run_registry (ops : list Op) :
  Specs.registryOk (toolRegistry (run ops))
  /\ Specs.registryComplete (toolRegistry (run ops)).
Proof.
  unfold run.
  assert (H : forall tm,
             Specs.registryOk (toolRegistry tm)
             /\ Specs.registryComplete (toolRegistry tm) ->
             Specs.registryOk (toolRegistry (fold_left step ops tm))
             /\ Specs.registryComplete (toolRegistry (fold_left step ops tm))).
  { induction ops as [|op ops IH]; intros tm Htm; cbn [fold_left]; auto.
    apply IH. destruct op; cbn [step setAgentTools removeAgentTools
                                 registerCustomTool toolRegistry]; auto.
    destruct Htm as [Ho Hc]. split.
    - now apply registryOk_registerTool.
    - now apply registryComplete_registerTool. }
  apply H. cbn [newToolManager toolRegistry].
  apply registerDefaultTools_ok. split.
  - apply registryOk_empty.
  - apply registryComplete_empty.
Qed.

(** Every entry that passes the checks of [toolsFrom] and has a stored
    tool contributes a tool of its name. *)
Lemma toolsFrom_complete (globals : JsMap.t Tool) (p : AIProvider)
  (caps : ProviderCapabilities) (req : option (list string))
  (entries : list (string * ProviderToolConfig)) (tools : list Tool) :
  (forall k t, JsMap.get k globals = Some t -> getToolName t = k) ->
  toolsFrom globals p caps req entries = Some tools ->
  forall tn cfg tool,
    In (tn, cfg) entries ->
    providerIncluded (supportedProviders cfg) p = true ->
    lacksRequired cfg caps = false ->
    match req with
    | Some names => Js.arrayIncludes names tn = true
    | None => True
    end ->
    JsMap.get tn globals = Some tool ->
    exists t, In t tools /\ getToolName t = tn.
Proof.
  intros Hnames. revert tools.
  induction entries as [|[tn0 cfg0] rest IH];
    intros tools H tn cfg tool Hin Hp Hl Hr Hg; [contradiction|].
  cbn [toolsFrom] in H.
  destruct Hin as [Heq|Hin].
  - inversion Heq. subst tn0 cfg0. rewrite Hp, Hl in H.
    assert (Er : match req with
                 | Some req0 => negb (Js.arrayIncludes req0 tn)
                 | None => false
                 end = false).
    { destruct req as [names|]; [now rewrite Hr|reflexivity]. }
    rewrite Er in H. cbn [negb orb] in H. rewrite Hg in H.
    destruct (match match providerSpecificConfig cfg with
                    | Some f => f p
                    | None => None
                    end with
              | Some sc => applyProviderConfig tool sc
              | None => Some tool
              end) as [t0|] eqn:Ea; [|discriminate].
    destruct (toolsFrom globals p caps req rest) as [ts|]; [|discriminate].
    inversion H. subst tools. exists t0. split; [now left|].
    destruct (match providerSpecificConfig cfg with
              | Some f => f p
              | None => None
              end) as [sc|].
    + apply applyProviderConfig_name in Ea. rewrite Ea. now apply Hnames.
    + inversion Ea. subst. now apply Hnames.
  - destruct (negb (providerIncluded (supportedProviders cfg0) p)
              || lacksRequired cfg0 caps
              || match req with
                 | Some req0 => negb (Js.arrayIncludes req0 tn0)
                 | None => false
                 end).
    { now apply (IH tools H tn cfg tool). }
    destruct (JsMap.get tn0 globals) as [tool0|].
    2:{ now apply (IH tools H tn cfg tool). }
    destruct (match match providerSpecificConfig cfg0 with
                    | Some f => f p
                    | None => None
                    end with
              | Some sc => applyProviderConfig tool0 sc
              | None => Some tool0
              end) as [t0|]; [|discriminate].
    destruct (toolsFrom globals p caps req rest) as [ts|] eqn:Et; [|discriminate].
    inversion H. subst tools.
    destruct (IH ts eq_refl tn cfg tool Hin Hp Hl Hr Hg) as [t [Ht Hn]].
    exists t. split; [now right|exact Hn].
Qed.

(** Every tool [toolsFrom] returns for a list of requested names has one
    of these names. *)
Lemma toolsFrom_requested (globals : JsMap.t Tool) (p : AIProvider)
  (caps : ProviderCapabilities) (names : list string)
  (entries : list (string * ProviderToolConfig)) (tools : list Tool) :
  (forall k t, JsMap.get k globals = Some t -> getToolName t = k) ->
  toolsFrom globals p caps (Some names) entries = Some tools ->
  forall t, In t tools -> Js.arrayIncludes names (getToolName t) = true.
Proof.
  intros Hnames. revert tools.
  induction entries as [|[tn cfg] rest IH]; intros tools H t Hin.
  - cbn in H. inversion H. subst. contradiction.
  - cbn [toolsFrom] in H.
    destruct (negb (providerIncluded (supportedProviders cfg) p)
              || lacksRequired cfg caps); cbn [orb] in H.
    { now apply (IH tools). }
    destruct (Js.arrayIncludes names tn) eqn:Ei; cbn [negb] in H.
    2:{ now apply (IH tools). }
    destruct (JsMap.get tn globals) as [tool|] eqn:Eg.
    2:{ now apply (IH tools). }
    destruct (match match providerSpecificConfig cfg with
                    | Some f => f p
                    | None => None
                    end with
              | Some sc => applyProviderConfig tool sc
              | None => Some tool
              end) as [t0|] eqn:Ea; [|discriminate].
    destruct (toolsFrom globals p caps (Some names) rest) as [ts|];
      [|discriminate].
    inversion H. subst tools. destruct Hin as [Heq|Hin].
    + subst t0.
      assert (Hn : getToolName t = tn).
      { destruct (match providerSpecificConfig cfg with
                  | Some f => f p
                  | None => None
                  end) as [sc|].
        - apply applyProviderConfig_name in Ea. rewrite Ea. now apply Hnames.
        - inversion Ea. subst. now apply Hnames. }
      now rewrite Hn.
    + now apply (IH ts).
Qed.

(** The tools [getToolsForProvider] returns from a well-formed registry,
    by their names. *)
Lemma getToolsForProvider_names (r : Registry) (p : AIProvider)
  (caps : ProviderCapabilities) (req : option (list string))
  (tools : list Tool) :
  Specs.registryOk r -> Specs.registryComplete r ->
  getToolsForProvider r p caps req = Some tools ->
  forall tn,
    (exists t, In t tools /\ getToolName t = tn)
    <-> isToolSupported r tn p caps = true
        /\ match req with
           | Some names => In tn names
           | None => True
           end.
Proof.
  intros [Hnd Hnames] Hc H tn. unfold getToolsForProvider in H. split.
  - intros [t [Hin Hn]]. subst tn.
    destruct (toolsFrom_sound _ _ _ _ _ _ Hnames H t Hin)
      as (cfg & Hcfg & Hp & Hl).
    apply (JsMap_In_get _ _ _ Hnd) in Hcfg. split.
    + rewrite (isToolSupported_spec r _ cfg p caps Hcfg), Hp, Hl. reflexivity.
    + destruct req as [names|]; [|exact I].
      apply arrayIncludes_In.
      now apply (toolsFrom_requested _ _ _ _ _ _ Hnames H).
  - intros [Hs Hr]. unfold isToolSupported in Hs.
    destruct (JsMap.get tn (toolConfigs r)) as [cfg|] eqn:Eg; [|discriminate].
    destruct (providerIncluded (supportedProviders cfg) p) eqn:Ep;
      [|discriminate].
    destruct (lacksRequired cfg caps) eqn:El; [discriminate|].
    destruct (Hc tn cfg Eg) as [tool Ht].
    apply (toolsFrom_complete _ _ _ _ _ _ Hnames H tn cfg tool); auto.
    + now apply JsMap_get_In.
    + destruct req as [names|]; [|exact I]. now apply arrayIncludes_In.
Qed.

End ToolManagerRegistry.

(** X25. After every sequence of tool-manager calls, a [getAgentTools]
    that returns gives, for an agent with a non-empty list of tool names,
    a tool for exactly the listed names that [isToolSupported] accepts,
    and reports as unsupported exactly the listed names it does not
    accept, in the order of the list (an unknown name is among them).
    For an agent without a list, or with an empty one, it gives a tool
    for exactly the names [isToolSupported] accepts and reports nothing. *)
Theorem getAgentTools_covers_requested :
  forall (ops : list ToolManager.Op) (agentId : string) (p : Types.AIProvider)
         (caps : ProviderToolRegistry.ProviderCapabilities)
         (tools : list ProviderToolRegistry.Tool) (unsupported : list string),
    let tm := ToolManager.run ops in
    let supported := fun tn =>
      ProviderToolRegistry.isToolSupported (ToolManager.toolRegistry tm) tn p caps in
    ToolManager.getAgentTools tm agentId p caps = Some (tools, unsupported) ->
    match JsMap.get agentId (ToolManager.agentToolMappings tm) with
    | Some ((_ :: _) as names) =>
        unsupported = filter (fun tn => negb (supported tn)) names
        /\ forall tn,
             (exists t, In t tools /\ ProviderToolRegistry.getToolName t = tn)
             <-> In tn names /\ supported tn = true
    | _ =>
        unsupported = []
        /\ forall tn,
             (exists t, In t tools /\ ProviderToolRegistry.getToolName t = tn)
             <-> supported tn = true
    end.
Proof.
  intros ops agentId p caps tools unsupported tm supported H.
  destruct (run_registry ops) as [Hok Hc]. fold tm in Hok, Hc.
  unfold ToolManager.getAgentTools in H.
  destruct (JsMap.get agentId (ToolManager.agentToolMappings tm))
    as [[|n names]|].
  - destruct (ProviderToolRegistry.getToolsForProvider _ p caps None)
      as [ts|] eqn:E; [|discriminate].
    inversion H. subst ts unsupported. split; [reflexivity|]. intros tn.
    rewrite (getToolsForProvider_names _ _ _ _ _ Hok Hc E tn). tauto.
  - destruct (ProviderToolRegistry.getToolsForProvider _ p caps (Some (n :: names)))
      as [ts|] eqn:E; [|discriminate].
    inversion H. subst ts unsupported. split; [reflexivity|]. intros tn.
    rewrite (getToolsForProvider_names _ _ _ _ _ Hok Hc E tn). tauto.
  - destruct (ProviderToolRegistry.getToolsForProvider _ p caps None)
      as [ts|] eqn:E; [|discriminate].
    inversion H. subst ts unsupported. split; [reflexivity|]. intros tn.
    rewrite (getToolsForProvider_names _ _ _ _ _ Hok Hc E tn). tauto.
Qed.

(** X25 at a new tool manager on which agent "a" was given three tool
    names, for the Ollama provider: the file tool is returned, the MCP
    tool (Gemini only) and the unknown name are reported. *)
Lemma getAgentTools_covers_requested_witness :
  let ops := [ToolManager.OpSetAgentTools "a"
                ["read_file"; "mcp_tool"; "nope"]]%string in
  let caps := ToolManager.getProviderCapabilities Types.OLLAMA in
  let tools := [ProviderToolRegistry.defaultTool "read_file"] in
  let unsupported := ["mcp_tool"; "nope"]%string in
  ToolManager.getAgentTools (ToolManager.run ops) "a" Types.OLLAMA caps
  = Some (tools, unsupported)
  /\ forall tn,
       (exists t, In t tools /\ ProviderToolRegistry.getToolName t = tn)
       <-> In tn ["read_file"; "mcp_tool"; "nope"]%string
           /\ ProviderToolRegistry.isToolSupported
                (ToolManager.toolRegistry (ToolManager.run ops)) tn
                Types.OLLAMA caps = true.
Proof.
  cbv zeta. split; [reflexivity|].
  exact (proj2 (getAgentTools_covers_requested
                  [ToolManager.OpSetAgentTools "a"
                     ["read_file"; "mcp_tool"; "nope"]]%string
                  "a"%string Types.OLLAMA
                  (ToolManager.getProviderCapabilities Types.OLLAMA)
                  [ProviderToolRegistry.defaultTool "read_file"]
                  ["mcp_tool"; "nope"]%string eq_refl)).
Defined.

Section DefaultTools.
Import Types.
Import ProviderToolRegistry.
Import ToolManager.

Lemma defaultTools_assumed (tn : string) (cfg : ProviderToolConfig) :
  JsMap.get tn (toolConfigs (registerDefaultTools emptyRegistry)) = Some cfg ->
  Specs.capabilityAssumed cfg = true.
Proof.
  intros H. apply JsMap_get_In in H.
  assert (Hall : forallb (fun kv => Specs.capabilityAssumed (snd kv))
                   (toolConfigs (registerDefaultTools emptyRegistry)) = true)
    by (vm_compute; reflexivity).
  rewrite forallb_forall in Hall. exact (Hall _ H).
Qed.

Lemma capabilityAssumed_spec (cfg : ProviderToolConfig) (p : AIProvider) :
  Specs.capabilityAssumed cfg = true ->
  providerIncluded (supportedProviders cfg) p = true ->
  lacksRequired cfg (getProviderCapabilities p) = false.
Proof.
  unfold Specs.capabilityAssumed. rewrite forallb_forall. intros H Hp.
  assert (Hin : In p [GEMINI; CLAUDE; OLLAMA])
    by (destruct p; cbn; auto).
  specialize (H p Hin). rewrite Hp in H. cbn [negb orb] in H.
  now apply negb_true_iff in H.
Qed.

Lemma checkTool_defaults (mappings : JsMap.t (list string)) (p : AIProvider)
  (tool : Tool) :
  let tm := {| toolRegistry := registerDefaultTools emptyRegistry;
               agentToolMappings := mappings |} in
  fst (checkTool tm p tool) = [].
Proof.
  intros tm. unfold checkTool.
  destruct (negb (isToolSupported (toolRegistry tm) (getToolName tool) p
                    (getProviderCapabilities p))); [|reflexivity].
  unfold getToolConfig. cbn [tm toolRegistry].
  destruct (JsMap.get (getToolName tool)
              (toolConfigs (registerDefaultTools emptyRegistry)))
    as [cfg|] eqn:Eg; [|reflexivity].
  destruct (providerIncluded (supportedProviders cfg) p) eqn:Ep;
    cbn [negb]; [|reflexivity].
  pose proof (capabilityAssumed_spec cfg p (defaultTools_assumed _ _ Eg) Ep)
    as Hl.
  unfold lacksRequired in Hl.
  destruct (requiresCapability cfg) as [k|]; [|reflexivity].
  rewrite Hl. reflexivity.
Qed.

End DefaultTools.

(** X26. A tool manager that holds the default tools only never fails a
    validation: for every agent config, [validateAgentTools] answers
    [valid: true] with no error, and every warning is either 'Unknown
    tool' for a name that is not registered, or the notice that the MCP
    tool is not supported by a provider other than Gemini. *)
Theorem validateAgentTools_defaults_never_fail :
  forall (mappings : JsMap.t (list string))
         (agentConfig : ProviderConfigValidation.AgentConfig),
    let tm := {| ToolManager.toolRegistry :=
                   ProviderToolRegistry.registerDefaultTools
                     ProviderToolRegistry.emptyRegistry;
                 ToolManager.agentToolMappings := mappings |} in
    let p := ProviderConfigValidation.agentProvider agentConfig in
    let v := ToolManager.validateAgentTools tm agentConfig in
    ToolManager.valid v = true
    /\ ToolManager.errors v = []
    /\ forall w,
         In w (ToolManager.warnings v) ->
         (exists tn,
             w = String.concat EmptyString ["Unknown tool '"; tn; "'"]%string
             /\ ProviderToolRegistry.getToolConfig
                  (ToolManager.toolRegistry tm) tn = None)
         \/ (p <> Types.GEMINI
             /\ w = String.concat EmptyString
                      ["Tool 'mcp_tool' is not supported by provider '";
                       Types.providerName p;
                       "'. Supported providers: gemini"]%string).
Proof.
  intros mappings agentConfig tm p v. subst v.
  unfold ToolManager.validateAgentTools.
  destruct (ProviderConfigValidation.tools agentConfig) as [[|t given]|];
    cbn [ToolManager.valid ToolManager.errors ToolManager.warnings];
    try (repeat split; intros; contradiction).
  fold p.
  assert (He : flat_map fst (map (ToolManager.checkTool tm p) (t :: given)) = []).
  { induction (t :: given) as [|x l IH]; [reflexivity|].
    cbn [map flat_map]. rewrite IH, app_nil_r.
    apply (checkTool_defaults mappings p x). }
  rewrite He. split; [reflexivity|]. split; [reflexivity|].
  intros w Hw. apply in_flat_map in Hw. destruct Hw as [r [Hr Hw]].
  apply in_map_iff in Hr. destruct Hr as [x [Hx _]]. subst r.
  unfold ToolManager.checkTool in Hw.
  destruct (negb (ProviderToolRegistry.isToolSupported _ _ _ _));
    [|contradiction].
  unfold ProviderToolRegistry.getToolConfig in *.
  destruct (JsMap.get (ProviderToolRegistry.getToolName x)
              (ProviderToolRegistry.toolConfigs (ToolManager.toolRegistry tm)))
    as [cfg|] eqn:Eg.
  - right.
    assert (Hall : forallb
                     (fun kv =>
                        forallb (ProviderToolRegistry.providerIncluded
                                   (ProviderToolRegistry.supportedProviders (snd kv)))
                          [Types.GEMINI; Types.CLAUDE; Types.OLLAMA]
                        || String.eqb (fst kv) "mcp_tool"
                           && match ProviderToolRegistry.supportedProviders (snd kv) with
                              | [Types.GEMINI] => true
                              | _ => false
                              end)
                     (ProviderToolRegistry.toolConfigs
                        (ToolManager.toolRegistry tm)) = true)
      by (vm_compute; reflexivity).
    rewrite forallb_forall in Hall.
    pose proof (Hall _ (JsMap_get_In _ _ _ Eg)) as Hi. cbn [fst snd] in Hi.
    destruct (ProviderToolRegistry.providerIncluded
                (ProviderToolRegistry.supportedProviders cfg) p) eqn:Ep;
      cbn [negb] in Hw.
    + exfalso.
      pose proof (capabilityAssumed_spec cfg p
                    (defaultTools_assumed _ _ Eg) Ep) as Hl.
      unfold ProviderToolRegistry.lacksRequired in Hl.
      destruct (ProviderToolRegistry.requiresCapability cfg) as [k|];
        [rewrite Hl in Hw|]; exact Hw.
    + apply orb_true_iff in Hi. destruct Hi as [Hi|Hi].
      * exfalso. rewrite forallb_forall in Hi.
        assert (Hin : In p [Types.GEMINI; Types.CLAUDE; Types.OLLAMA])
          by (destruct p; cbn; auto).
        rewrite (Hi p Hin) in Ep. discriminate.
      * apply andb_true_iff in Hi. destruct Hi as [Hk Hs].
        apply String.eqb_eq in Hk.
        destruct (ProviderToolRegistry.supportedProviders cfg)
          as [|[| |] [|? ?]] eqn:Esp; try discriminate.
        split.
        -- intros Hg. rewrite Hg in Ep. discriminate.
        -- cbn [fst snd] in Hw. destruct Hw as [Hw|[]].
           rewrite <- Hw, Hk. reflexivity.
  - left. cbn [snd] in Hw. destruct Hw as [Hw|[]].
    exists (ProviderToolRegistry.getToolName x). split; [now rewrite <- Hw|].
    exact Eg.
Qed.

(** ** Configurations: creation and merging *)

(** X27. An agent config made by [createAgentConfig] without overrides
    passes [validateAgentConfig] exactly when the agent id and the name
    are not empty and the provider's key is at hand: [GEMINI_API_KEY] or
    [GOOGLE_API_KEY] for Gemini, [ANTHROPIC_API_KEY] for Claude, nothing
    for Ollama.  With the key at hand the adapter's constructor accepts
    the provider config; the config is always enabled and for the
    provider asked for. *)
Theorem createAgentConfig_validates :
  forall (env : ProviderConfigValidation.ProcessEnv) (agentId name : string)
         (p : Types.AIProvider),
    let c := ProviderConfigValidation.createAgentConfig env agentId name p
               ProviderConfigValidation.noOverrides in
    let keyAvailable :=
      match p with
      | Types.GEMINI =>
          Js.truthy (BaseProviderClient.ENV_GEMINI_API_KEY
                       (ProviderConfigValidation.vars env))
          || Js.truthy (BaseProviderClient.ENV_GOOGLE_API_KEY
                          (ProviderConfigValidation.vars env))
      | Types.CLAUDE =>
          Js.truthy (BaseProviderClient.ENV_ANTHROPIC_API_KEY
                       (ProviderConfigValidation.vars env))
      | Types.OLLAMA => true
      end in
    (ProviderConfigValidation.validateAgentConfig
       (ProviderConfigValidation.vars env) c = []
     <-> Js.truthyString agentId = true /\ Js.truthyString name = true
         /\ keyAvailable = true)
    /\ (keyAvailable = true ->
        exists cl,
          ProviderFactory.construct (ProviderConfigValidation.vars env)
            (ProviderConfigValidation.providerConfig c) = inr cl
          /\ BaseProviderClient.config cl
             = ProviderConfigValidation.providerConfig c)
    /\ Types.enabled (ProviderConfigValidation.providerConfig c) = true
    /\ Types.provider (ProviderConfigValidation.providerConfig c) = p
    /\ ProviderConfigValidation.agentProvider c = p.
Proof.
  intros [[g go a oh] oe pr lo] agentId name p.
  cbv zeta.
  split; [|split; [|repeat split]].
  - destruct p, agentId as [|x1 s1], name as [|x2 s2];
      destruct g as [[|? ?]|], go as [[|? ?]|], a as [[|? ?]|];
      vm_compute; split; intros H;
      repeat match goal with
             | H0 : _ /\ _ |- _ => destruct H0
             end;
      try discriminate; try reflexivity; auto.
  - destruct p;
      destruct g as [[|? ?]|], go as [[|? ?]|], a as [[|? ?]|];
      cbn; intros H; try discriminate; eexists; split; reflexivity.
Qed.

(** X28. [mergeWithDefaults] is idempotent: merging a merged
    configuration again gives the same configuration.  The merged
    [maxConcurrentSessions] is never zero: a user value of zero gives the
    default 5, every other user value (a negative one as well) is kept;
    and without user agents the merged list of agents is empty. *)
Theorem mergeWithDefaults_idempotent :
  forall u : ProviderConfigValidation.UserConfig,
    let merged := ProviderConfigValidation.mergeWithDefaults u in
    ProviderConfigValidation.mergeWithDefaults
      (ProviderConfigValidation.asUserConfig merged) = merged
    /\ ProviderConfigValidation.maxConcurrentSessions merged <> 0%Z
    /\ (ProviderConfigValidation.userMaxConcurrentSessions u = Some 0%Z ->
        ProviderConfigValidation.maxConcurrentSessions merged = 5%Z)
    /\ (forall n,
           ProviderConfigValidation.userMaxConcurrentSessions u = Some n ->
           n <> 0%Z ->
           ProviderConfigValidation.maxConcurrentSessions merged = n)
    /\ (ProviderConfigValidation.userAgents u = None ->
        ProviderConfigValidation.agents merged = []).
Proof.
  intros [up ua ud uact um us]. cbv zeta.
  unfold ProviderConfigValidation.mergeWithDefaults,
    ProviderConfigValidation.asUserConfig.
  cbn [ProviderConfigValidation.userProviders
       ProviderConfigValidation.userAgents
       ProviderConfigValidation.userDefaultProvider
       ProviderConfigValidation.userActiveAgents
       ProviderConfigValidation.userMaxConcurrentSessions
       ProviderConfigValidation.userGlobalSettings
       ProviderConfigValidation.providers
       ProviderConfigValidation.agents
       ProviderConfigValidation.defaultProvider
       ProviderConfigValidation.activeAgents
       ProviderConfigValidation.maxConcurrentSessions
       ProviderConfigValidation.globalSettings
       ProviderConfigValidation.userGemini
       ProviderConfigValidation.userClaude
       ProviderConfigValidation.userOllama
       ProviderConfigValidation.userAutoSwitching
       ProviderConfigValidation.userLoadBalancing
       ProviderConfigValidation.userFallback
       ProviderConfigValidation.userTelemetry
       ProviderConfigValidation.orField
       ProviderConfigValidation.geminiConfig
       ProviderConfigValidation.claudeConfig
       ProviderConfigValidation.ollamaConfig
       ProviderConfigValidation.enableAutoSwitching
       ProviderConfigValidation.enableLoadBalancing
       ProviderConfigValidation.enableFallback
       ProviderConfigValidation.telemetryEnabled
       ProviderConfigValidation.createDefaultMultiProviderConfig].
  assert (Hm : match um with
               | Some n => if Z.eqb n 0 then 5%Z else n
               | None => 5%Z
               end <> 0%Z).
  { destruct um as [n|]; [|discriminate].
    destruct (Z.eqb n 0) eqn:E; [discriminate|]. now apply Z.eqb_neq. }
  split.
  - apply Z.eqb_neq in Hm. rewrite Hm.
    f_equal.
    + destruct up as [[ug uc uo]|]; reflexivity.
    + destruct us as [[s1 s2 s3 s4]|]; reflexivity.
  - split; [exact Hm|]. split; [|split].
    + intros H. inversion H. reflexivity.
    + intros n H Hn. inversion H. subst.
      apply Z.eqb_neq in Hn. now rewrite Hn.
    + intros H. subst ua. reflexivity.
Qed.

(** ** The endpoint of the Ollama adapter *)

Lemma length_append (a b : string) :
  String.length (String.append a b) = String.length a + String.length b.
Proof. induction a as [|c a IH]; simpl; [reflexivity|now rewrite IH]. Qed.

Lemma substring_all (b : string) : String.substring 0 (String.length b) b = b.
Proof. induction b as [|c b IH]; simpl; [reflexivity|now rewrite IH]. Qed.

Lemma substring_append (a b : string) (n : nat) :
  String.substring (String.length a) n (String.append a b)
  = String.substring 0 n b.
Proof. induction a as [|c a IH]; simpl; [reflexivity|exact IH]. Qed.

Lemma endsWith_append (a b : string) :
  Js.endsWith (String.append a b) b = true.
Proof.
  unfold Js.endsWith. rewrite length_append.
  replace (Nat.leb (String.length b) (String.length a + String.length b))
    with true by (symmetry; apply Nat.leb_le; lia).
  replace (String.length a + String.length b - String.length b)
    with (String.length a) by lia.
  rewrite substring_append, substring_all. apply String.eqb_refl.
Qed.

Lemma endsWith_append_other (a b p : string) :
  String.length b = String.length p -> String.eqb b p = false ->
  Js.endsWith (String.append a b) p = false.
Proof.
  intros Hlen Hne. unfold Js.endsWith. rewrite length_append, <- Hlen.
  replace (Nat.leb (String.length b) (String.length a + String.length b))
    with true by (symmetry; apply Nat.leb_le; lia).
  replace (String.length a + String.length b - String.length b)
    with (String.length a) by lia.
  rewrite substring_append, substring_all. exact Hne.
Qed.

Lemma dropTrailingSlash_slash (a : string) :
  OllamaProviderClient.dropTrailingSlash (String.append a "/") = a.
Proof.
  induction a as [|c a IH]; [reflexivity|].
  change (String.append (String c a) "/") with (String c (String.append a "/")).
  destruct a as [|c' a'].
  - reflexivity.
  - change (String.append (String c' a') "/")
      with (String c' (String.append a' "/")) in *.
    cbn [OllamaProviderClient.dropTrailingSlash] in *. now rewrite IH.
Qed.

(** X29. The constructor of the Ollama adapter throws exactly for a
    disabled config; otherwise the endpoint it keeps always ends with
    '/api': an endpoint (the config's, else [OLLAMA_HOST], else the local
    default) that ends with '/api' is kept as it is, one that ends with
    '/api/' ends with '/api/api' afterwards, and without a configured
    endpoint and host the endpoint is 'http://localhost:11434/api'. *)
Theorem OllamaProviderClient_endpoint_ends_with_api :
  forall (env : BaseProviderClient.Env) (c : Types.ProviderConfig),
    let ep := Js.orDefault
                (Js.orElse (Types.endpoint c)
                   (BaseProviderClient.ENV_OLLAMA_HOST env))
                "http://localhost:11434" in
    match OllamaProviderClient.construct env c with
    | inl _ => Types.enabled c = false
    | inr cl =>
        Types.enabled c = true
        /\ Js.endsWith (BaseProviderClient.clientEndpoint cl) "/api" = true
        /\ (forall s, ep = String.append s "/api" ->
                      BaseProviderClient.clientEndpoint cl = ep)
        /\ (forall s, ep = String.append s "/api/" ->
                      BaseProviderClient.clientEndpoint cl
                      = String.append s "/api/api")
        /\ (Types.endpoint c = None ->
            BaseProviderClient.ENV_OLLAMA_HOST env = None ->
            BaseProviderClient.clientEndpoint cl
            = "http://localhost:11434/api"%string)
    end.
Proof.
  intros env c ep. unfold OllamaProviderClient.construct,
    BaseProviderClient.construct.
  destruct (Types.enabled c); cbn [negb]; [|reflexivity].
  fold ep. cbn [BaseProviderClient.clientEndpoint].
  split; [reflexivity|]. split; [|split; [|split]].
  - destruct (Js.endsWith ep "/api") eqn:E; [exact E|].
    apply endsWith_append.
  - intros s Hs. rewrite Hs, endsWith_append. reflexivity.
  - intros s Hs. rewrite Hs.
    replace (String.append s "/api/")
      with (String.append (String.append s "/") "api/")
      by (rewrite append_assoc; reflexivity).
    rewrite (endsWith_append_other _ "api/" "/api") by reflexivity.
    replace (String.append (String.append s "/") "api/")
      with (String.append (String.append s "/api") "/")
      by (rewrite !append_assoc; reflexivity).
    rewrite dropTrailingSlash_slash, append_assoc. reflexivity.
  - intros He Hh. subst ep. rewrite He, Hh. reflexivity.
Qed.
